(** * Saving Planner: a shallow embedding of [currentversion-final-project.py]

    The development follows the Python module top to bottom: input
    validation, the [Plan] class, the [PlansManager] class with its flat
    file, the time-unit decorator, the two calculators (feasibility and
    time needed) and the tracker functions.

    Numbers.  The module is embedded twice.  The first embedding models
    Python [float] values by exact rationals [Q] (equality is [Qeq],
    written [==]) and Python [int] values by [Z]; [math.ceil],
    [math.floor] and [int()] on a float are [Qceiling], [Qfloor] and
    truncation towards zero.  It carries the properties that do not
    depend on how a number is rounded: the store and its file, the
    control flow of the menus and of the tracker, the case splits and
    the order of the code's own comparisons.  The second embedding,
    [Module Binary64], has the numbers of the interpreter (binary64 with
    its rounding, infinities and NaN, and the exceptions of the
    conversions) and carries the properties that do depend on them: the
    verdicts of menu 1, the period count and the loop of menu 2, what the
    validation lets through, the invariants of the stored numbers.

    Text.  A string is a sequence of characters with codes below 256.
    [lines_of] ends a line at a line feed and [strip] removes ASCII
    whitespace; the interpreter also ends a line at a carriage return and
    strips the whitespace beyond ASCII, so statements that read a file
    back ask for plain ASCII text without carriage returns.

    Exceptions.  Fallible code returns [result]; an exception that the
    source catches is handled in the model where the [except] clause is,
    any other propagates as [Raise].

    Builtins.  [float()], [int()] on strings and the formatting of numbers
    inside f-strings belong to the Python runtime, not to the module; the
    functions that use them take them as parameters ([Section Builtins]). A
    concrete instance for plain decimal literals is given at the end of the
    definitions of each embedding so that it can be run on concrete
    inputs. *)

From Stdlib Require Import QArith Qround ZArith Lia Lqa List String Ascii Bool.
From Stdlib Require Import DecimalString.
From Stdlib Require Import Qpower Floats.
Import ListNotations.

Open Scope string_scope.
Open Scope Z_scope.
Open Scope Q_scope.

(** ** Exceptions and the error monad *)

Inductive value_error : Type :=
| must_be_a_number (name : string)      (* input_validation, float() failed *)
| must_be_positive (name : string)      (* input_validation, number <= 0    *)
| saved_amount_must_be_positive         (* Plan.add_saved                   *)
| allowance_must_be_positive            (* Plan.update_allowance            *)
| expenses_must_be_positive             (* Plan.update_expenses             *)
| invalid_literal (text : string).      (* float() / int() on a string      *)

Inductive exn : Type :=
| ValueError (why : value_error)
| ZeroDivisionError.

Inductive result (A : Type) : Type :=
| Ok (a : A)
| Raise (e : exn).

Arguments Ok {A} a.
Arguments Raise {A} e.

Definition bind {A B : Type} (r : result A) (k : A -> result B) : result B :=
  match r with
  | Ok a => k a
  | Raise e => Raise e
  end.

Notation "x <- r ;; k" := (bind r (fun x => k))
  (at level 61, r at next level, right associativity).

(** ** Comparisons and arithmetic on numbers *)

Definition Qleb (x y : Q) : bool := Qle_bool x y.
Definition Qltb (x y : Q) : bool := negb (Qle_bool y x).

(** [x / y] on floats: division by zero raises. *)
Definition truediv (x y : Q) : result Q :=
  if Qeq_bool y 0 then Raise ZeroDivisionError else Ok (x / y).

(** [int(x)] on a float truncates towards zero. *)
Definition int_of_float (x : Q) : Z :=
  if Qltb x 0 then Qceiling x else Qfloor x.

Definition Z2Q (z : Z) : Q := inject_Z z.

(** ** String helpers ([str.replace], [str.strip], [str.split], line iteration) *)

(** [s.replace(c, "")] for a one-character [c]. *)
Fixpoint remove_char (c : ascii) (s : string) : string :=
  match s with
  | EmptyString => EmptyString
  | String a s' =>
      if Ascii.eqb a c then remove_char c s' else String a (remove_char c s')
  end.

(** Whitespace as [str.isspace] sees it on ASCII: TAB, LF, VT, FF, CR,
    FS, GS, RS, US and the space.  (Beyond ASCII, [str.isspace] also holds
    of characters such as U+0085 and U+00A0.) *)
Definition is_space (a : ascii) : bool :=
  let n := nat_of_ascii a in
  ((9 <=? n)%nat && (n <=? 13)%nat) || ((28 <=? n)%nat && (n <=? 32)%nat).

Fixpoint lstrip (s : string) : string :=
  match s with
  | EmptyString => EmptyString
  | String a s' => if is_space a then lstrip s' else s
  end.

Fixpoint rstrip (s : string) : string :=
  match s with
  | EmptyString => EmptyString
  | String a s' =>
      match rstrip s' with
      | EmptyString => if is_space a then EmptyString else String a EmptyString
      | r => String a r
      end
  end.

Definition strip (s : string) : string := rstrip (lstrip s).

(** [s.split(sep)] for a one-character separator: always at least one field. *)
Fixpoint str_split (sep : ascii) (s : string) : list string :=
  match s with
  | EmptyString => [EmptyString]
  | String a s' =>
      if Ascii.eqb a sep then EmptyString :: str_split sep s'
      else match str_split sep s' with
           | w :: ws => String a w :: ws
           | [] => [String a EmptyString]
           end
  end.

Definition newline : ascii := "010"%char.

(** [for line in f]: the content cut after every line feed, the line feed
    kept at the end of its line.  (A file opened for reading also ends a
    line at a carriage return; the content is taken to hold none.) *)
Fixpoint lines_of (content : string) : list string :=
  match content with
  | EmptyString => []
  | String a s' =>
      if Ascii.eqb a newline then String a EmptyString :: lines_of s'
      else match lines_of s' with
           | l :: ls => String a l :: ls
           | [] => [String a EmptyString]
           end
  end.

(** [answer.lower() == "y"]. *)
Definition lower_is (c : ascii) (C : ascii) (answer : string) : bool :=
  String.eqb answer (String c EmptyString) || String.eqb answer (String C EmptyString).

Definition lower_is_y : string -> bool := lower_is "y"%char "Y"%char.
Definition lower_is_n : string -> bool := lower_is "n"%char "N"%char.

(** ** The [Plan] class *)

Record Plan : Type := mkPlan {
  name : string;
  allowance : Q;
  expenses : Q;
  goal : Q;
  periods : Z;
  unit : string;
  multiplier : Z;
  saved_so_far : Q;
  days_passed : Z
}.

(** [Plan.__init__]: the tracker fields start at zero. *)
Definition Plan_init (name : string) (allowance expenses goal : Q) (periods : Z)
    (unit : string) (multiplier : Z) : Plan :=
  mkPlan name allowance expenses goal periods unit multiplier 0 0%Z.

Definition net (p : Plan) : Q := allowance p - expenses p.

Definition add_saved (p : Plan) (amount : Q) : result Plan :=
  if Qleb amount 0 then Raise (ValueError saved_amount_must_be_positive)
  else Ok (mkPlan (name p) (allowance p) (expenses p) (goal p) (periods p)
             (unit p) (multiplier p) (saved_so_far p + amount) (days_passed p + 1)%Z).

Definition update_allowance (p : Plan) (new_allowance : Q) : result Plan :=
  if Qleb new_allowance 0 then Raise (ValueError allowance_must_be_positive)
  else Ok (mkPlan (name p) new_allowance (expenses p) (goal p) (periods p)
             (unit p) (multiplier p) (saved_so_far p) (days_passed p)).

Definition update_expenses (p : Plan) (new_expenses : Q) : result Plan :=
  if Qleb new_expenses 0 then Raise (ValueError expenses_must_be_positive)
  else Ok (mkPlan (name p) (allowance p) new_expenses (goal p) (periods p)
             (unit p) (multiplier p) (saved_so_far p) (days_passed p)).

Definition reset (p : Plan) : Plan :=
  mkPlan (name p) (allowance p) (expenses p) (goal p) (periods p)
    (unit p) (multiplier p) 0 0%Z.

Definition total_days (p : Plan) : Z := (periods p * multiplier p)%Z.

(** [Plan.daily_needed]: the three returns of the source, in its order. *)
Definition daily_needed (p : Plan) : Q :=
  let remaining := goal p - saved_so_far p in
  let remaining_days := (total_days p - days_passed p)%Z in
  if (remaining_days <=? 0)%Z then 0
  else if Qltb remaining 0 then - (saved_so_far p - goal p) / Z2Q remaining_days
  else remaining / Z2Q remaining_days.

Record report : Type := mkReport {
  r_goal : Q;
  r_saved_so_far : Q;
  r_remaining : Q;
  r_days_passed : Z;
  r_days_left : Z;
  r_daily_needed : Q;
  r_average_saved : Q;
  r_expected_total : Q;
  r_total_days : Z
}.

Definition Qmax (x y : Q) : Q := if Qltb x y then y else x.

Definition progress_report (p : Plan) : report :=
  let total := total_days p in
  let remaining := Qmax (goal p - saved_so_far p) 0 in
  let days_left := Z.max (total - days_passed p) 0 in
  let average_saved :=
    if (0 <? days_passed p)%Z then saved_so_far p / Z2Q (days_passed p) else 0 in
  let expected_total := average_saved * Z2Q total in
  mkReport (goal p) (saved_so_far p) remaining (days_passed p) days_left
    (daily_needed p) average_saved expected_total total.

(** ** The plans dictionary

    [PlansManager.plans] is a Python [dict]: insertion ordered, assignment
    to a present key replaces the value where the key stands, assignment
    to a new key appends. *)

Definition plans_dict : Type := list (string * Plan).

Fixpoint dict_get (k : string) (d : plans_dict) : option Plan :=
  match d with
  | [] => None
  | (k', v) :: d' => if String.eqb k' k then Some v else dict_get k d'
  end.

Fixpoint dict_set (k : string) (v : Plan) (d : plans_dict) : plans_dict :=
  match d with
  | [] => [(k, v)]
  | (k', v') :: d' =>
      if String.eqb k' k then (k, v) :: d' else (k', v') :: dict_set k v d'
  end.

Fixpoint dict_pop (k : string) (d : plans_dict) : plans_dict :=
  match d with
  | [] => []
  | (k', v') :: d' =>
      if String.eqb k' k then d' else (k', v') :: dict_pop k d'
  end.

Definition dict_values (d : plans_dict) : list Plan := map snd d.
Definition dict_keys (d : plans_dict) : list string := map fst d.

(** The manager together with the one file it works on: [the_plan_txt] is
    [None] while "the-plan.txt" does not exist. *)
Record state : Type := mkState {
  plans : plans_dict;
  the_plan_txt : option string
}.

Definition file_content (f : option string) : string :=
  match f with
  | Some c => c
  | None => EmptyString
  end.

(** ** Time-unit decorator: choice to unit and multiplier, asking again on
    an invalid choice ([None]: every answer given so far was invalid). *)

Definition time_unit_of_choice (choice : string) : option (string * Z) :=
  if String.eqb choice "1" then Some ("day", 1%Z)
  else if String.eqb choice "2" then Some ("week", 7%Z)
  else if String.eqb choice "3" then Some ("month", 30%Z)
  else if String.eqb choice "4" then Some ("year", 365%Z)
  else None.

Fixpoint with_time_unit {A : Type} (menu_func : Z -> string -> A)
    (choices : list string) : option A :=
  match choices with
  | [] => None
  | choice :: rest =>
      match time_unit_of_choice choice with
      | Some (unit, multiplier) => Some (menu_func multiplier unit)
      | None => with_time_unit menu_func rest
      end
  end.

(** ** Results shown by the two calculators *)

Inductive feasibility : Type :=
| GoalPossible (required_per_unit : Q) (daily_saving : Q) (extra : Z)
| NotPossibleEvenWithoutExpenses (max_total : Z) (max_daily : Z)
| NotPossibleWithCurrentExpenses (cut_per_unit : Z) (needed_cut : Z).

Inductive feasibility_outcome : Type :=
| FeasibilityInputError (e : value_error)
| FeasibilityResult (v : feasibility) (saved : option Plan).

Inductive time_outcome : Type :=
| TimeInputError (e : value_error)
| CannotSaveAnyMoney (must_cut : Q)
| TimeNeeded (with_interest : bool) (periods_needed : Z) (days : Z)
    (saved : option Plan).

(** Answers typed at the prompts of menu 1, in the order they are asked. *)
Record feasibility_inputs : Type := mkFeasibilityInputs {
  fi_allowance : string;
  fi_expenses : string;
  fi_duration : string;
  fi_goal : string;
  fi_save_choice : string;
  fi_plan_name : string
}.

(** Answers typed at the prompts of menu 2. *)
Record time_inputs : Type := mkTimeInputs {
  ti_allowance : string;
  ti_expenses : string;
  ti_goal : string;
  ti_use_interest : string;
  ti_interest_rate : string;
  ti_save_choice : string;
  ti_plan_name : string
}.

(** ** Menu 1, the arithmetic (source lines 294-325)

    The verdict is what the three branches print. *)
Definition check_feasibility (allowance expenses duration goal : Q)
    (multiplier : Z) : result feasibility :=
  daily_allowance <- truediv allowance (Z2Q multiplier) ;;
  daily_expenses <- truediv expenses (Z2Q multiplier) ;;
  let daily_saving := daily_allowance - daily_expenses in
  let total_days := (int_of_float duration * multiplier)%Z in
  let total_saving_possible := daily_saving * Z2Q total_days in
  per_day <- truediv goal (Z2Q total_days) ;;
  let required_daily := Qceiling per_day in
  if Qleb goal total_saving_possible then
    let extra := total_saving_possible - goal in
    per_unit <- truediv (Z2Q required_daily) (Z2Q multiplier) ;;
    Ok (GoalPossible per_unit daily_saving (Qfloor extra))
  else
    let max_possible := daily_allowance * Z2Q total_days in
    per_day' <- truediv goal (Z2Q total_days) ;;
    let needed_cut := Qceiling (per_day' + daily_expenses - daily_allowance) in
    if Qltb max_possible goal then
      Ok (NotPossibleEvenWithoutExpenses (Qfloor max_possible) (Qfloor daily_allowance))
    else
      cut <- truediv (Z2Q needed_cut) (Z2Q multiplier) ;;
      Ok (NotPossibleWithCurrentExpenses (Qceiling cut) needed_cut).

(** ** Menu 2, the compound-interest loop (source lines 376-381)

    [while total_saved < goal: ...], with fuel for the iterations; [None]
    when the fuel is used up before the loop condition fails.  [daily] is
    the source's [net/multiplier], which does not change inside the loop;
    menu 2 below computes it once, before the loop (the body runs at least
    once because the goal is positive, so a division by a zero multiplier
    is raised either way). *)
Fixpoint interest_loop (fuel : nat) (goal daily interest_rate total_saved : Q)
    (total_days : Z) : option (Q * Z) :=
  match fuel with
  | O => None
  | S fuel' =>
      if Qltb total_saved goal then
        let total_saved1 := total_saved + daily in
        let total_saved2 := total_saved1 * (1 + interest_rate / 365) in
        interest_loop fuel' goal daily interest_rate total_saved2 (total_days + 1)%Z
      else Some (total_saved, total_days)
  end.

(** ** Code that goes through the runtime's conversions *)

Section Builtins.

(** [float(s)] and [int(s)] on a string ([None]: the builtin raises
    ValueError), and the text an f-string produces for a float and for an
    int. *)
Variable py_float : string -> option Q.
Variable py_int : string -> option Z.
Variable str_float : Q -> string.
Variable str_int : Z -> string.

Definition float_of (s : string) : result Q :=
  match py_float s with
  | Some q => Ok q
  | None => Raise (ValueError (invalid_literal s))
  end.

Definition int_of (s : string) : result Z :=
  match py_int s with
  | Some z => Ok z
  | None => Raise (ValueError (invalid_literal s))
  end.

(** *** [input_validation] *)
Definition input_validation (value : string) (name : string) : result Q :=
  let value := remove_char " " (remove_char "," value) in
  match py_float value with
  | None => Raise (ValueError (must_be_a_number name))
  | Some number =>
      if Qleb number 0 then Raise (ValueError (must_be_positive name))
      else Ok number
  end.

(** *** [PlansManager] *)

(** The line both writers produce for a plan, line feed included. *)
Definition record_line (p : Plan) : string :=
  name p ++ "|" ++ str_float (allowance p) ++ "|" ++ str_float (expenses p)
    ++ "|" ++ str_float (goal p) ++ "|" ++ str_int (periods p)
    ++ "|" ++ unit p ++ "|" ++ str_int (multiplier p)
    ++ "|" ++ str_float (saved_so_far p) ++ "|" ++ str_int (days_passed p)
    ++ String newline EmptyString.

(** [open("the-plan.txt", "a")] then one [write]. *)
Definition write_plan_to_file (st : state) (plan : Plan) : state :=
  mkState (plans st)
    (Some (file_content (the_plan_txt st) ++ record_line plan)).

(** [open("the-plan.txt", "w")] then one [write] per stored plan. *)
Definition write_all_plans_to_file (st : state) : state :=
  mkState (plans st)
    (Some (String.concat "" (map record_line (dict_values (plans st))))).

Definition save_plan (st : state) (plan : Plan) : state :=
  let st1 := mkState (dict_set (name plan) plan (plans st)) (the_plan_txt st) in
  write_plan_to_file st1 plan.

(** The body of the [for line in f] loop of [load_plans_from_file]. *)
Definition load_line (d : plans_dict) (line : string) : result plans_dict :=
  let parts := str_split "|" (strip line) in
  match parts with
  | [name; allowance; expenses; goal; periods; unit; multiplier;
     saved_so_far; days_passed] =>
      allowance' <- float_of allowance ;;
      expenses' <- float_of expenses ;;
      goal' <- float_of goal ;;
      periods' <- int_of periods ;;
      multiplier' <- int_of multiplier ;;
      let the_plan := Plan_init name allowance' expenses' goal' periods' unit multiplier' in
      saved_so_far' <- float_of saved_so_far ;;
      days_passed' <- int_of days_passed ;;
      let the_plan :=
        mkPlan name allowance' expenses' goal' periods' unit multiplier'
          saved_so_far' days_passed' in
      Ok (dict_set name the_plan d)
  | _ => Ok d
  end.

Fixpoint load_lines (d : plans_dict) (lines : list string) : result plans_dict :=
  match lines with
  | [] => Ok d
  | line :: rest => d' <- load_line d line ;; load_lines d' rest
  end.

(** [load_plans_from_file]: only FileNotFoundError is caught. *)
Definition load_plans_from_file (st : state) : result state :=
  match the_plan_txt st with
  | None => Ok st
  | Some content =>
      d <- load_lines (plans st) (lines_of content) ;;
      Ok (mkState d (the_plan_txt st))
  end.

(** *** Menu 1: [menu_check_feasibility] *)
Definition menu_check_feasibility (st : state) (multiplier : Z)
    (unit_name : string) (inp : feasibility_inputs)
    : result (state * feasibility_outcome) :=
  match
    (allowance <- input_validation (fi_allowance inp) "Allowance" ;;
     expenses <- input_validation (fi_expenses inp) "Expenses" ;;
     duration <- input_validation (fi_duration inp) "Duration" ;;
     goal <- input_validation (fi_goal inp) "Goal" ;;
     Ok (allowance, expenses, duration, goal))
  with
  | Raise (ValueError e) => Ok (st, FeasibilityInputError e)
  | Raise e => Raise e
  | Ok (allowance, expenses, duration, goal) =>
      v <- check_feasibility allowance expenses duration goal multiplier ;;
      match v with
      | GoalPossible _ _ _ =>
          if lower_is_y (fi_save_choice inp) then
            let plan := Plan_init (fi_plan_name inp) allowance expenses goal
                          (int_of_float duration) unit_name multiplier in
            Ok (save_plan st plan, FeasibilityResult v (Some plan))
          else Ok (st, FeasibilityResult v None)
      | NotPossibleEvenWithoutExpenses _ _ => Ok (st, FeasibilityResult v None)
      | NotPossibleWithCurrentExpenses _ needed_cut =>
          if lower_is_y (fi_save_choice inp) then
            cut <- truediv (Z2Q needed_cut) (Z2Q multiplier) ;;
            let new_expenses := expenses - cut in
            let plan := Plan_init (fi_plan_name inp) allowance new_expenses goal
                          (int_of_float duration) unit_name multiplier in
            Ok (save_plan st plan, FeasibilityResult v (Some plan))
          else Ok (st, FeasibilityResult v None)
      end
  end.

(** *** Menu 2: [menu_time_needed]

    [None]: the interest loop was still running when the fuel ended. *)
Definition menu_time_needed (fuel : nat) (st : state) (multiplier : Z)
    (unit_name : string) (inp : time_inputs)
    : option (result (state * time_outcome)) :=
  let finish (allowance expenses goal : Q) (with_interest : bool)
             (periods_needed days : Z) :=
    if lower_is_y (ti_save_choice inp) then
      let plan := Plan_init (ti_plan_name inp) allowance expenses goal
                    periods_needed unit_name multiplier in
      Ok (save_plan st plan, TimeNeeded with_interest periods_needed days (Some plan))
    else Ok (st, TimeNeeded with_interest periods_needed days None) in
  match
    (allowance <- input_validation (ti_allowance inp) "Allowance" ;;
     expenses <- input_validation (ti_expenses inp) "Expenses" ;;
     goal <- input_validation (ti_goal inp) "Goal" ;;
     Ok (allowance, expenses, goal))
  with
  | Raise (ValueError e) => Some (Ok (st, TimeInputError e))
  | Raise e => Some (Raise e)
  | Ok (allowance, expenses, goal) =>
      let net := allowance - expenses in
      if Qleb net 0 then
        Some (Ok (st, CannotSaveAnyMoney ((expenses - allowance) + 1)))
      else if lower_is_n (ti_use_interest inp) then
        match truediv goal net with
        | Raise e => Some (Raise e)
        | Ok q =>
            let periods_needed := Qceiling q in
            let days := (periods_needed * multiplier)%Z in
            Some (finish allowance expenses goal false periods_needed days)
        end
      else
        match input_validation (ti_interest_rate inp) "Interest rate" with
        | Raise (ValueError e) => Some (Ok (st, TimeInputError e))
        | Raise e => Some (Raise e)
        | Ok percent =>
            let interest_rate := percent / 100 in
            match truediv net (Z2Q multiplier) with
            | Raise e => Some (Raise e)
            | Ok daily =>
                match interest_loop fuel goal daily interest_rate 0 0%Z with
                | None => None
                | Some (_, total_days) =>
                    match truediv (Z2Q total_days) (Z2Q multiplier) with
                    | Raise e => Some (Raise e)
                    | Ok q =>
                        let periods_needed := Qceiling q in
                        Some (finish allowance expenses goal true
                                periods_needed total_days)
                    end
                end
            end
        end
  end.

(** *** Tracker functions

    The tracker works on the [Plan] object that sits in the dictionary, so
    a change made through the tracker is a change of the dictionary entry:
    the functions take the plan's key. *)

Definition add_saved_amount (st : state) (key : string) (raw : string) : state :=
  match dict_get key (plans st) with
  | None => st
  | Some plan =>
      match (amount <- input_validation raw "Saved amount" ;;
             add_saved plan amount) with
      | Ok plan' =>
          write_all_plans_to_file
            (mkState (dict_set key plan' (plans st)) (the_plan_txt st))
      | Raise _ => st
      end
  end.

(** [update_allowance] has taken effect when [update_expenses] raises. *)
Definition adjust_plan (st : state) (key : string)
    (raw_allowance raw_expenses : string) : state :=
  match dict_get key (plans st) with
  | None => st
  | Some plan =>
      match (new_allowance <- input_validation raw_allowance "Allowance" ;;
             new_expenses <- input_validation raw_expenses "Expenses" ;;
             Ok (new_allowance, new_expenses)) with
      | Raise _ => st
      | Ok (new_allowance, new_expenses) =>
          match update_allowance plan new_allowance with
          | Raise _ => st
          | Ok plan1 =>
              let st1 := mkState (dict_set key plan1 (plans st)) (the_plan_txt st) in
              match update_expenses plan1 new_expenses with
              | Raise _ => st1
              | Ok plan2 =>
                  write_all_plans_to_file
                    (mkState (dict_set key plan2 (plans st1)) (the_plan_txt st1))
              end
          end
      end
  end.

Definition reset_plan (st : state) (key : string) (confirm : string) : state :=
  match dict_get key (plans st) with
  | None => st
  | Some plan =>
      if lower_is_y confirm then
        write_all_plans_to_file
          (mkState (dict_set key (reset plan) (plans st)) (the_plan_txt st))
      else st
  end.

(** Menu 3, action 3: delete the selected plan. *)
Definition delete_plan (st : state) (key : string) (confirm : string) : state :=
  if lower_is_y confirm then
    write_all_plans_to_file (mkState (dict_pop key (plans st)) (the_plan_txt st))
  else st.

End Builtins.

(** ** A concrete instance of the conversions: plain decimal literals

    [decimal_float] and [decimal_int] accept an optional sign and decimal
    digits (with one optional point for the float), surrounded by
    whitespace; this is the part of the grammar of [float()] and [int()]
    the planner's own file and ordinary keyboard input use.  Exponents,
    underscores, "inf" and "nan" are not covered. *)

Definition digit_of (a : ascii) : option Z :=
  let n := nat_of_ascii a in
  if (48 <=? n)%nat && (n <=? 57)%nat then Some (Z.of_nat (n - 48)) else None.

(** Value and number of digits of a string of digits, read after [acc]. *)
Fixpoint digits_value (acc : Z) (count : nat) (s : string) : option (Z * nat) :=
  match s with
  | EmptyString => Some (acc, count)
  | String a s' =>
      match digit_of a with
      | Some d => digits_value (acc * 10 + d)%Z (S count) s'
      | None => None
      end
  end.

Definition split_sign (s : string) : bool * string :=
  match s with
  | String "-" s' => (true, s')
  | String "+" s' => (false, s')
  | _ => (false, s)
  end.

Definition decimal_int (s : string) : option Z :=
  let (negative, body) := split_sign (strip s) in
  match digits_value 0 0 body with
  | Some (v, S _) => Some (if negative then (- v)%Z else v)
  | _ => None
  end.

Definition decimal_float (s : string) : option Q :=
  let (negative, body) := split_sign (strip s) in
  let signed (q : Q) := if negative then - q else q in
  match str_split "." body with
  | [whole] =>
      match digits_value 0 0 whole with
      | Some (v, S _) => Some (signed (Z2Q v))
      | _ => None
      end
  | [whole; frac] =>
      match digits_value 0 0 whole, digits_value 0 0 frac with
      | Some (v, n), Some (w, m) =>
          match (n + m)%nat with
          | O => None
          | S _ =>
              let scale := (10 ^ Z.of_nat m)%Z in
              Some (signed (Qmake (v * scale + w) (Z.to_pos scale)))
          end
      | _, _ => None
      end
  | _ => None
  end.

Definition decimal_str_int (z : Z) : string :=
  DecimalString.NilZero.string_of_int (Z.to_int z).

(** Up to [n] decimals of [r / den] for [0 <= r < den], stopping when the
    expansion ends. *)
Fixpoint decimals (n : nat) (r den : Z) : string :=
  match n with
  | O => EmptyString
  | S n' =>
      if (r =? 0)%Z then EmptyString
      else
        let r10 := (r * 10)%Z in
        (decimal_str_int (r10 / den) ++ decimals n' (r10 mod den) den)%string
  end.

Definition decimal_str_float (q : Q) : string :=
  let num := Qnum q in
  let den := Zpos (Qden q) in
  let whole := Z.quot num den in
  let rest := Z.abs (Z.rem num den) in
  let sign := if (num <? 0)%Z && (whole =? 0)%Z then "-" else "" in
  let frac := decimals 17 rest den in
  (sign ++ decimal_str_int whole ++ "."
     ++ (if String.eqb frac "" then "0" else frac))%string.

(** ** Vocabulary of the statements *)

(** The three cases of the feasibility check. *)
Inductive feasibility_case : Type :=
| Possible
| ImpossibleEvenZeroExpenses
| ConditionallyPossible.

Definition case_of (v : feasibility) : feasibility_case :=
  match v with
  | GoalPossible _ _ _ => Possible
  | NotPossibleEvenWithoutExpenses _ _ => ImpossibleEvenZeroExpenses
  | NotPossibleWithCurrentExpenses _ _ => ConditionallyPossible
  end.

(** The quantities menu 1 compares, as the source computes them. *)
Definition total_days_of (duration : Q) (multiplier : Z) : Z :=
  (int_of_float duration * multiplier)%Z.

Definition total_saving_possible (allowance expenses duration : Q)
    (multiplier : Z) : Q :=
  (allowance / Z2Q multiplier - expenses / Z2Q multiplier)
    * Z2Q (total_days_of duration multiplier).

Definition max_possible (allowance duration : Q) (multiplier : Z) : Q :=
  allowance / Z2Q multiplier * Z2Q (total_days_of duration multiplier).

(** The cut per day menu 1 computes on its second branch. *)
Definition needed_cut_per_day (allowance expenses duration goal : Q)
    (multiplier : Z) : Z :=
  Qceiling (goal / Z2Q (total_days_of duration multiplier)
            + expenses / Z2Q multiplier - allowance / Z2Q multiplier).

(** A per-day amount expressed per unit: the inverse of the normalisation
    [allowance / multiplier] with which menu 1 starts. *)
Definition per_unit_of_per_day (per_day : Z) (multiplier : Z) : Z :=
  (per_day * multiplier)%Z.

(** What a plan saves over its whole length: [net] per period. *)
Definition plan_total_saving (p : Plan) : Q := net p * Z2Q (periods p).

(** The invariants of the data model. *)
Definition plan_invariant (p : Plan) : Prop :=
  0 < allowance p /\ 0 < expenses p /\ 0 < goal p /\ (0 < periods p)%Z
  /\ 0 <= saved_so_far p /\ (0 <= days_passed p)%Z.

Definition store_invariant (st : state) : Prop :=
  forall p, In p (dict_values (plans st)) -> plan_invariant p.



(** Menu 1 ended on its conditional branch with the adjusted plan saved. *)
Definition adjusted_save (o : feasibility_outcome) : Prop :=
  match o with
  | FeasibilityResult (NotPossibleWithCurrentExpenses _ _) (Some _) => True
  | _ => False
  end.

(** One operation of the running program on the manager: the two
    calculators behind the time-unit question, the tracker functions and
    the deletion.  Menu 1 contributes every ending but [adjusted_save];
    loading the file is not among the steps. *)
Inductive public_step (py_float : string -> option Q)
    (str_float : Q -> string) (str_int : Z -> string) : state -> state -> Prop :=
| step_check_feasibility st choices inp st' o :
    with_time_unit
      (fun multiplier unit_name =>
         menu_check_feasibility py_float str_float str_int st multiplier unit_name inp)
      choices = Some (Ok (st', o)) ->
    ~ adjusted_save o ->
    public_step py_float str_float str_int st st'
| step_time_needed fuel st choices inp st' o :
    with_time_unit
      (fun multiplier unit_name =>
         menu_time_needed py_float str_float str_int fuel st multiplier unit_name inp)
      choices = Some (Some (Ok (st', o))) ->
    public_step py_float str_float str_int st st'
| step_add_saved_amount st key raw :
    public_step py_float str_float str_int st
      (add_saved_amount py_float str_float str_int st key raw)
| step_adjust_plan st key raw_allowance raw_expenses :
    public_step py_float str_float str_int st
      (adjust_plan py_float str_float str_int st key raw_allowance raw_expenses)
| step_reset_plan st key confirm :
    public_step py_float str_float str_int st
      (reset_plan str_float str_int st key confirm)
| step_delete_plan st key confirm :
    public_step py_float str_float str_int st
      (delete_plan str_float str_int st key confirm).

(** ** Sample data the statements are run on *)

(** Three plans for the daily target: on time, ahead of the goal, out of days. *)
Definition plan_on_time : Plan := mkPlan "a" 500 300 1000 10 "day" 1 400 4.
Definition plan_out_of_time : Plan := mkPlan "c" 500 300 1000 2 "week" 7 600 14.

(** No plan, no file. *)
Definition empty_state : state := mkState [] None.

(** Menu 1 answered with half a unit as the duration. *)
Definition half_unit_inputs : feasibility_inputs :=
  mkFeasibilityInputs "500" "300" "0.5" "1,000" "y" "trip".

(** Menu 1 answered per day with an allowance equal to the goal. *)
Definition all_or_nothing_inputs : feasibility_inputs :=
  mkFeasibilityInputs "100" "50" "1" "100" "y" "trip".

(** Menu 1 answered per day with a goal the plan meets. *)
Definition easy_inputs : feasibility_inputs :=
  mkFeasibilityInputs "500" "300" "30" "3000" "y" "trip".

(** Menu 1 answered per week: allowance 700, expenses 350, one week,
    goal 400, and the adjusted plan accepted. *)
Definition week_inputs : feasibility_inputs :=
  mkFeasibilityInputs "700" "350" "1" "400" "y" "trip".

(** Menu 1 answered per day with the scenario of the specification. *)
Definition scenario_inputs : feasibility_inputs :=
  mkFeasibilityInputs "500" "300" "30" "10000" "y" "trip".

(** Menu 2 answered without interest: allowance 1000, expenses 200, goal 5000. *)
Definition no_interest_inputs : time_inputs :=
  mkTimeInputs "1000" "200" "5000" "n" "" "y" "bike".

(** Menu 2 answered with 5 percent interest: allowance 500, expenses 300,
    goal 1000; and with expenses above the allowance. *)
Definition interest_inputs : time_inputs :=
  mkTimeInputs "500" "300" "1000" "y" "5" "y" "bike".

(** Two plans under one name, and a file with an unreadable number in its
    first record. *)
Definition trip_plan : Plan := Plan_init "trip" 500 300 3000 30 "day" 1.
Definition trip_plan_again : Plan := Plan_init "trip" 500 300 6000 30 "day" 1.

Definition file_with_bad_number : string :=
  "first|abc|300.0|10000.0|30|day|1|0.0|0" ++ String newline
    ("second|500.0|300.0|10000.0|30|day|1|0.0|0" ++ String newline "").

Definition file_with_short_line : string :=
  "first|500.0|300.0" ++ String newline
    ("second|500.0|300.0|10000.0|30|day|1|0.0|0" ++ String newline "").

Definition file_with_negative_numbers : string :=
  "debt|-5.0|0.0|10000.0|0|day|1|-1.0|0" ++ String newline "".

(** ** The rest of the tracker and of menu 3 *)

(** The status line of [show_progress_report] (source lines 449-456). *)
Inductive schedule_status : Type :=
| AheadOfSchedule
| BehindSchedule
| RightOnTrack.

Definition status_of (p : Plan) : schedule_status :=
  let expected_by_now := daily_needed p * Z2Q (days_passed p) in
  if Qltb expected_by_now (saved_so_far p) then AheadOfSchedule
  else if Qltb (saved_so_far p) expected_by_now then BehindSchedule
  else RightOnTrack.

(** [show_progress_report] prints the report and the status. *)
Definition show_progress_report (p : Plan) : report * schedule_status :=
  (progress_report p, status_of p).

(** What [recalc_daily_needed] prints. *)
Inductive recalc_message : Type :=
| GoalAlreadyReached
| NoTimeLeft
| NewDailySavingNeeded (amount : Z).

Definition recalc_daily_needed (p : Plan) : recalc_message :=
  let new_daily_needed := daily_needed p in
  if Qeq_bool new_daily_needed 0 && Qleb (goal p) (saved_so_far p)
  then GoalAlreadyReached
  else if Qeq_bool new_daily_needed 0 then NoTimeLeft
  else NewDailySavingNeeded (Qceiling new_daily_needed).

(** What the tracker loop shows between two questions. *)
Inductive tracker_output : Type :=
| ShownReport (r : report) (s : schedule_status)
| ShownRecalc (m : recalc_message)
| InvalidOption.

(** How a run of the tracker loop ends: option 6 was typed, the input ended
    at a prompt ([input()] raises EOFError, which nothing catches), or the
    fuel of the model ran out. *)
Inductive tracker_run : Type :=
| TrackerExit (st : state) (shown : list tracker_output) (rest : list string)
| TrackerEndOfInput (st : state) (shown : list tracker_output)
| TrackerOutOfFuel.

(** The plan picked in the list of menu 3 (source lines 576-588). *)
Inductive selection : Type :=
| ExitSavedPlans
| InvalidPlanNumber
| InvalidInput
| Selected (plan_name : string) (plan : Plan)
| LookupFailed.

Section TrackerAndMenu3.
Variable py_float : string -> option Q.
Variable py_int : string -> option Z.
Variable str_float : Q -> string.
Variable str_int : Z -> string.

(** [track_plan]: the lines typed are [stdin]; every prompt takes the next
    line.  [adjust_plan] asks for the expenses only when the allowance
    passed the validation (the exception skips the second [input]). *)
Fixpoint track_plan (fuel : nat) (stdin : list string) (st : state)
    (key : string) (shown : list tracker_output) : tracker_run :=
  match fuel with
  | O => TrackerOutOfFuel
  | S fuel' =>
      match stdin with
      | [] => TrackerEndOfInput st shown
      | choice :: rest =>
          if String.eqb choice "1" then
            match rest with
            | [] => TrackerEndOfInput st shown
            | raw :: rest' =>
                track_plan fuel' rest'
                  (add_saved_amount py_float str_float str_int st key raw) key shown
            end
          else if String.eqb choice "2" then
            match dict_get key (plans st) with
            | Some plan =>
                let (r, s) := show_progress_report plan in
                track_plan fuel' rest st key (shown ++ [ShownReport r s])
            | None => track_plan fuel' rest st key shown
            end
          else if String.eqb choice "3" then
            match rest with
            | [] => TrackerEndOfInput st shown
            | raw_allowance :: rest1 =>
                match input_validation py_float raw_allowance "Allowance" with
                | Raise _ => track_plan fuel' rest1 st key shown
                | Ok _ =>
                    match rest1 with
                    | [] => TrackerEndOfInput st shown
                    | raw_expenses :: rest2 =>
                        track_plan fuel' rest2
                          (adjust_plan py_float str_float str_int st key
                             raw_allowance raw_expenses) key shown
                    end
                end
            end
          else if String.eqb choice "4" then
            match dict_get key (plans st) with
            | Some plan =>
                track_plan fuel' rest st key
                  (shown ++ [ShownRecalc (recalc_daily_needed plan)])
            | None => track_plan fuel' rest st key shown
            end
          else if String.eqb choice "5" then
            match rest with
            | [] => TrackerEndOfInput st shown
            | confirm :: rest' =>
                track_plan fuel' rest'
                  (reset_plan str_float str_int st key confirm) key shown
            end
          else if String.eqb choice "6" then TrackerExit st shown rest
          else track_plan fuel' rest st key (shown ++ [InvalidOption])
      end
  end.

(** The choice of a plan by its number in the list of menu 3:
    [plan_names[choice - 1]] and [plans[selected_name]] are lookups that
    raise when they fail ([LookupFailed]). *)
Definition choose_plan (d : plans_dict) (raw : string) : selection :=
  let plan_names := dict_keys d in
  match py_int raw with
  | None => InvalidInput
  | Some choice =>
      if (choice =? 0)%Z then ExitSavedPlans
      else if (choice <? 0)%Z || (Z.of_nat (List.length plan_names) <? choice)%Z
      then InvalidPlanNumber
      else
        match nth_error plan_names (Z.to_nat (choice - 1)) with
        | None => LookupFailed
        | Some selected_name =>
            match dict_get selected_name d with
            | None => LookupFailed
            | Some selected_plan => Selected selected_name selected_plan
            end
        end
  end.

End TrackerAndMenu3.


(** ** Vocabulary for the file format *)

(** [c] does not occur in [s]. *)
Fixpoint no_char (c : ascii) (s : string) : bool :=
  match s with
  | EmptyString => true
  | String a s' => negb (Ascii.eqb a c) && no_char c s'
  end.

(** A text that can stand between two separators of a record. *)
Definition field_clean (s : string) : bool :=
  no_char "|" s && no_char newline s.

Definition starts_clean (s : string) : bool :=
  match s with
  | EmptyString => true
  | String a _ => negb (is_space a)
  end.

(** A text of plain ASCII characters without a carriage return.  On such
    a text the line iteration of a file opened for reading (which also
    ends a line at a carriage return) and [str.strip] (which also removes
    the whitespace beyond ASCII) do what [lines_of] and [strip] do. *)
Definition plain_char (a : ascii) : bool :=
  (nat_of_ascii a <? 128)%nat && negb (Ascii.eqb a "013"%char).

Fixpoint plain_text (s : string) : bool :=
  match s with
  | EmptyString => true
  | String a s' => plain_char a && plain_text s'
  end.

(** Two plans with the same fields, numbers compared as numbers. *)
Definition plan_equiv (p q : Plan) : Prop :=
  name p = name q /\ allowance p == allowance q /\ expenses p == expenses q
  /\ goal p == goal q /\ periods p = periods q /\ unit p = unit q
  /\ multiplier p = multiplier q /\ saved_so_far p == saved_so_far q
  /\ days_passed p = days_passed q.

Section FileFormat.
Variable py_float : string -> option Q.
Variable py_int : string -> option Z.
Variable str_float : Q -> string.
Variable str_int : Z -> string.

(** The texts of a plan can be told apart again in a line of the file: no
    field holds a separator or a line feed, the name does not start and the
    last field does not end with whitespace (which [strip] would remove),
    and the whole line is plain ASCII without a carriage return. *)
Definition record_clean (p : Plan) : bool :=
  plain_text (record_line str_float str_int p)
  && field_clean (name p) && starts_clean (name p)
  && field_clean (str_float (allowance p))
  && field_clean (str_float (expenses p))
  && field_clean (str_float (goal p))
  && field_clean (str_int (periods p))
  && field_clean (unit p)
  && field_clean (str_int (multiplier p))
  && field_clean (str_float (saved_so_far p))
  && field_clean (str_int (days_passed p))
  && String.eqb (rstrip (str_int (days_passed p))) (str_int (days_passed p)).

(** The plan read back from the texts written for [p], when every number
    is read back. *)
Definition reread (p : Plan) : option Plan :=
  match py_float (str_float (allowance p)), py_float (str_float (expenses p)),
        py_float (str_float (goal p)), py_int (str_int (periods p)),
        py_int (str_int (multiplier p)), py_float (str_float (saved_so_far p)),
        py_int (str_int (days_passed p)) with
  | Some a, Some e, Some g, Some n, Some m, Some s, Some d =>
      Some (mkPlan (name p) a e g n (unit p) m s d)
  | _, _, _, _, _, _, _ => None
  end.

(** The numbers of [p] come back from their texts as the same numbers. *)
Definition rereads_same (p : Plan) : Prop :=
  match reread p with
  | Some p' => plan_equiv p p'
  | None => False
  end.

(** The dictionary after the assignments [plans[p.name] = p], in order. *)
Definition assign_all (ps : list Plan) (d : plans_dict) : plans_dict :=
  fold_left (fun d p => dict_set (name p) p d) ps d.

(** The state after [save_plan] on each plan of [ps], in order. *)
Definition save_all (ps : list Plan) (st : state) : state :=
  fold_left (save_plan str_float str_int) ps st.

End FileFormat.

(** Every key is the name of its plan, and no key occurs twice. *)
Definition store_wf (d : plans_dict) : Prop :=
  NoDup (dict_keys d) /\ forall k p, In (k, p) d -> k = name p.

(** The file holds exactly the records of the stored plans, in order (a
    missing file counts as an empty one). *)
Definition file_in_sync (str_float : Q -> string) (str_int : Z -> string)
    (st : state) : Prop :=
  file_content (the_plan_txt st)
    = String.concat "" (map (record_line str_float str_int)
                          (dict_values (plans st))).



(** Three plans under three names, as menu 1 and menu 2 create them, the
    last one with some progress. *)
Definition bike_plan : Plan := Plan_init "bike" (Qmake 10000 10) (Qmake 2000 10) (Qmake 50000 10) 7 "week" 7.
Definition house_plan : Plan :=
  mkPlan "my house" (Qmake 300005 10) (Qmake 100000 10) (Qmake 10000000 10)
    40 "month" 30 (Qmake 1255 10) 3.
Definition trip_plan_read : Plan :=
  mkPlan "trip" (Qmake 5000 10) (Qmake 3000 10) (Qmake 30000 10) 30 "day" 1
    (Qmake 0 10) 0.


(** A record without its line feed. *)
Definition record_body (str_float : Q -> string) (str_int : Z -> string)
    (p : Plan) : string :=
  name p ++ "|" ++ str_float (allowance p) ++ "|" ++ str_float (expenses p)
    ++ "|" ++ str_float (goal p) ++ "|" ++ str_int (periods p)
    ++ "|" ++ unit p ++ "|" ++ str_int (multiplier p)
    ++ "|" ++ str_float (saved_so_far p) ++ "|" ++ str_int (days_passed p).


(** Two dictionaries with the same keys in the same order and equivalent
    plans under them. *)
Definition dict_equiv (d d' : plans_dict) : Prop :=
  Forall2 (fun kp kp' => fst kp = fst kp' /\ plan_equiv (snd kp) (snd kp')) d d'.


(** Any operation of the program on the manager: the steps of
    [public_step], menu 1 with whatever ending, and the loading of the
    file. *)
Inductive program_step (py_float : string -> option Q)
    (py_int : string -> option Z) (str_float : Q -> string)
    (str_int : Z -> string) : state -> state -> Prop :=
| prog_public st st' :
    public_step py_float str_float str_int st st' ->
    program_step py_float py_int str_float str_int st st'
| prog_check_feasibility st multiplier unit_name inp st' o :
    menu_check_feasibility py_float str_float str_int st multiplier unit_name inp
      = Ok (st', o) ->
    program_step py_float py_int str_float str_int st st'
| prog_load st st' :
    load_plans_from_file py_float py_int st = Ok st' ->
    program_step py_float py_int str_float str_int st st'.

Inductive program_run (py_float : string -> option Q)
    (py_int : string -> option Z) (str_float : Q -> string)
    (str_int : Z -> string) (st0 : state) : state -> Prop :=
| run_start : program_run py_float py_int str_float str_int st0 st0
| run_step st st' :
    program_run py_float py_int str_float str_int st0 st ->
    program_step py_float py_int str_float str_int st st' ->
    program_run py_float py_int str_float str_int st0 st'.



(** A store with the three sample plans, and what a session of the tracker
    may type: a saved amount, a refused one, new rates, a recalculation, a
    report, an unknown option, the exit, and a line left unread. *)
Definition three_plans : plans_dict :=
  [("trip", trip_plan_read); ("bike", bike_plan); ("my house", house_plan)].

Definition tracker_session : list string :=
  ["1"; "250"; "1"; "-5"; "3"; "600"; "250"; "4"; "2"; "9"; "6"; "1"].


Definition barred_plan : Plan := Plan_init "a|b" 500 300 3000 30 "day" 1.

(** How often [c] occurs in [s]. *)
Fixpoint count_char (c : ascii) (s : string) : nat :=
  match s with
  | EmptyString => O
  | String a s' => ((if Ascii.eqb a c then 1 else 0) + count_char c s')%nat
  end.

(** Menu 1 and menu 2 answered with "n" at the question about saving. *)
Definition declined_feasibility_inputs : feasibility_inputs :=
  mkFeasibilityInputs "500" "300" "30" "3000" "n" "trip".

Definition declined_time_inputs : time_inputs :=
  mkTimeInputs "1000" "200" "5000" "n" "" "no" "bike".


(** * The arithmetic in binary64

    The definitions above compute with exact rationals.  This module
    embeds the same source lines with the numbers the interpreter has: a
    Python [float] is a binary64 value ([PrimFloat.float], with its
    rounding, its two zeros, its infinities and NaN), a Python [int] is
    [Z].  Every conversion that can raise is modelled where the source has
    it: [math.ceil], [math.floor] and [int()] raise ValueError on NaN and
    OverflowError on an infinity; an int operand of a float operation is
    converted first (OverflowError when it is too large); a true division
    raises ZeroDivisionError on a zero divisor.

    The menus return what they print and the plan they hand to
    [save_plan]; what [save_plan] does with it does not depend on the
    numbers and is described above. *)

Module Binary64.

Declare Scope binary64_scope.
Local Open Scope float_scope.

Inductive value_error : Type :=
| must_be_a_number (name : string)       (* input_validation, float() failed *)
| must_be_positive (name : string)       (* input_validation, number <= 0    *)
| saved_amount_must_be_positive          (* Plan.add_saved                   *)
| allowance_must_be_positive             (* Plan.update_allowance            *)
| expenses_must_be_positive              (* Plan.update_expenses             *)
| cannot_convert_float_NaN_to_integer.   (* math.ceil, math.floor, int()     *)

Inductive exn : Type :=
| ValueError (why : value_error)
| OverflowError
| ZeroDivisionError.

Inductive result (A : Type) : Type :=
| Ok (a : A)
| Raise (e : exn).

Arguments Ok {A} a.
Arguments Raise {A} e.

Definition bind {A B : Type} (r : result A) (k : A -> result B) : result B :=
  match r with
  | Ok a => k a
  | Raise e => Raise e
  end.

Notation "x <- r ;; k" := (bind r (fun x => k))
  (at level 61, r at next level, right associativity) : binary64_scope.

Local Open Scope binary64_scope.

(** ** Numbers *)

(** The rational a float stands for; [None] for the infinities and NaN. *)
Definition SF2Q (x : spec_float) : option Q :=
  match x with
  | S754_zero _ => Some 0%Q
  | S754_finite s m e => Some (Z2Q (cond_Zopp s (Zpos m)) * Qpower 2 e)%Q
  | S754_infinity _ => None
  | S754_nan => None
  end.

Definition float_value (x : float) : option Q := SF2Q (Prim2SF x).

(** [math.ceil], [math.floor], [int()] on a float. *)
Definition to_integer (round : Q -> Z) (x : float) : result Z :=
  match float_value x with
  | Some q => Ok (round q)
  | None =>
      if is_nan x then Raise (ValueError cannot_convert_float_NaN_to_integer)
      else Raise OverflowError
  end.

Definition truncate (q : Q) : Z := if Qltb q 0 then Qceiling q else Qfloor q.

Definition math_ceil : float -> result Z := to_integer Qceiling.
Definition math_floor : float -> result Z := to_integer Qfloor.
Definition int_of_float : float -> result Z := to_integer truncate.

Definition Z2SF (n : Z) : spec_float :=
  match n with
  | Z0 => S754_zero false
  | Zpos p => S754_finite false p 0
  | Zneg p => S754_finite true p 0
  end.

(** An int as the float operand of an operation: the nearest binary64
    number, ties to even; OverflowError when that would be an infinity. *)
Definition float_of_int (n : Z) : result float :=
  match binary_normalize prec emax n 0 false with
  | S754_infinity _ => Raise OverflowError
  | x => Ok (SF2Prim x)
  end.

(** [x / y] on two floats. *)
Definition truediv (x y : float) : result float :=
  if y =? 0 then Raise ZeroDivisionError else Ok (x / y).

(** [x / n] and [x * n] for a float [x] and an int [n]. *)
Definition truediv_int (x : float) (n : Z) : result float :=
  y <- float_of_int n ;; truediv x y.

Definition mul_int (x : float) (n : Z) : result float :=
  y <- float_of_int n ;; Ok (x * y).

(** [a / b] on two ints: the quotient rounded once to binary64. *)
Definition int_truediv (a b : Z) : result float :=
  if (b =? 0)%Z then Raise ZeroDivisionError
  else match SFdiv prec emax (Z2SF a) (Z2SF b) with
       | S754_infinity _ => Raise OverflowError
       | q => Ok (SF2Prim q)
       end.

(** ** Signs

    How a float compares with zero, read on its IEEE 754 datum. *)

Definition SFpositive (x : spec_float) : bool :=
  match x with
  | S754_finite false _ _ | S754_infinity false => true
  | _ => false
  end.

Definition SFnegative (x : spec_float) : bool :=
  match x with
  | S754_finite true _ _ | S754_infinity true => true
  | _ => false
  end.

Definition SFis_nan (x : spec_float) : bool :=
  match x with
  | S754_nan => true
  | _ => false
  end.

(** ** The [Plan] class *)

Record Plan : Type := mkPlan {
  name : string;
  allowance : float;
  expenses : float;
  goal : float;
  periods : Z;
  unit : string;
  multiplier : Z;
  saved_so_far : float;
  days_passed : Z
}.

Definition Plan_init (name : string) (allowance expenses goal : float)
    (periods : Z) (unit : string) (multiplier : Z) : Plan :=
  mkPlan name allowance expenses goal periods unit multiplier 0 0%Z.

Definition net (p : Plan) : float := allowance p - expenses p.

Definition add_saved (p : Plan) (amount : float) : result Plan :=
  if amount <=? 0 then Raise (ValueError saved_amount_must_be_positive)
  else Ok (mkPlan (name p) (allowance p) (expenses p) (goal p) (periods p)
             (unit p) (multiplier p) (saved_so_far p + amount) (days_passed p + 1)%Z).

Definition update_allowance (p : Plan) (new_allowance : float) : result Plan :=
  if new_allowance <=? 0 then Raise (ValueError allowance_must_be_positive)
  else Ok (mkPlan (name p) new_allowance (expenses p) (goal p) (periods p)
             (unit p) (multiplier p) (saved_so_far p) (days_passed p)).

Definition update_expenses (p : Plan) (new_expenses : float) : result Plan :=
  if new_expenses <=? 0 then Raise (ValueError expenses_must_be_positive)
  else Ok (mkPlan (name p) (allowance p) new_expenses (goal p) (periods p)
             (unit p) (multiplier p) (saved_so_far p) (days_passed p)).

Definition reset (p : Plan) : Plan :=
  mkPlan (name p) (allowance p) (expenses p) (goal p) (periods p)
    (unit p) (multiplier p) 0 0%Z.

(** ** Results shown by the two calculators *)

Inductive feasibility : Type :=
| GoalPossible (required_per_unit : float) (daily_saving : float) (extra : Z)
| NotPossibleEvenWithoutExpenses (max_total : Z) (max_daily : Z)
| NotPossibleWithCurrentExpenses (cut_per_unit : Z) (needed_cut : Z).

(** [saved]: the plan handed to [plans_manager.save_plan], if any. *)
Inductive feasibility_outcome : Type :=
| FeasibilityInputError (e : value_error)
| FeasibilityResult (v : feasibility) (saved : option Plan).

Inductive time_outcome : Type :=
| TimeInputError (e : value_error)
| CannotSaveAnyMoney (must_cut : float)
| TimeNeeded (with_interest : bool) (periods_needed : Z) (days : Z)
    (saved : option Plan).

(** ** Menu 1, the arithmetic (source lines 294-325) *)
Definition check_feasibility (allowance expenses duration goal : float)
    (multiplier : Z) : result feasibility :=
  daily_allowance <- truediv_int allowance multiplier ;;
  daily_expenses <- truediv_int expenses multiplier ;;
  let daily_saving := daily_allowance - daily_expenses in
  whole <- int_of_float duration ;;
  let total_days := (whole * multiplier)%Z in
  total_saving_possible <- mul_int daily_saving total_days ;;
  per_day <- truediv_int goal total_days ;;
  required_daily <- math_ceil per_day ;;
  if goal <=? total_saving_possible then
    let extra := total_saving_possible - goal in
    per_unit <- int_truediv required_daily multiplier ;;
    extra_shown <- math_floor extra ;;
    Ok (GoalPossible per_unit daily_saving extra_shown)
  else
    max_possible <- mul_int daily_allowance total_days ;;
    per_day' <- truediv_int goal total_days ;;
    needed_cut <- math_ceil (per_day' + daily_expenses - daily_allowance) ;;
    if max_possible <? goal then
      max_shown <- math_floor max_possible ;;
      daily_shown <- math_floor daily_allowance ;;
      Ok (NotPossibleEvenWithoutExpenses max_shown daily_shown)
    else
      cut <- int_truediv needed_cut multiplier ;;
      cut_shown <- math_ceil cut ;;
      Ok (NotPossibleWithCurrentExpenses cut_shown needed_cut).

(** ** Menu 2, the compound-interest loop (source lines 376-381)

    [while total_saved < goal: ...], with fuel for the iterations; [None]
    when the fuel is used up before the loop condition fails. *)
Fixpoint interest_loop (fuel : nat) (goal net : float) (multiplier : Z)
    (interest_rate total_saved : float) (total_days : Z)
    : option (result (float * Z)) :=
  match fuel with
  | O => None
  | S fuel' =>
      if total_saved <? goal then
        match truediv_int net multiplier with
        | Raise e => Some (Raise e)
        | Ok daily =>
            let total_saved1 := total_saved + daily in
            let total_saved2 := total_saved1 * (1 + interest_rate / 365) in
            interest_loop fuel' goal net multiplier interest_rate total_saved2
              (total_days + 1)%Z
        end
      else Some (Ok (total_saved, total_days))
  end.

(** The three conversions of the day count that the result lines print
    ([days/7], [days/30], [days/365]). *)
Definition show_days (days : Z) : result (float * float * float) :=
  weeks <- int_truediv days 7 ;;
  months <- int_truediv days 30 ;;
  years <- int_truediv days 365 ;;
  Ok (weeks, months, years).

Section Builtins.

(** [float(s)] on a string; [None]: the builtin raises ValueError. *)
Variable py_float : string -> option float.

(** *** [input_validation] *)
Definition input_validation (value : string) (name : string) : result float :=
  let value := remove_char " " (remove_char "," value) in
  match py_float value with
  | None => Raise (ValueError (must_be_a_number name))
  | Some number =>
      if number <=? 0 then Raise (ValueError (must_be_positive name))
      else Ok number
  end.

(** *** Menu 1: [menu_check_feasibility] *)
Definition menu_check_feasibility (multiplier : Z) (unit_name : string)
    (inp : feasibility_inputs) : result feasibility_outcome :=
  match
    (allowance <- input_validation (fi_allowance inp) "Allowance" ;;
     expenses <- input_validation (fi_expenses inp) "Expenses" ;;
     duration <- input_validation (fi_duration inp) "Duration" ;;
     goal <- input_validation (fi_goal inp) "Goal" ;;
     Ok (allowance, expenses, duration, goal))
  with
  | Raise (ValueError e) => Ok (FeasibilityInputError e)
  | Raise e => Raise e
  | Ok (allowance, expenses, duration, goal) =>
      v <- check_feasibility allowance expenses duration goal multiplier ;;
      match v with
      | GoalPossible _ _ _ =>
          if lower_is_y (fi_save_choice inp) then
            whole <- int_of_float duration ;;
            let plan := Plan_init (fi_plan_name inp) allowance expenses goal
                          whole unit_name multiplier in
            Ok (FeasibilityResult v (Some plan))
          else Ok (FeasibilityResult v None)
      | NotPossibleEvenWithoutExpenses _ _ => Ok (FeasibilityResult v None)
      | NotPossibleWithCurrentExpenses _ needed_cut =>
          if lower_is_y (fi_save_choice inp) then
            cut <- int_truediv needed_cut multiplier ;;
            let new_expenses := expenses - cut in
            whole <- int_of_float duration ;;
            let plan := Plan_init (fi_plan_name inp) allowance new_expenses goal
                          whole unit_name multiplier in
            Ok (FeasibilityResult v (Some plan))
          else Ok (FeasibilityResult v None)
      end
  end.

(** *** Menu 2: [menu_time_needed]

    [None]: the interest loop was still running when the fuel ended.  The
    [try] of the interest branch (lines 374-391) catches every ValueError
    raised inside it. *)
Definition menu_time_needed (fuel : nat) (multiplier : Z) (unit_name : string)
    (inp : time_inputs) : option (result time_outcome) :=
  let finish (allowance expenses goal : float) (with_interest : bool)
             (periods_needed days : Z) :=
    if lower_is_y (ti_save_choice inp) then
      let plan := Plan_init (ti_plan_name inp) allowance expenses goal
                    periods_needed unit_name multiplier in
      Ok (TimeNeeded with_interest periods_needed days (Some plan))
    else Ok (TimeNeeded with_interest periods_needed days None) in
  match
    (allowance <- input_validation (ti_allowance inp) "Allowance" ;;
     expenses <- input_validation (ti_expenses inp) "Expenses" ;;
     goal <- input_validation (ti_goal inp) "Goal" ;;
     Ok (allowance, expenses, goal))
  with
  | Raise (ValueError e) => Some (Ok (TimeInputError e))
  | Raise e => Some (Raise e)
  | Ok (allowance, expenses, goal) =>
      let net := allowance - expenses in
      if net <=? 0 then
        Some (Ok (CannotSaveAnyMoney ((expenses - allowance) + 1)))
      else if lower_is_n (ti_use_interest inp) then
        Some (quotient <- truediv goal net ;;
              periods_needed <- math_ceil quotient ;;
              let days := (periods_needed * multiplier)%Z in
              _ <- show_days days ;;
              finish allowance expenses goal false periods_needed days)
      else
        match input_validation (ti_interest_rate inp) "Interest rate" with
        | Raise (ValueError e) => Some (Ok (TimeInputError e))
        | Raise e => Some (Raise e)
        | Ok percent =>
            let interest_rate := percent / 100 in
            match interest_loop fuel goal net multiplier interest_rate 0 0%Z with
            | None => None
            | Some (Raise (ValueError e)) => Some (Ok (TimeInputError e))
            | Some (Raise e) => Some (Raise e)
            | Some (Ok (_, total_days)) =>
                match
                  (quotient <- int_truediv total_days multiplier ;;
                   periods_needed <- math_ceil quotient ;;
                   _ <- show_days total_days ;;
                   Ok periods_needed)
                with
                | Raise (ValueError e) => Some (Ok (TimeInputError e))
                | Raise e => Some (Raise e)
                | Ok periods_needed =>
                    Some (finish allowance expenses goal true
                            periods_needed total_days)
                end
            end
        end
  end.

(** *** Tracker functions

    Each function gives the plan object as the call leaves it; the lines
    that only print come after the change and do not touch the object. *)

Definition add_saved_amount (plan : Plan) (raw : string) : Plan :=
  match (amount <- input_validation raw "Saved amount" ;;
         add_saved plan amount) with
  | Ok plan' => plan'
  | Raise _ => plan
  end.

(** [update_allowance] has taken effect when [update_expenses] raises. *)
Definition adjust_plan (plan : Plan) (raw_allowance raw_expenses : string) : Plan :=
  match (new_allowance <- input_validation raw_allowance "Allowance" ;;
         new_expenses <- input_validation raw_expenses "Expenses" ;;
         Ok (new_allowance, new_expenses)) with
  | Raise _ => plan
  | Ok (new_allowance, new_expenses) =>
      match update_allowance plan new_allowance with
      | Raise _ => plan
      | Ok plan1 =>
          match update_expenses plan1 new_expenses with
          | Raise _ => plan1
          | Ok plan2 => plan2
          end
      end
  end.

Definition reset_plan (plan : Plan) (confirm : string) : Plan :=
  if lower_is_y confirm then reset plan else plan.

End Builtins.


(** ** A concrete [float()]: decimal literals with an optional exponent

    The text is read as an exact rational (the mantissa by [decimal_float],
    times the power of ten) and rounded once to the nearest binary64
    number, ties to even, as [float()] does; a literal too large becomes an
    infinity.  "nan", "inf" and "infinity" are read in any letter case,
    with an optional sign; whitespace is accepted around the text, not
    inside it.  Underscores between digits and the sign of a zero are not
    covered. *)

Definition nearest_binary64 (q : Q) : float :=
  SF2Prim (SFdiv prec emax (Z2SF (Qnum q)) (Z2SF (Zpos (Qden q)))).

Definition lower_ascii (a : ascii) : ascii :=
  let n := nat_of_ascii a in
  if (65 <=? n)%nat && (n <=? 90)%nat then ascii_of_nat (n + 32) else a.

Fixpoint lower (s : string) : string :=
  match s with
  | EmptyString => EmptyString
  | String a s' => String (lower_ascii a) (lower s')
  end.

Definition binary64_of_text (s : string) : option float :=
  let text := lower (strip s) in
  let (negative, body) := split_sign text in
  if String.eqb body "nan" then Some nan
  else if String.eqb body "inf" || String.eqb body "infinity" then
    Some (if negative then neg_infinity else infinity)
  else
    match str_split "e" text with
    | [mantissa] => option_map nearest_binary64 (decimal_float mantissa)
    | [mantissa; exponent] =>
        if String.eqb (strip mantissa) mantissa
           && String.eqb (strip exponent) exponent then
          match decimal_float mantissa, decimal_int exponent with
          | Some q, Some k => Some (nearest_binary64 (q * Qpower 10 k))
          | _, _ => None
          end
        else None
    | _ => None
    end.


(** ** Sample data of the statements *)

(** Menu 2 per week: the net amount is the smallest positive binary64
    number, and a seventh of it is rounded to zero. *)
Definition stalled_inputs : time_inputs :=
  mkTimeInputs "1e-323" "5e-324" "1000" "y" "5" "n" "".

(** Menu 2 per day, without interest: 0.3 - 0.1 is computed just below 0.2. *)
Definition short_inputs : time_inputs :=
  mkTimeInputs "0.3" "0.1" "1" "n" "" "n" "".


(** ** Vocabulary of the statements *)

Definition case_of (v : feasibility) : feasibility_case :=
  match v with
  | GoalPossible _ _ _ => Possible
  | NotPossibleEvenWithoutExpenses _ _ => ImpossibleEvenZeroExpenses
  | NotPossibleWithCurrentExpenses _ _ => ConditionallyPossible
  end.

(** The quantities menu 1 compares, as the source computes them (lines
    295-299 and 315): each is a binary64 number, or the exception its
    computation ends in. *)
Definition total_days_of (duration : float) (multiplier : Z) : result Z :=
  whole <- int_of_float duration ;; Ok (whole * multiplier)%Z.

Definition total_saving_possible (allowance expenses duration : float)
    (multiplier : Z) : result float :=
  daily_allowance <- truediv_int allowance multiplier ;;
  daily_expenses <- truediv_int expenses multiplier ;;
  total_days <- total_days_of duration multiplier ;;
  mul_int (daily_allowance - daily_expenses) total_days.

Definition max_possible (allowance duration : float) (multiplier : Z)
    : result float :=
  daily_allowance <- truediv_int allowance multiplier ;;
  total_days <- total_days_of duration multiplier ;;
  mul_int daily_allowance total_days.

(** The invariants of the data model, as comparisons of binary64 numbers:
    an infinity is positive, NaN is neither positive nor at least zero. *)
Definition plan_invariant (p : Plan) : Prop :=
  (0 <? allowance p) = true /\ (0 <? expenses p) = true
  /\ (0 <? goal p) = true /\ (0 <= periods p)%Z
  /\ (0 <=? saved_so_far p) = true /\ (0 <= days_passed p)%Z.

(** Which calculator a plan was created by. *)
Inductive origin : Type :=
| FromFeasibility
| FromTimeToGoal.

Section Reachability.

Variable py_float : string -> option float.

(** The text is read by [input_validation] as NaN. *)
Definition reads_nan (raw : string) : bool :=
  match py_float (remove_char " " (remove_char "," raw)) with
  | Some number => is_nan number
  | None => false
  end.

(** The plans the program builds: created by menu 1 on its "possible"
    ending or by menu 2 (from typed numbers that are not NaN, with the
    positive multiplier of a time unit), then changed by the methods of
    [Plan] with arguments that are not NaN. *)
Inductive reachable : origin -> Plan -> Prop :=
| created_by_feasibility (multiplier : Z) (unit_name : string)
    (inp : feasibility_inputs) (per_unit daily : float) (extra : Z) (plan : Plan) :
    menu_check_feasibility py_float multiplier unit_name inp
    = Ok (FeasibilityResult (GoalPossible per_unit daily extra) (Some plan)) ->
    reachable FromFeasibility plan
| created_by_time_needed (fuel : nat) (multiplier : Z) (unit_name : string)
    (inp : time_inputs) (with_interest : bool) (periods_needed days : Z)
    (plan : Plan) :
    (0 < multiplier)%Z ->
    reads_nan (ti_allowance inp) = false ->
    reads_nan (ti_expenses inp) = false ->
    reads_nan (ti_goal inp) = false ->
    menu_time_needed py_float fuel multiplier unit_name inp
    = Some (Ok (TimeNeeded with_interest periods_needed days (Some plan))) ->
    reachable FromTimeToGoal plan
| after_add_saved (o : origin) (p p' : Plan) (amount : float) :
    reachable o p -> is_nan amount = false ->
    add_saved p amount = Ok p' -> reachable o p'
| after_update_allowance (o : origin) (p p' : Plan) (new_allowance : float) :
    reachable o p -> is_nan new_allowance = false ->
    update_allowance p new_allowance = Ok p' -> reachable o p'
| after_update_expenses (o : origin) (p p' : Plan) (new_expenses : float) :
    reachable o p -> is_nan new_expenses = false ->
    update_expenses p new_expenses = Ok p' -> reachable o p'
| after_reset (o : origin) (p : Plan) :
    reachable o p -> reachable o (reset p).

End Reachability.


(** The plan menu 1 saves for [easy_inputs] per day, and the same plan
    after 20 has been added to it. *)
Definition saved_trip : Plan := Plan_init "trip" 500 300 3000 30 "day" 1.

Definition saved_trip_after_a_day : Plan :=
  mkPlan "trip" 500 300 3000 30 "day" 1 20 1.

(** Menu 2 with "nan" typed as the goal, and with the smallest positive
    binary64 number typed as the goal. *)
Definition nan_goal_inputs : time_inputs :=
  mkTimeInputs "2" "1" "nan" "y" "1" "y" "dream".

Definition tiny_goal_inputs : time_inputs :=
  mkTimeInputs "3" "1" "5e-324" "n" "" "y" "crumb".


End Binary64.


(** * Properties *)

(** ** Comparisons *)

Lemma Qleb_le x y : Qleb x y = true <-> x <= y.
Proof. unfold Qleb. apply Qle_bool_iff. Qed.

Lemma Qleb_gt x y : Qleb x y = false <-> y < x.
Proof.
  unfold Qleb. split; intro H.
  - apply Qnot_le_lt. intro Hle. apply Qle_bool_iff in Hle. congruence.
  - destruct (Qle_bool x y) eqn:E; [|reflexivity].
    apply Qle_bool_iff in E. exfalso. apply (Qlt_not_le _ _ H E).
Qed.

Lemma Qltb_lt x y : Qltb x y = true <-> x < y.
Proof.
  unfold Qltb. rewrite negb_true_iff. apply (Qleb_gt y x).
Qed.

Lemma Qltb_ge x y : Qltb x y = false <-> y <= x.
Proof.
  unfold Qltb. rewrite negb_false_iff. apply (Qleb_le y x).
Qed.


Lemma Z2Q_pos z : (0 < z)%Z -> 0 < Z2Q z.
Proof.
  intro H. unfold Z2Q. change (inject_Z 0 < inject_Z z).
  rewrite <- Zlt_Qlt. exact H.
Qed.

Lemma Z2Q_nonzero z : z <> 0%Z -> ~ Z2Q z == 0.
Proof.
  intros H E. unfold Z2Q, Qeq in E. simpl in E. lia.
Qed.

Lemma truediv_ok x y : ~ y == 0 -> truediv x y = Ok (x / y).
Proof.
  intro H. unfold truediv. destruct (Qeq_bool y 0) eqn:E; [|reflexivity].
  apply Qeq_bool_iff in E. contradiction.
Qed.

Lemma truediv_zero x y : y == 0 -> truediv x y = Raise ZeroDivisionError.
Proof.
  intro H. unfold truediv. apply Qeq_bool_iff in H. rewrite H. reflexivity.
Qed.


(** [int()] of a float strictly between zero and one is zero. *)
Lemma int_of_float_fraction d : 0 < d -> d < 1 -> int_of_float d = 0%Z.
Proof.
  intros H0 H1. unfold int_of_float.
  destruct (Qltb d 0) eqn:E.
  - apply Qltb_lt in E. lra.
  - assert (Hlo : (0 <= Qfloor d)%Z).
    { change 0%Z with (Qfloor 0). apply Qfloor_resp_le. lra. }
    assert (Hhi : (Qfloor d < 1)%Z).
    { rewrite Zlt_Qlt. apply Qle_lt_trans with d; [apply Qfloor_le|exact H1]. }
    lia.
Qed.

(** ** [input_validation] *)

Section Validation.
Variable py_float : string -> option Q.

Lemma input_validation_positive value field q :
  input_validation py_float value field = Ok q -> 0 < q.
Proof.
  unfold input_validation.
  destruct (py_float _) as [number|]; [|discriminate].
  destruct (Qleb number 0) eqn:E; [discriminate|].
  intro H. injection H as <-. apply Qleb_gt. exact E.
Qed.

Lemma input_validation_accepts value field q :
  py_float (remove_char " " (remove_char "," value)) = Some q -> 0 < q ->
  input_validation py_float value field = Ok q.
Proof.
  intros Hp Hq. unfold input_validation. rewrite Hp.
  apply Qleb_gt in Hq. rewrite Hq. reflexivity.
Qed.

Lemma input_validation_raises value field e :
  input_validation py_float value field = Raise e ->
  exists why, e = ValueError why.
Proof.
  unfold input_validation.
  destruct (py_float _) as [number|].
  - destruct (Qleb number 0); [|discriminate].
    intro H. injection H as <-. eexists. reflexivity.
  - intro H. injection H as <-. eexists. reflexivity.
Qed.
End Validation.

(** ** [Plan.daily_needed] *)



(** A saved amount that is not positive is refused, the plan is untouched. *)
Lemma add_saved_rejects (p : Plan) (amount : Q) :
  amount <= 0 ->
  add_saved p amount = Raise (ValueError saved_amount_must_be_positive).
Proof.
  intro H. unfold add_saved. apply Qleb_le in H. rewrite H. reflexivity.
Qed.

Example add_saved_minus_five :
  add_saved plan_on_time (-5 # 1)
    = Raise (ValueError saved_amount_must_be_positive).
Proof. reflexivity. Qed.

(** After a reset the report shows nothing saved, no day passed, the whole
    goal remaining and an average of zero. *)
Lemma reset_progress_report (p : Plan) :
  0 <= goal p ->
  let r := progress_report (reset p) in
  r_saved_so_far r = 0 /\ r_days_passed r = 0%Z /\ r_remaining r == goal p
  /\ r_average_saved r = 0.
Proof.
  intros Hg r. unfold r, progress_report, reset. cbn.
  repeat split; try reflexivity.
  unfold Qmax. destruct (Qltb (goal p - 0) 0) eqn:E.
  - apply Qltb_lt in E. lra.
  - ring.
Qed.

(** ** Menu 1: the feasibility check *)

(** With a multiplier and a number of days different from zero no division
    raises, and the check is the two comparisons of the source. *)
Lemma check_feasibility_branches allowance expenses duration goal multiplier :
  multiplier <> 0%Z -> total_days_of duration multiplier <> 0%Z ->
  check_feasibility allowance expenses duration goal multiplier =
    let daily_allowance := allowance / Z2Q multiplier in
    let daily_expenses := expenses / Z2Q multiplier in
    let total_days := total_days_of duration multiplier in
    if Qleb goal (total_saving_possible allowance expenses duration multiplier) then
      Ok (GoalPossible
            (Z2Q (Qceiling (goal / Z2Q total_days)) / Z2Q multiplier)
            (daily_allowance - daily_expenses)
            (Qfloor (total_saving_possible allowance expenses duration multiplier - goal)))
    else if Qltb (max_possible allowance duration multiplier) goal then
      Ok (NotPossibleEvenWithoutExpenses
            (Qfloor (max_possible allowance duration multiplier))
            (Qfloor daily_allowance))
    else
      Ok (NotPossibleWithCurrentExpenses
            (Qceiling (Z2Q (needed_cut_per_day allowance expenses duration goal multiplier)
                       / Z2Q multiplier))
            (needed_cut_per_day allowance expenses duration goal multiplier)).
Proof.
  intros Hm Hd. unfold check_feasibility.
  fold (total_days_of duration multiplier).
  rewrite !(truediv_ok _ (Z2Q multiplier)) by (apply Z2Q_nonzero; exact Hm).
  cbn [bind].
  rewrite !(truediv_ok _ (Z2Q (total_days_of duration multiplier)))
    by (apply Z2Q_nonzero; exact Hd).
  cbn [bind].
  fold (total_saving_possible allowance expenses duration multiplier).
  fold (max_possible allowance duration multiplier).
  fold (needed_cut_per_day allowance expenses duration goal multiplier).
  destruct (Qleb goal _).
  - rewrite truediv_ok by (apply Z2Q_nonzero; exact Hm). reflexivity.
  - destruct (Qltb _ goal); [reflexivity|].
    rewrite truediv_ok by (apply Z2Q_nonzero; exact Hm). reflexivity.
Qed.

(** The arithmetic of menu 1 on a duration that truncates to zero days. *)
Lemma check_feasibility_zero_days allowance expenses duration goal multiplier :
  total_days_of duration multiplier = 0%Z ->
  check_feasibility allowance expenses duration goal multiplier
    = Raise ZeroDivisionError.
Proof.
  intro Hd. unfold check_feasibility.
  destruct (Z.eq_dec multiplier 0) as [Hm|Hm].
  - rewrite (truediv_zero allowance) by (subst; reflexivity). reflexivity.
  - rewrite !(truediv_ok _ (Z2Q multiplier)) by (apply Z2Q_nonzero; exact Hm).
    cbn [bind]. fold (total_days_of duration multiplier). rewrite Hd.
    reflexivity.
Qed.

(** C10: a duration accepted by the validation and smaller than one gives
    zero days, and menu 1 then ends in the ZeroDivisionError of
    goal / total_days (no [except] clause covers it) instead of a verdict. *)
Theorem fractional_duration_divides_by_zero
    (py_float : string -> option Q) (str_float : Q -> string)
    (str_int : Z -> string) (st : state) (multiplier : Z) (unit_name : string)
    (inp : feasibility_inputs) (allowance expenses duration goal : Q) :
  input_validation py_float (fi_allowance inp) "Allowance" = Ok allowance ->
  input_validation py_float (fi_expenses inp) "Expenses" = Ok expenses ->
  input_validation py_float (fi_duration inp) "Duration" = Ok duration ->
  input_validation py_float (fi_goal inp) "Goal" = Ok goal ->
  duration < 1 ->
  total_days_of duration multiplier = 0%Z
  /\ menu_check_feasibility py_float str_float str_int st multiplier unit_name inp
     = Raise ZeroDivisionError.
Proof.
  intros Ha He Hd Hg Hlt.
  assert (Hdays : total_days_of duration multiplier = 0%Z).
  { unfold total_days_of.
    rewrite (int_of_float_fraction duration); [reflexivity| |exact Hlt].
    apply (input_validation_positive _ _ _ _ Hd). }
  split; [exact Hdays|].
  unfold menu_check_feasibility. rewrite Ha, He, Hd, Hg. cbn [bind].
  rewrite (check_feasibility_zero_days _ _ _ _ _ Hdays). reflexivity.
Qed.

Lemma fractional_duration_divides_by_zero_witness :
  menu_check_feasibility decimal_float decimal_str_float decimal_str_int
    empty_state 7 "week" half_unit_inputs
  = Raise ZeroDivisionError.
Proof.
  apply (fractional_duration_divides_by_zero decimal_float decimal_str_float
           decimal_str_int empty_state 7 "week" half_unit_inputs
           500 300 (Qmake 5 10) 1000); reflexivity.
Defined.

(** ** Menu 2: time needed *)


(** The scenario of the specification: seven days. *)
Example no_interest_seven_days :
  exists st' saved,
    menu_time_needed decimal_float decimal_str_float decimal_str_int 0
      empty_state 1 "day" no_interest_inputs
    = Some (Ok (st', TimeNeeded false 7 7 saved)).
Proof. do 2 eexists. vm_compute. reflexivity. Qed.

(** *** The interest loop *)


Section InterestLoop.
Variables goal daily : Q.
Hypothesis daily_positive : 0 < daily.





End InterestLoop.



(** On that input the counts differ: five days at the rate 0.01 (one percent
    typed at the prompt), four at the rate 100. *)
Example interest_days_run :
  option_map snd (interest_loop 6 1000 (200 / Z2Q 1) (1 # 100) 0 0%Z) = Some 5%Z
  /\ option_map snd (interest_loop 6 1000 (200 / Z2Q 1) (100 # 1) 0 0%Z) = Some 4%Z.
Proof. split; vm_compute; reflexivity. Qed.

(** ** Menu 1: the cut on the conditional branch *)

(** On the conditional branch menu 1 shows the ceiling of
    [needed_cut / multiplier], where [needed_cut] is the ceiling of
    goal / total_days + daily_expenses - daily_allowance. *)
Lemma conditional_cut_formula allowance expenses duration goal multiplier :
  (0 < multiplier)%Z -> (0 < total_days_of duration multiplier)%Z ->
  total_saving_possible allowance expenses duration multiplier < goal ->
  goal <= max_possible allowance duration multiplier ->
  check_feasibility allowance expenses duration goal multiplier
    = Ok (NotPossibleWithCurrentExpenses
            (Qceiling (Z2Q (needed_cut_per_day allowance expenses duration goal multiplier)
                       / Z2Q multiplier))
            (needed_cut_per_day allowance expenses duration goal multiplier)).
Proof.
  intros Hm Hd Hlow Hhigh.
  rewrite check_feasibility_branches by lia. cbv zeta.
  apply Qleb_gt in Hlow. rewrite Hlow.
  apply Qltb_ge in Hhigh. rewrite Hhigh. reflexivity.
Qed.

(** The scenario of the specification, per day: 134. *)
Example scenario_cut_134 :
  check_feasibility 500 300 30 10000 1
    = Ok (NotPossibleWithCurrentExpenses 134 134)
  /\ needed_cut_per_day 500 300 30 10000 1 = 134%Z.
Proof. split; vm_compute; reflexivity. Qed.

(** With the day as unit the cut is what it is meant to be: the plan saved
    with the reduced expenses reaches the goal in its periods. *)
Lemma day_unit_cut_suffices allowance expenses duration goal :
  (0 < int_of_float duration)%Z ->
  let cut := Z2Q (needed_cut_per_day allowance expenses duration goal 1) / Z2Q 1 in
  let plan := Plan_init "" allowance (expenses - cut) goal
                (int_of_float duration) "day" 1 in
  goal <= plan_total_saving plan.
Proof.
  intros Hd cut plan.
  unfold plan_total_saving, net, plan, Plan_init. cbn.
  set (T := Z2Q (int_of_float duration)).
  assert (HT : 0 < T) by (apply Z2Q_pos; exact Hd).
  unfold cut, needed_cut_per_day, total_days_of.
  rewrite Z.mul_1_r. fold T.
  change (Z2Q 1) with 1.
  set (x := goal / T + expenses / 1 - allowance / 1).
  pose proof (Qle_ceiling x) as Hc. fold (Z2Q (Qceiling x)) in Hc.
  set (c := Z2Q (Qceiling x)) in *.
  assert (Hx : x == goal / T + expenses - allowance) by (unfold x; field; lra).
  assert (Hgoal : goal == goal / T * T) by (field; lra).
  assert (Hstep : goal / T * T <= (allowance - (expenses - c / 1)) * T).
  { apply Qmult_le_compat_r; [|lra].
    assert (Hc1 : c / 1 == c) by field. lra. }
  lra.
Qed.

(** C2: with week as the unit, allowance 700, expenses 350, one week and
    goal 400, the cut per day is 8, that is 56 per week; menu 1 shows
    ceil(8 / 7) = 2 per week and saves a plan with expenses 350 - 8/7, which
    saves less than the goal in its one week. *)
Theorem week_cut_divided_by_multiplier :
  exists st' plan,
    menu_check_feasibility decimal_float decimal_str_float decimal_str_int
      empty_state 7 "week" week_inputs
    = Ok (st', FeasibilityResult (NotPossibleWithCurrentExpenses 2 8) (Some plan))
    /\ per_unit_of_per_day 8 7 = 56%Z
    /\ expenses plan == 350 - 8 / 7
    /\ plan_total_saving plan < goal plan.
Proof.
  do 2 eexists. split; [vm_compute; reflexivity|].
  split; [reflexivity|]. split; vm_compute; reflexivity.
Qed.

(** ** [PlansManager]: saving *)

Section Saving.
Variable str_float : Q -> string.
Variable str_int : Z -> string.

(** [save_plan] stores under the plan's name and appends one record to
    whatever the file holds. *)
Lemma save_plan_appends (st : state) (plan : Plan) :
  plans (save_plan str_float str_int st plan)
    = dict_set (name plan) plan (plans st)
  /\ the_plan_txt (save_plan str_float str_int st plan)
     = Some (file_content (the_plan_txt st) ++ record_line str_float str_int plan).
Proof. split; reflexivity. Qed.

(** The rewrite used by the tracker and by deletion forgets the old
    content. *)
Lemma write_all_forgets (st : state) (content : option string) :
  write_all_plans_to_file str_float str_int (mkState (plans st) content)
    = write_all_plans_to_file str_float str_int st.
Proof. reflexivity. Qed.
End Saving.

(** C3: saving a second plan under the name "trip" leaves one plan in the
    store and two records in the file, the first of them stale; a rewrite
    of the file would hold one record. *)
Theorem save_plan_twice_leaves_stale_record :
  let save := save_plan decimal_str_float decimal_str_int in
  let st := save (save empty_state trip_plan) trip_plan_again in
  dict_values (plans st) = [trip_plan_again]
  /\ lines_of (file_content (the_plan_txt st))
     = [record_line decimal_str_float decimal_str_int trip_plan;
        record_line decimal_str_float decimal_str_int trip_plan_again]
  /\ lines_of (file_content (the_plan_txt
        (write_all_plans_to_file decimal_str_float decimal_str_int st)))
     = [record_line decimal_str_float decimal_str_int trip_plan_again].
Proof. repeat split; vm_compute; reflexivity. Qed.

(** ** [PlansManager]: loading *)

Section Loading.
Variable py_float : string -> option Q.
Variable py_int : string -> option Z.

(** No file: the FileNotFoundError is caught, the store stays as it is. *)
Lemma load_missing_file (st : state) :
  the_plan_txt st = None ->
  load_plans_from_file py_float py_int st = Ok st.
Proof. intro H. unfold load_plans_from_file. rewrite H. reflexivity. Qed.

(** A line that does not have nine fields is skipped. *)
Lemma load_line_wrong_field_count (d : plans_dict) (line : string) :
  List.length (str_split "|" (strip line)) <> 9%nat ->
  load_line py_float py_int d line = Ok d.
Proof.
  unfold load_line. intro H.
  destruct (str_split "|" (strip line)) as [|f1 [|f2 [|f3 [|f4 [|f5 [|f6 [|f7
    [|f8 [|f9 [|f10 rest]]]]]]]]]]; try reflexivity.
  exfalso. apply H. reflexivity.
Qed.

(** A line with nine fields whose allowance field [float()] rejects
    raises: no [except] clause of the loader covers ValueError. *)
Lemma load_line_bad_allowance (d : plans_dict) (line : string)
    (f1 f2 f3 f4 f5 f6 f7 f8 f9 : string) :
  str_split "|" (strip line) = [f1; f2; f3; f4; f5; f6; f7; f8; f9] ->
  py_float f2 = None ->
  load_line py_float py_int d line = Raise (ValueError (invalid_literal f2)).
Proof.
  intros Hparts Hbad. unfold load_line. rewrite Hparts.
  unfold float_of. rewrite Hbad. reflexivity.
Qed.

(** An exception in one line ends the loop: the later lines are not read. *)
Lemma load_lines_stops (d : plans_dict) (line : string) (rest : list string)
    (e : exn) :
  load_line py_float py_int d line = Raise e ->
  load_lines py_float py_int d (line :: rest) = Raise e.
Proof. intro H. cbn [load_lines]. rewrite H. reflexivity. Qed.

(** The skipped line does not stop the loop. *)
Lemma load_lines_skips (d : plans_dict) (line : string) (rest : list string) :
  List.length (str_split "|" (strip line)) <> 9%nat ->
  load_lines py_float py_int d (line :: rest)
    = load_lines py_float py_int d rest.
Proof.
  intro H. cbn [load_lines].
  rewrite (load_line_wrong_field_count d line H). reflexivity.
Qed.
End Loading.

(** A short first line is dropped and the second record is loaded. *)
Example load_skips_short_line :
  option_map dict_keys
    (match load_plans_from_file decimal_float decimal_int
             (mkState [] (Some file_with_short_line)) with
     | Ok st => Some (plans st)
     | Raise _ => None
     end)
  = Some ["second"].
Proof. vm_compute. reflexivity. Qed.

(** C4: a file whose first record has nine fields and the allowance "abc"
    makes the load end in ValueError, whatever [float()] and [int()] accept
    besides, as long as [float()] rejects "abc": the record is not dropped
    and the valid second record is not loaded. *)
Theorem load_aborts_on_bad_number
    (py_float : string -> option Q) (py_int : string -> option Z) :
  py_float "abc" = None ->
  load_plans_from_file py_float py_int (mkState [] (Some file_with_bad_number))
    = Raise (ValueError (invalid_literal "abc")).
Proof.
  intro Hbad. unfold load_plans_from_file. cbn [the_plan_txt plans].
  change (lines_of file_with_bad_number)
    with [("first|abc|300.0|10000.0|30|day|1|0.0|0" ++ String newline "")%string;
          ("second|500.0|300.0|10000.0|30|day|1|0.0|0" ++ String newline "")%string].
  rewrite (load_lines_stops py_float py_int [] _ _
             (ValueError (invalid_literal "abc"))); [reflexivity|].
  apply (load_line_bad_allowance py_float py_int [] _
           "first" "abc" "300.0" "10000.0" "30" "day" "1" "0.0" "0");
    [reflexivity|exact Hbad].
Qed.

Lemma load_aborts_on_bad_number_witness :
  load_plans_from_file decimal_float decimal_int
    (mkState [] (Some file_with_bad_number))
  = Raise (ValueError (invalid_literal "abc")).
Proof.
  apply (load_aborts_on_bad_number decimal_float decimal_int). reflexivity.
Defined.

(** ** The data-model invariants *)

Lemma with_time_unit_inv {A : Type} (f : Z -> string -> A) choices r :
  with_time_unit f choices = Some r ->
  exists multiplier unit_name, r = f multiplier unit_name /\ (0 < multiplier)%Z.
Proof.
  induction choices as [|choice rest IH]; cbn [with_time_unit]; [discriminate|].
  unfold time_unit_of_choice.
  repeat match goal with
         | |- context [String.eqb choice ?s] => destruct (String.eqb choice s)
         end;
    try (intro H; injection H as <-; do 2 eexists; split; [reflexivity|lia]).
  exact IH.
Qed.

(** C5, as stated, fails: the loader copies the numbers of a nine-field
    record without any check, so the record
    "debt|-5.0|0.0|10000.0|0|day|1|-1.0|0" becomes a stored plan with a
    negative allowance, expenses 0, periods 0 and a negative saved amount. *)
Lemma loaded_plan_breaks_invariants :
  exists st,
    load_plans_from_file decimal_float decimal_int
      (mkState [] (Some file_with_negative_numbers)) = Ok st
    /\ dict_values (plans st)
       = [mkPlan "debt" (-50 # 10) (0 # 10) (100000 # 10) 0 "day" 1 (-10 # 10) 0]
    /\ ~ store_invariant st.
Proof.
  eexists. split; [vm_compute; reflexivity|]. split; [reflexivity|].
  intro H.
  destruct (H (mkPlan "debt" (-50 # 10) (0 # 10) (100000 # 10) 0 "day" 1
                 (-10 # 10) 0)) as [Ha _].
  - left. reflexivity.
  - cbn in Ha. revert Ha. vm_compute. discriminate.
Qed.

(** The one ending of menu 1 that [public_step] leaves out: with allowance
    100, expenses 50, one day and goal 100 the adjusted plan is saved with
    expenses 50 - 50 = 0. *)
Lemma adjusted_plan_with_zero_expenses :
  exists st' v plan,
    menu_check_feasibility decimal_float decimal_str_float decimal_str_int
      empty_state 1 "day" all_or_nothing_inputs
    = Ok (st', FeasibilityResult v (Some plan))
    /\ case_of v = ConditionallyPossible
    /\ expenses plan == 0
    /\ ~ plan_invariant plan.
Proof.
  do 3 eexists. split; [vm_compute; reflexivity|].
  split; [reflexivity|]. split; [reflexivity|].
  intros (_ & He & _). revert He. vm_compute. discriminate.
Qed.

(** * Further properties of the module *)

(** ** Strings *)

Lemma append_empty_r (s : string) : (s ++ "")%string = s.
Proof. induction s as [|a s IH]; cbn; [reflexivity|rewrite IH; reflexivity]. Qed.

Lemma append_assoc (s t u : string) : ((s ++ t) ++ u)%string = (s ++ (t ++ u))%string.
Proof. induction s as [|a s IH]; cbn; [reflexivity|rewrite IH; reflexivity]. Qed.

Lemma concat_cons (x : string) (xs : list string) :
  String.concat "" (x :: xs) = (x ++ String.concat "" xs)%string.
Proof.
  destruct xs as [|y ys]; cbn [String.concat].
  - symmetry. apply append_empty_r.
  - reflexivity.
Qed.

Lemma concat_app (xs ys : list string) :
  String.concat "" (xs ++ ys)
    = (String.concat "" xs ++ String.concat "" ys)%string.
Proof.
  induction xs as [|x xs IH].
  - reflexivity.
  - rewrite <- app_comm_cons, !concat_cons, IH, append_assoc. reflexivity.
Qed.

(** A line without a line feed inside is one line of the file. *)
Lemma lines_of_line (body rest : string) :
  no_char newline body = true ->
  lines_of (body ++ String newline rest)
    = (body ++ String newline "")%string :: lines_of rest.
Proof.
  induction body as [|a body IH]; cbn [no_char append lines_of].
  - intros _. rewrite Ascii.eqb_refl. reflexivity.
  - intro H. apply andb_true_iff in H. destruct H as [Ha Hb].
    apply negb_true_iff in Ha. rewrite Ha, (IH Hb). reflexivity.
Qed.

(** A field without a separator inside is one field of the line. *)
Lemma str_split_field (sep : ascii) (field rest : string) :
  no_char sep field = true ->
  str_split sep (field ++ String sep rest) = field :: str_split sep rest.
Proof.
  induction field as [|a field IH]; cbn [no_char append str_split].
  - intros _. rewrite Ascii.eqb_refl. reflexivity.
  - intro H. apply andb_true_iff in H. destruct H as [Ha Hb].
    apply negb_true_iff in Ha. rewrite Ha, (IH Hb). reflexivity.
Qed.

Lemma str_split_last (sep : ascii) (field : string) :
  no_char sep field = true -> str_split sep field = [field].
Proof.
  induction field as [|a field IH]; cbn [no_char str_split].
  - reflexivity.
  - intro H. apply andb_true_iff in H. destruct H as [Ha Hb].
    apply negb_true_iff in Ha. rewrite Ha, (IH Hb). reflexivity.
Qed.

Lemma lstrip_clean (s rest : string) :
  starts_clean s = true -> lstrip (s ++ String "|" rest) = (s ++ String "|" rest)%string.
Proof.
  destruct s as [|a s]; cbn [starts_clean append lstrip].
  - reflexivity.
  - intro H. apply negb_true_iff in H. rewrite H. reflexivity.
Qed.

Lemma rstrip_space_end (s : string) (a : ascii) :
  is_space a = true -> rstrip (s ++ String a "") = rstrip s.
Proof.
  intro Ha. induction s as [|c s IH]; cbn [append rstrip].
  - rewrite Ha. reflexivity.
  - rewrite IH. reflexivity.
Qed.

Lemma rstrip_bar (t : string) : rstrip (String "|" t) = String "|" (rstrip t).
Proof. cbn [rstrip]. destruct (rstrip t); reflexivity. Qed.

(** Text in front of a bar is out of the reach of [rstrip]. *)
Lemma rstrip_before_bar (s t : string) :
  rstrip (s ++ String "|" t) = (s ++ String "|" (rstrip t))%string.
Proof.
  induction s as [|c s IH]; cbn [append].
  - apply rstrip_bar.
  - cbn [rstrip]. rewrite IH. destruct s; reflexivity.
Qed.

Lemma no_char_app (c : ascii) (s t : string) :
  no_char c (s ++ t) = no_char c s && no_char c t.
Proof.
  induction s as [|a s IH]; cbn [append no_char].
  - reflexivity.
  - rewrite IH. apply andb_assoc.
Qed.

(** ** Records of the file *)

Section Records.
Variable py_float : string -> option Q.
Variable py_int : string -> option Z.
Variable str_float : Q -> string.
Variable str_int : Z -> string.

Lemma record_line_body (p : Plan) :
  record_line str_float str_int p
    = (record_body str_float str_int p ++ String newline "")%string.
Proof.
  unfold record_line, record_body.
  rewrite !append_assoc. reflexivity.
Qed.

Local Ltac clean_parts H :=
  unfold record_clean, field_clean in H;
  repeat match goal with
         | H' : _ && _ = true |- _ => apply andb_true_iff in H'; destruct H'
         end.

Lemma record_body_one_line (p : Plan) :
  record_clean str_float str_int p = true ->
  no_char newline (record_body str_float str_int p) = true.
Proof.
  intro H. clean_parts H.
  unfold record_body.
  repeat (rewrite no_char_app; apply andb_true_iff; split;
          [first [assumption|reflexivity]|]).
  assumption.
Qed.

Lemma strip_record_line (p : Plan) :
  record_clean str_float str_int p = true ->
  strip (record_line str_float str_int p) = record_body str_float str_int p.
Proof.
  intro H. clean_parts H.
  match goal with E : String.eqb (rstrip _) _ = true |- _ =>
    apply String.eqb_eq in E; rename E into Hlast end.
  unfold strip, record_line, record_body.
  cbn [append].
  rewrite lstrip_clean by assumption.
  rewrite !rstrip_before_bar.
  rewrite rstrip_space_end by reflexivity.
  rewrite Hlast. reflexivity.
Qed.

Lemma split_record_body (p : Plan) :
  record_clean str_float str_int p = true ->
  str_split "|" (record_body str_float str_int p)
    = [name p; str_float (allowance p); str_float (expenses p);
       str_float (goal p); str_int (periods p); unit p;
       str_int (multiplier p); str_float (saved_so_far p);
       str_int (days_passed p)].
Proof.
  intro H. clean_parts H.
  unfold record_body. cbn [append].
  rewrite !str_split_field by assumption.
  rewrite str_split_last by assumption. reflexivity.
Qed.

(** The loader on a line the writers produced. *)
Lemma load_line_record (d : plans_dict) (p p' : Plan) :
  record_clean str_float str_int p = true ->
  reread py_float py_int str_float str_int p = Some p' ->
  load_line py_float py_int d (record_line str_float str_int p) = Ok (dict_set (name p) p' d).
Proof.
  intros Hclean Hread. unfold load_line.
  rewrite (strip_record_line p Hclean), (split_record_body p Hclean).
  unfold reread in Hread. unfold float_of, int_of.
  destruct (py_float (str_float (allowance p))); [|discriminate].
  destruct (py_float (str_float (expenses p))); [|discriminate].
  destruct (py_float (str_float (goal p))); [|discriminate].
  destruct (py_int (str_int (periods p))); [|discriminate].
  destruct (py_int (str_int (multiplier p))); [|discriminate].
  destruct (py_float (str_float (saved_so_far p))); [|discriminate].
  destruct (py_int (str_int (days_passed p))); [|discriminate].
  injection Hread as <-. reflexivity.
Qed.

Lemma lines_of_records (ps : list Plan) :
  forallb (record_clean str_float str_int) ps = true ->
  lines_of (String.concat "" (map (record_line str_float str_int) ps)) = map (record_line str_float str_int) ps.
Proof.
  induction ps as [|p ps IH]; [reflexivity|].
  cbn [forallb map]. intro H. apply andb_true_iff in H. destruct H as [Hp Hps].
  rewrite concat_cons. rewrite record_line_body at 1.
  rewrite append_assoc. cbn [append].
  rewrite (lines_of_line _ _ (record_body_one_line p Hp)).
  rewrite (IH Hps), <- record_line_body. reflexivity.
Qed.

Lemma load_lines_records (ps ps' : list Plan) :
  forall d,
    forallb (record_clean str_float str_int) ps = true ->
    Forall2 (fun p p' => reread py_float py_int str_float str_int p = Some p') ps ps' ->
    load_lines py_float py_int d (map (record_line str_float str_int) ps)
      = Ok (fold_left (fun d pq => dict_set (name (fst pq)) (snd pq) d)
              (combine ps ps') d).
Proof.
  intros d Hclean Hread. revert d Hclean.
  induction Hread as [|p p' ps ps' Hp _ IH]; intros d Hclean.
  - reflexivity.
  - cbn [forallb] in Hclean. apply andb_true_iff in Hclean.
    destruct Hclean as [Hc Hcs].
    cbn [map load_lines combine fold_left fst snd].
    rewrite (load_line_record d p p' Hc Hp). cbn [bind].
    apply IH. exact Hcs.
Qed.
End Records.

(** ** The dictionary *)

Lemma dict_get_set_same k v d : dict_get k (dict_set k v d) = Some v.
Proof.
  induction d as [|[k' v'] d IH]; cbn [dict_set dict_get].
  - rewrite String.eqb_refl. reflexivity.
  - destruct (String.eqb k' k) eqn:E; cbn [dict_get].
    + rewrite String.eqb_refl. reflexivity.
    + rewrite E. exact IH.
Qed.

Lemma dict_get_set_other k k0 v d :
  k0 <> k -> dict_get k0 (dict_set k v d) = dict_get k0 d.
Proof.
  intro Hne. induction d as [|[k' v'] d IH]; cbn [dict_set dict_get].
  - apply String.eqb_neq in Hne. rewrite String.eqb_sym, Hne. reflexivity.
  - destruct (String.eqb k' k) eqn:E; cbn [dict_get].
    + apply String.eqb_eq in E. subst k'.
      apply String.eqb_neq in Hne. rewrite String.eqb_sym, Hne. reflexivity.
    + rewrite IH. reflexivity.
Qed.

Lemma dict_set_fresh k v d :
  ~ In k (dict_keys d) -> dict_set k v d = (d ++ [(k, v)])%list.
Proof.
  unfold dict_keys. induction d as [|[k' v'] d IH]; cbn [dict_set map fst In app].
  - reflexivity.
  - intro H. destruct (String.eqb k' k) eqn:E.
    + apply String.eqb_eq in E. exfalso. apply H. left. exact E.
    + rewrite IH; [reflexivity|]. intro Hin. apply H. right. exact Hin.
Qed.

Lemma dict_set_keys_present k v d :
  In k (dict_keys d) -> dict_keys (dict_set k v d) = dict_keys d.
Proof.
  unfold dict_keys. induction d as [|[k' v'] d IH]; cbn [dict_set map fst In].
  - intros [].
  - intro H. destruct (String.eqb k' k) eqn:E; cbn [map fst].
    + apply String.eqb_eq in E. subst. reflexivity.
    + rewrite IH; [reflexivity|]. destruct H as [H|H]; [|exact H].
      apply String.eqb_neq in E. contradiction.
Qed.

Lemma dict_set_keys k v d :
  dict_keys (dict_set k v d)
    = if in_dec string_dec k (dict_keys d) then dict_keys d
      else (dict_keys d ++ [k])%list.
Proof.
  destruct (in_dec string_dec k (dict_keys d)) as [Hin|Hout].
  - apply dict_set_keys_present. exact Hin.
  - rewrite (dict_set_fresh k v d Hout). unfold dict_keys.
    rewrite map_app. reflexivity.
Qed.

Lemma dict_set_in k v d kp :
  In kp (dict_set k v d) -> kp = (k, v) \/ In kp d.
Proof.
  induction d as [|[k' v'] d IH]; cbn [dict_set In].
  - intros [H|[]]. left. symmetry. exact H.
  - destruct (String.eqb k' k); cbn [In].
    + intros [H|H]; [left; symmetry; exact H|right; right; exact H].
    + intros [H|H]; [right; left; exact H|].
      destruct (IH H) as [Hv|Hin]; [left; exact Hv|right; right; exact Hin].
Qed.

Lemma dict_pop_in k d kp : In kp (dict_pop k d) -> In kp d.
Proof.
  induction d as [|[k' v'] d IH]; cbn [dict_pop In].
  - intros [].
  - destruct (String.eqb k' k); cbn [In].
    + intro H. right. exact H.
    + intros [H|H]; [left; exact H|right; apply IH; exact H].
Qed.

Lemma dict_pop_keys_subset k d x :
  In x (dict_keys (dict_pop k d)) -> In x (dict_keys d).
Proof.
  unfold dict_keys. induction d as [|[k' v'] d IH]; cbn [dict_pop map fst In].
  - intros [].
  - destruct (String.eqb k' k); cbn [map fst In].
    + intro H. right. exact H.
    + intros [H|H]; [left; exact H|right; apply IH; exact H].
Qed.

Lemma dict_pop_nodup k d : NoDup (dict_keys d) -> NoDup (dict_keys (dict_pop k d)).
Proof.
  unfold dict_keys. induction d as [|[k' v'] d IH]; cbn [dict_pop map fst].
  - intro H. exact H.
  - intro H. inversion H as [|x l Hx Hl]; subst.
    destruct (String.eqb k' k); cbn [map fst].
    + exact Hl.
    + constructor; [|apply IH; exact Hl].
      intro Hin. apply Hx. apply (dict_pop_keys_subset k d). exact Hin.
Qed.

(** After [pop] the key is gone, when no key occurs twice. *)
Lemma dict_get_pop_same k d :
  NoDup (dict_keys d) -> dict_get k (dict_pop k d) = None.
Proof.
  unfold dict_keys. induction d as [|[k' v'] d IH]; cbn [dict_pop dict_get map fst].
  - reflexivity.
  - intro H. inversion H as [|x l Hx Hl]; subst.
    destruct (String.eqb k' k) eqn:E; cbn [dict_get].
    + apply String.eqb_eq in E. subst k'.
      clear IH H Hl. induction d as [|[k2 v2] d IH]; cbn [dict_get]; [reflexivity|].
      destruct (String.eqb k2 k) eqn:E2.
      * apply String.eqb_eq in E2. exfalso. apply Hx. left. exact E2.
      * apply IH. intro Hin. apply Hx. right. exact Hin.
    + rewrite E. apply IH. exact Hl.
Qed.

Lemma dict_get_pop_other k k0 d :
  k0 <> k -> dict_get k0 (dict_pop k d) = dict_get k0 d.
Proof.
  intro Hne. induction d as [|[k' v'] d IH]; cbn [dict_pop dict_get].
  - reflexivity.
  - destruct (String.eqb k' k) eqn:E; cbn [dict_get].
    + apply String.eqb_eq in E. subst k'.
      apply String.eqb_neq in Hne. rewrite String.eqb_sym, Hne. reflexivity.
    + rewrite IH. reflexivity.
Qed.

Lemma dict_get_in k d p : dict_get k d = Some p -> In (k, p) d.
Proof.
  induction d as [|[k' v'] d IH]; cbn [dict_get In]; [discriminate|].
  destruct (String.eqb k' k) eqn:E.
  - apply String.eqb_eq in E. intro H. injection H as <-. left. subst. reflexivity.
  - intro H. right. apply IH. exact H.
Qed.


(** ** Keys are names, and unique *)

Lemma store_wf_empty : store_wf [].
Proof. split; [constructor|intros k p []]. Qed.

Lemma store_wf_set (d : plans_dict) (p : Plan) :
  store_wf d -> store_wf (dict_set (name p) p d).
Proof.
  intros [Hnd Hkeys]. split.
  - rewrite dict_set_keys.
    destruct (in_dec string_dec (name p) (dict_keys d)) as [Hin|Hout]; [exact Hnd|].
    apply NoDup_app; [exact Hnd|constructor; [intros []|constructor]|].
    intros x Hx [Hy|[]]. subst. contradiction.
  - intros k q Hin. apply dict_set_in in Hin. destruct Hin as [H|H].
    + injection H as -> ->. reflexivity.
    + apply Hkeys. exact H.
Qed.

Lemma store_wf_pop (d : plans_dict) (k : string) :
  store_wf d -> store_wf (dict_pop k d).
Proof.
  intros [Hnd Hkeys]. split.
  - apply dict_pop_nodup. exact Hnd.
  - intros k' q Hin. apply Hkeys. apply (dict_pop_in k). exact Hin.
Qed.

(** ** Writing and reading back *)

Lemma plan_equiv_refl (p : Plan) : plan_equiv p p.
Proof. unfold plan_equiv. repeat split; reflexivity. Qed.

Lemma dict_equiv_refl (d : plans_dict) : dict_equiv d d.
Proof.
  induction d as [|kp d IH]; constructor; [|exact IH].
  split; [reflexivity|apply plan_equiv_refl].
Qed.

Lemma dict_equiv_keys (d d' : plans_dict) :
  dict_equiv d d' -> dict_keys d = dict_keys d'.
Proof.
  intro H. induction H as [|kp kp' d d' [Hk _] _ IH]; [reflexivity|].
  unfold dict_keys in *. cbn [map]. rewrite Hk, IH. reflexivity.
Qed.

Lemma dict_set_equiv (k : string) (p p' : Plan) (d d' : plans_dict) :
  dict_equiv d d' -> plan_equiv p p' ->
  dict_equiv (dict_set k p d) (dict_set k p' d').
Proof.
  intros Hd Hp. induction Hd as [|[k1 v1] [k2 v2] d d' [Hk Hv] Hd IH];
    cbn [dict_set].
  - constructor; [split; [reflexivity|exact Hp]|constructor].
  - cbn [fst snd] in Hk, Hv. subst k2.
    destruct (String.eqb k1 k).
    + constructor; [split; [reflexivity|exact Hp]|exact Hd].
    + constructor; [split; [reflexivity|exact Hv]|exact IH].
Qed.

(** A dictionary whose keys are the names of its plans is rebuilt by
    assigning its plans in order. *)
Lemma assign_all_rebuilds (d d0 : plans_dict) :
  NoDup (dict_keys (d0 ++ d)%list) ->
  (forall k p, In (k, p) d -> k = name p) ->
  assign_all (dict_values d) d0 = (d0 ++ d)%list.
Proof.
  revert d0. induction d as [|[k p] d IH]; intros d0 Hnd Hkeys.
  - cbn. rewrite app_nil_r. reflexivity.
  - unfold assign_all, dict_values in *. cbn [map snd fold_left].
    assert (Hk : k = name p) by (apply Hkeys; left; reflexivity).
    subst k.
    rewrite dict_set_fresh.
    + rewrite IH.
      * rewrite <- app_assoc. reflexivity.
      * rewrite <- app_assoc. exact Hnd.
      * intros k q Hin. apply Hkeys. right. exact Hin.
    + unfold dict_keys in Hnd. rewrite map_app in Hnd. cbn [map fst] in Hnd.
      apply NoDup_remove_2 in Hnd. intro Hin. apply Hnd.
      apply in_or_app. left. exact Hin.
Qed.

Section RoundTrip.
Variable py_float : string -> option Q.
Variable py_int : string -> option Z.
Variable str_float : Q -> string.
Variable str_int : Z -> string.

Lemma save_all_plans (ps : list Plan) (st : state) :
  plans (save_all str_float str_int ps st) = assign_all ps (plans st).
Proof.
  revert st. induction ps as [|p ps IH]; intro st; [reflexivity|].
  unfold save_all, assign_all in *. cbn [fold_left]. rewrite IH. reflexivity.
Qed.

Lemma save_all_file (ps : list Plan) (st : state) :
  file_content (the_plan_txt (save_all str_float str_int ps st))
    = (file_content (the_plan_txt st)
       ++ String.concat "" (map (record_line str_float str_int) ps))%string.
Proof.
  revert st. induction ps as [|p ps IH]; intro st.
  - cbn. symmetry. apply append_empty_r.
  - unfold save_all in *. cbn [fold_left map]. rewrite IH.
    cbn [save_plan write_plan_to_file the_plan_txt file_content].
    rewrite concat_cons, append_assoc. reflexivity.
Qed.

Lemma rereads_same_all (ps : list Plan) :
  (forall p, In p ps -> rereads_same py_float py_int str_float str_int p) ->
  exists ps',
    Forall2 (fun p p' => reread py_float py_int str_float str_int p = Some p') ps ps'
    /\ Forall2 plan_equiv ps ps'.
Proof.
  induction ps as [|p ps IH]; intro H.
  - exists []. split; constructor.
  - destruct IH as [ps' [Hr He]]; [intros q Hq; apply H; right; exact Hq|].
    specialize (H p (or_introl eq_refl)). unfold rereads_same in H.
    destruct (reread py_float py_int str_float str_int p) as [p'|] eqn:E;
      [|contradiction].
    exists (p' :: ps'). split; constructor; assumption.
Qed.

Lemma reread_name (p p' : Plan) :
  reread py_float py_int str_float str_int p = Some p' -> name p' = name p.
Proof.
  unfold reread.
  repeat match goal with
         | |- context [match ?x with Some _ => _ | None => _ end] => destruct x
         end; try discriminate.
  intro H. injection H as <-. reflexivity.
Qed.

Lemma assign_read_back (ps ps' : list Plan) :
  forall d d',
    Forall2 plan_equiv ps ps' -> dict_equiv d d' ->
    dict_equiv (assign_all ps d)
      (fold_left (fun d pq => dict_set (name (fst pq)) (snd pq) d)
         (combine ps ps') d').
Proof.
  intros d d' H. revert d d'.
  induction H as [|p p' ps ps' Hp _ IH]; intros d d' Hd.
  - exact Hd.
  - unfold assign_all in *. cbn [fold_left combine fst snd].
    apply IH. apply dict_set_equiv; assumption.
Qed.

(** Loading the text made of the records of [ps] into an empty store. *)
Lemma load_records (ps : list Plan) (content : option string) :
  file_content content
    = String.concat "" (map (record_line str_float str_int) ps) ->
  forallb (record_clean str_float str_int) ps = true ->
  (forall p, In p ps -> rereads_same py_float py_int str_float str_int p) ->
  exists d',
    load_plans_from_file py_float py_int (mkState [] content)
      = Ok (mkState d' content)
    /\ dict_equiv (assign_all ps []) d'.
Proof.
  intros Hfile Hclean Hread.
  destruct (rereads_same_all ps Hread) as [ps' [Hr He]].
  exists (match content with
          | Some _ => fold_left (fun d pq => dict_set (name (fst pq)) (snd pq) d)
                        (combine ps ps') []
          | None => []
          end).
  unfold load_plans_from_file. cbn [the_plan_txt plans].
  destruct content as [text|]; cbn [file_content] in Hfile.
  - rewrite Hfile, (lines_of_records str_float str_int ps Hclean).
    rewrite (load_lines_records py_float py_int str_float str_int ps ps' []
               Hclean Hr).
    cbn [bind]. split; [reflexivity|].
    apply assign_read_back; [exact He|constructor].
  - split; [reflexivity|].
    destruct ps as [|p ps]; [constructor|].
    exfalso. cbn [map] in Hfile. rewrite concat_cons in Hfile.
    rewrite record_line_body, append_assoc in Hfile.
    destruct (record_body str_float str_int p); discriminate Hfile.
Qed.
End RoundTrip.

Local Ltac sample_rereads :=
  let p := fresh "p" in
  let H := fresh "H" in
  intros p H; cbn [In dict_values map snd] in H;
  repeat (destruct H as [<-|H]; [vm_compute; repeat split; reflexivity|]);
  destruct H.

(** X1: a store whose keys are the names of its plans, written with
    [write_all_plans_to_file] and loaded into an empty store, comes back
    with the same names in the same order and the same field values,
    provided the texts of the fields can be told apart in a line (plain
    ASCII without carriage return, line feed or separator; no whitespace
    at the start of the name or the end of the last field) and every
    number is read back from its text as the same number. *)
Theorem write_all_then_load_round_trip
    (py_float : string -> option Q) (py_int : string -> option Z)
    (str_float : Q -> string) (str_int : Z -> string) (st : state) :
  store_wf (plans st) ->
  forallb (record_clean str_float str_int) (dict_values (plans st)) = true ->
  (forall p, In p (dict_values (plans st)) ->
     rereads_same py_float py_int str_float str_int p) ->
  let written := the_plan_txt (write_all_plans_to_file str_float str_int st) in
  exists d',
    load_plans_from_file py_float py_int (mkState [] written)
      = Ok (mkState d' written)
    /\ dict_equiv (plans st) d'.
Proof.
  intros [Hnd Hkeys] Hclean Hread written.
  destruct (load_records py_float py_int str_float str_int
              (dict_values (plans st)) written eq_refl Hclean Hread)
    as [d' [Hload Hequiv]].
  exists d'. split; [exact Hload|].
  rewrite (assign_all_rebuilds (plans st) [] Hnd Hkeys) in Hequiv.
  exact Hequiv.
Qed.

Lemma write_all_then_load_round_trip_witness :
  exists d',
    load_plans_from_file decimal_float decimal_int
      (mkState []
         (the_plan_txt (write_all_plans_to_file decimal_str_float decimal_str_int
                          (mkState three_plans None))))
      = Ok (mkState d'
              (the_plan_txt (write_all_plans_to_file decimal_str_float
                               decimal_str_int (mkState three_plans None))))
    /\ dict_equiv three_plans d'.
Proof.
  apply (write_all_then_load_round_trip decimal_float decimal_int
           decimal_str_float decimal_str_int (mkState three_plans None)).
  - split.
    + repeat constructor; cbn; intuition discriminate.
    + intros k p H. cbn in H.
      repeat (destruct H as [H|H]; [injection H as <- <-; reflexivity|]).
      destruct H.
  - reflexivity.
  - sample_rereads.
Defined.

(** X2: after any sequence of [save_plan] from the empty state, also one
    that saves under a name twice and so leaves stale records in the file,
    loading the file into an empty store gives the names, the order and the
    field values of the store in memory (under the same provisos on the
    texts as for X1). *)
Theorem reload_after_saves
    (py_float : string -> option Q) (py_int : string -> option Z)
    (str_float : Q -> string) (str_int : Z -> string) (ps : list Plan) :
  forallb (record_clean str_float str_int) ps = true ->
  (forall p, In p ps -> rereads_same py_float py_int str_float str_int p) ->
  let saved := save_all str_float str_int ps empty_state in
  exists d',
    load_plans_from_file py_float py_int (mkState [] (the_plan_txt saved))
      = Ok (mkState d' (the_plan_txt saved))
    /\ dict_equiv (plans saved) d'.
Proof.
  intros Hclean Hread saved.
  assert (Hfile : file_content (the_plan_txt saved)
                  = String.concat "" (map (record_line str_float str_int) ps)).
  { unfold saved. rewrite save_all_file. reflexivity. }
  destruct (load_records py_float py_int str_float str_int ps
              (the_plan_txt saved) Hfile Hclean Hread) as [d' [Hload Hequiv]].
  exists d'. split; [exact Hload|].
  unfold saved. rewrite save_all_plans. exact Hequiv.
Qed.

Lemma reload_after_saves_witness :
  let saved :=
    save_all decimal_str_float decimal_str_int
      [trip_plan; bike_plan; trip_plan_again] empty_state in
  dict_keys (plans saved) = ["trip"; "bike"]
  /\ List.length (lines_of (file_content (the_plan_txt saved))) = 3%nat
  /\ exists d',
       load_plans_from_file decimal_float decimal_int
         (mkState [] (the_plan_txt saved))
         = Ok (mkState d' (the_plan_txt saved))
       /\ dict_equiv (plans saved) d'.
Proof.
  intro saved. split; [reflexivity|]. split; [reflexivity|].
  apply (reload_after_saves decimal_float decimal_int decimal_str_float
           decimal_str_int [trip_plan; bike_plan; trip_plan_again]).
  - reflexivity.
  - sample_rereads.
Defined.

(** ** Names as keys *)

Section NamesAsKeys.
Variable py_float : string -> option Q.
Variable py_int : string -> option Z.
Variable str_float : Q -> string.
Variable str_int : Z -> string.

Lemma save_plan_wf st plan :
  store_wf (plans st) -> store_wf (plans (save_plan str_float str_int st plan)).
Proof. intro H. cbn [save_plan write_plan_to_file plans]. apply store_wf_set. exact H. Qed.

(** Replacing the plan found under [key] by one of the same name. *)
Lemma store_wf_update d key plan plan' :
  store_wf d -> dict_get key d = Some plan -> name plan' = name plan ->
  store_wf (dict_set key plan' d).
Proof.
  intros Hwf Hget Hname.
  assert (Hkey : key = name plan').
  { rewrite Hname. apply (proj2 Hwf). apply dict_get_in. exact Hget. }
  rewrite Hkey. apply store_wf_set. exact Hwf.
Qed.

Lemma add_saved_name plan amount plan' :
  add_saved plan amount = Ok plan' -> name plan' = name plan.
Proof.
  unfold add_saved. destruct (Qleb amount 0); [discriminate|].
  intro H. injection H as <-. reflexivity.
Qed.

Lemma update_allowance_name plan value plan' :
  update_allowance plan value = Ok plan' -> name plan' = name plan.
Proof.
  unfold update_allowance. destruct (Qleb value 0); [discriminate|].
  intro H. injection H as <-. reflexivity.
Qed.

Lemma update_expenses_name plan value plan' :
  update_expenses plan value = Ok plan' -> name plan' = name plan.
Proof.
  unfold update_expenses. destruct (Qleb value 0); [discriminate|].
  intro H. injection H as <-. reflexivity.
Qed.

Lemma add_saved_amount_wf st key raw :
  store_wf (plans st) ->
  store_wf (plans (add_saved_amount py_float str_float str_int st key raw)).
Proof.
  intro Hwf. unfold add_saved_amount.
  destruct (dict_get key (plans st)) as [plan|] eqn:Hget; [|exact Hwf].
  destruct (input_validation py_float raw "Saved amount") as [amount|e];
    cbn [bind]; [|exact Hwf].
  destruct (add_saved plan amount) as [plan'|e] eqn:Hadd; [|exact Hwf].
  cbn [write_all_plans_to_file plans].
  apply (store_wf_update _ _ plan plan' Hwf Hget (add_saved_name _ _ _ Hadd)).
Qed.

Lemma adjust_plan_wf st key raw_allowance raw_expenses :
  store_wf (plans st) ->
  store_wf (plans (adjust_plan py_float str_float str_int st key
                     raw_allowance raw_expenses)).
Proof.
  intro Hwf. unfold adjust_plan.
  destruct (dict_get key (plans st)) as [plan|] eqn:Hget; [|exact Hwf].
  destruct (input_validation py_float raw_allowance "Allowance") as [a|e];
    cbn [bind]; [|exact Hwf].
  destruct (input_validation py_float raw_expenses "Expenses") as [x|e];
    cbn [bind]; [|exact Hwf].
  destruct (update_allowance plan a) as [plan1|e] eqn:H1; [|exact Hwf].
  pose proof (store_wf_update _ _ plan plan1 Hwf Hget
                (update_allowance_name _ _ _ H1)) as Hwf1.
  destruct (update_expenses plan1 x) as [plan2|e] eqn:H2; [|exact Hwf1].
  cbn [write_all_plans_to_file plans the_plan_txt].
  apply (store_wf_update _ key plan1 plan2 Hwf1).
  - apply dict_get_set_same.
  - apply (update_expenses_name _ _ _ H2).
Qed.

Lemma reset_plan_wf st key confirm :
  store_wf (plans st) ->
  store_wf (plans (reset_plan str_float str_int st key confirm)).
Proof.
  intro Hwf. unfold reset_plan.
  destruct (dict_get key (plans st)) as [plan|] eqn:Hget; [|exact Hwf].
  destruct (lower_is_y confirm); [|exact Hwf].
  cbn [write_all_plans_to_file plans].
  apply (store_wf_update _ _ plan (reset plan) Hwf Hget). reflexivity.
Qed.

Lemma delete_plan_wf st key confirm :
  store_wf (plans st) ->
  store_wf (plans (delete_plan str_float str_int st key confirm)).
Proof.
  intro Hwf. unfold delete_plan.
  destruct (lower_is_y confirm); [|exact Hwf].
  cbn [write_all_plans_to_file plans]. apply store_wf_pop. exact Hwf.
Qed.

Lemma menu_check_feasibility_wf st multiplier unit_name inp st' o :
  store_wf (plans st) ->
  menu_check_feasibility py_float str_float str_int st multiplier unit_name inp
    = Ok (st', o) ->
  store_wf (plans st').
Proof.
  intros Hwf. unfold menu_check_feasibility.
  destruct (_ <- input_validation py_float (fi_allowance inp) "Allowance" ;; _)
    as [[[[allowance expenses] duration] goal]|e].
  - destruct (check_feasibility allowance expenses duration goal multiplier)
      as [v|e]; cbn [bind]; [|discriminate].
    destruct v as [? ? ?|? ?|? needed_cut].
    + destruct (lower_is_y (fi_save_choice inp));
        intro H; injection H as <- <-; [apply save_plan_wf|]; exact Hwf.
    + intro H. injection H as <- <-. exact Hwf.
    + destruct (lower_is_y (fi_save_choice inp)).
      * destruct (truediv (Z2Q needed_cut) (Z2Q multiplier)); cbn [bind];
          [|discriminate].
        intro H. injection H as <- <-. apply save_plan_wf. exact Hwf.
      * intro H. injection H as <- <-. exact Hwf.
  - destruct e; intro H; [injection H as <- <-; exact Hwf|discriminate].
Qed.

Lemma menu_time_needed_wf fuel st multiplier unit_name inp st' o :
  store_wf (plans st) ->
  menu_time_needed py_float str_float str_int fuel st multiplier unit_name inp
    = Some (Ok (st', o)) ->
  store_wf (plans st').
Proof.
  intros Hwf. unfold menu_time_needed.
  destruct (_ <- input_validation py_float (ti_allowance inp) "Allowance" ;; _)
    as [[[allowance expenses] goal]|e].
  - destruct (Qleb (allowance - expenses) 0).
    { intro H. injection H as <- <-. exact Hwf. }
    destruct (lower_is_n (ti_use_interest inp)).
    + destruct (truediv goal (allowance - expenses)); [|discriminate].
      destruct (lower_is_y (ti_save_choice inp));
        intro H; injection H as <- <-; [apply save_plan_wf|]; exact Hwf.
    + destruct (input_validation py_float (ti_interest_rate inp) "Interest rate")
        as [percent|e].
      * destruct (truediv (allowance - expenses) (Z2Q multiplier)) as [daily|];
          [|discriminate].
        destruct (interest_loop fuel goal daily (percent / 100) 0 0%Z)
          as [[total total_days]|]; [|discriminate].
        destruct (truediv (Z2Q total_days) (Z2Q multiplier)); [|discriminate].
        destruct (lower_is_y (ti_save_choice inp));
          intro H; injection H as <- <-; [apply save_plan_wf|]; exact Hwf.
      * destruct e; intro H; [injection H as <- <-; exact Hwf|discriminate].
  - destruct e; intro H; [injection H as <- <-; exact Hwf|discriminate].
Qed.

Lemma load_line_wf d line d' :
  store_wf d -> load_line py_float py_int d line = Ok d' -> store_wf d'.
Proof.
  intro Hwf. unfold load_line.
  destruct (str_split "|" (strip line)) as [|f1 [|f2 [|f3 [|f4 [|f5 [|f6 [|f7
    [|f8 [|f9 [|f10 rest]]]]]]]]]];
    try (intro H; injection H as <-; exact Hwf).
  unfold float_of, int_of.
  destruct (py_float f2); cbn [bind]; [|discriminate].
  destruct (py_float f3); cbn [bind]; [|discriminate].
  destruct (py_float f4); cbn [bind]; [|discriminate].
  destruct (py_int f5); cbn [bind]; [|discriminate].
  destruct (py_int f7); cbn [bind]; [|discriminate].
  destruct (py_float f8); cbn [bind]; [|discriminate].
  destruct (py_int f9); cbn [bind]; [|discriminate].
  intro H. injection H as <-.
  apply (store_wf_set d (mkPlan f1 _ _ _ _ f6 _ _ _)). exact Hwf.
Qed.

Lemma load_lines_wf lines :
  forall d d', store_wf d -> load_lines py_float py_int d lines = Ok d' -> store_wf d'.
Proof.
  induction lines as [|line rest IH]; intros d d' Hwf; cbn [load_lines].
  - intro H. injection H as <-. exact Hwf.
  - destruct (load_line py_float py_int d line) as [d1|e] eqn:H1; cbn [bind];
      [|discriminate].
    apply IH. apply (load_line_wf d line d1 Hwf H1).
Qed.

Lemma load_plans_from_file_wf st st' :
  store_wf (plans st) -> load_plans_from_file py_float py_int st = Ok st' ->
  store_wf (plans st').
Proof.
  intro Hwf. unfold load_plans_from_file.
  destruct (the_plan_txt st) as [content|].
  - destruct (load_lines py_float py_int (plans st) (lines_of content))
      as [d|e] eqn:H; cbn [bind]; [|discriminate].
    intro E. injection E as <-. cbn [plans]. apply (load_lines_wf _ _ _ Hwf H).
  - intro E. injection E as <-. exact Hwf.
Qed.

Lemma program_step_wf st st' :
  store_wf (plans st) ->
  program_step py_float py_int str_float str_int st st' ->
  store_wf (plans st').
Proof.
  intros Hwf Hstep.
  destruct Hstep as [st st' Hpub|st m u inp st' o Hrun|st st' Hload].
  - destruct Hpub as [st choices inp st' o Hrun Hno
                     |fuel st choices inp st' o Hrun
                     |st key raw|st key ra re|st key confirm|st key confirm].
    + apply with_time_unit_inv in Hrun.
      destruct Hrun as (m & u & Hrun & _). symmetry in Hrun.
      apply (menu_check_feasibility_wf st m u inp st' o Hwf Hrun).
    + apply with_time_unit_inv in Hrun.
      destruct Hrun as (m & u & Hrun & _). symmetry in Hrun.
      apply (menu_time_needed_wf fuel st m u inp st' o Hwf Hrun).
    + apply add_saved_amount_wf. exact Hwf.
    + apply adjust_plan_wf. exact Hwf.
    + apply reset_plan_wf. exact Hwf.
    + apply delete_plan_wf. exact Hwf.
  - apply (menu_check_feasibility_wf st m u inp st' o Hwf Hrun).
  - apply (load_plans_from_file_wf st st' Hwf Hload).
Qed.
End NamesAsKeys.

(** X3: through every operation of the program (both calculators with
    every ending, the tracker functions, the deletion and the loading of
    the file) every key of the dictionary stays the name of the plan stored
    under it, and no key occurs twice. *)
Theorem keys_stay_names
    (py_float : string -> option Q) (py_int : string -> option Z)
    (str_float : Q -> string) (str_int : Z -> string) (st0 st : state) :
  store_wf (plans st0) ->
  program_run py_float py_int str_float str_int st0 st ->
  store_wf (plans st).
Proof.
  intros H0 Hrun. induction Hrun as [|st st' _ IH Hstep].
  - exact H0.
  - apply (program_step_wf py_float py_int str_float str_int st st' IH Hstep).
Qed.

Lemma keys_stay_names_witness :
  exists st1 st2,
    load_plans_from_file decimal_float decimal_int
      (mkState [] (Some file_with_short_line)) = Ok st1
    /\ st2 = reset_plan decimal_str_float decimal_str_int st1 "second" "Y"
    /\ dict_keys (plans st2) = ["second"]
    /\ store_wf (plans st2).
Proof.
  eexists. eexists.
  split; [vm_compute; reflexivity|]. split; [reflexivity|].
  split; [reflexivity|].
  apply (keys_stay_names decimal_float decimal_int decimal_str_float
           decimal_str_int (mkState [] (Some file_with_short_line))).
  - apply store_wf_empty.
  - eapply run_step; [eapply run_step; [apply run_start|]|].
    + apply prog_load. vm_compute. reflexivity.
    + apply prog_public. apply step_reset_plan.
Defined.

(** ** The file and the store *)

Section FileAndStore.
Variable py_float : string -> option Q.
Variable str_float : Q -> string.
Variable str_int : Z -> string.

Lemma write_all_in_sync st :
  file_in_sync str_float str_int (write_all_plans_to_file str_float str_int st).
Proof. reflexivity. Qed.

Lemma dict_set_set k v1 v2 d :
  dict_set k v2 (dict_set k v1 d) = dict_set k v2 d.
Proof.
  induction d as [|[k' v'] d IH]; cbn [dict_set].
  - rewrite String.eqb_refl. reflexivity.
  - destruct (String.eqb k' k) eqn:E; cbn [dict_set].
    + rewrite String.eqb_refl. reflexivity.
    + rewrite E, IH. reflexivity.
Qed.

(** A validated number passes the check of the two setters. *)
Lemma update_allowance_validated plan value raw field :
  input_validation py_float raw field = Ok value ->
  update_allowance plan value
    = Ok (mkPlan (name plan) value (expenses plan) (goal plan) (periods plan)
            (unit plan) (multiplier plan) (saved_so_far plan) (days_passed plan)).
Proof.
  intro H. apply input_validation_positive in H. apply Qleb_gt in H.
  unfold update_allowance. rewrite H. reflexivity.
Qed.

Lemma update_expenses_validated plan value raw field :
  input_validation py_float raw field = Ok value ->
  update_expenses plan value
    = Ok (mkPlan (name plan) (allowance plan) value (goal plan) (periods plan)
            (unit plan) (multiplier plan) (saved_so_far plan) (days_passed plan)).
Proof.
  intro H. apply input_validation_positive in H. apply Qleb_gt in H.
  unfold update_expenses. rewrite H. reflexivity.
Qed.
End FileAndStore.

(** The two results [adjust_plan] can have. *)
Lemma adjust_plan_result
    (py_float : string -> option Q) (str_float : Q -> string)
    (str_int : Z -> string) (st : state) (key raw_allowance raw_expenses : string) :
  let st' := adjust_plan py_float str_float str_int st key raw_allowance raw_expenses in
  st' = st
  \/ exists plan new_allowance new_expenses,
       dict_get key (plans st) = Some plan
       /\ input_validation py_float raw_allowance "Allowance" = Ok new_allowance
       /\ input_validation py_float raw_expenses "Expenses" = Ok new_expenses
       /\ st' = write_all_plans_to_file str_float str_int
                  (mkState
                     (dict_set key
                        (mkPlan (name plan) new_allowance new_expenses (goal plan)
                           (periods plan) (unit plan) (multiplier plan)
                           (saved_so_far plan) (days_passed plan))
                        (plans st))
                     (the_plan_txt st)).
Proof.
  intro st'. unfold st', adjust_plan.
  destruct (dict_get key (plans st)) as [plan|] eqn:Hget; [|left; reflexivity].
  destruct (input_validation py_float raw_allowance "Allowance") as [a|e] eqn:Ha;
    cbn [bind]; [|left; reflexivity].
  destruct (input_validation py_float raw_expenses "Expenses") as [x|e] eqn:Hx;
    cbn [bind]; [|left; reflexivity].
  rewrite (update_allowance_validated py_float plan a _ _ Ha).
  rewrite (update_expenses_validated py_float _ x _ _ Hx).
  right. exists plan, a, x. repeat split.
  cbn [plans the_plan_txt name allowance expenses goal periods unit multiplier
       saved_so_far days_passed].
  rewrite dict_set_set. reflexivity.
Qed.

(** X4: [adjust_plan] is all or nothing.  Either the state is left as it
    was, or the plan under the key has both its allowance and its expenses
    replaced by the validated numbers, everything else of it kept, and the
    file rewritten: the setters cannot refuse a validated number, so the
    plan is never left with only the allowance changed. *)
Theorem adjust_plan_all_or_nothing
    (py_float : string -> option Q) (str_float : Q -> string)
    (str_int : Z -> string) (st : state) (key raw_allowance raw_expenses : string) :
  let st' := adjust_plan py_float str_float str_int st key raw_allowance raw_expenses in
  st' = st
  \/ exists plan new_allowance new_expenses,
       dict_get key (plans st) = Some plan
       /\ input_validation py_float raw_allowance "Allowance" = Ok new_allowance
       /\ input_validation py_float raw_expenses "Expenses" = Ok new_expenses
       /\ st' = write_all_plans_to_file str_float str_int
                  (mkState
                     (dict_set key
                        (mkPlan (name plan) new_allowance new_expenses (goal plan)
                           (periods plan) (unit plan) (multiplier plan)
                           (saved_so_far plan) (days_passed plan))
                        (plans st))
                     (the_plan_txt st)).
Proof.
  exact (adjust_plan_result py_float str_float str_int st key raw_allowance
           raw_expenses).
Qed.

(** X5: each mutation made through the tracker or the deletion either
    leaves the state as it was or ends with the file holding exactly the
    records of the stored plans, one each, in order; stale records left by
    earlier saves are gone after it. *)
Theorem tracker_mutations_rewrite_the_file
    (py_float : string -> option Q) (str_float : Q -> string)
    (str_int : Z -> string) (st : state) (key a b : string) :
  let unchanged_or_in_sync st' := st' = st \/ file_in_sync str_float str_int st' in
  unchanged_or_in_sync (add_saved_amount py_float str_float str_int st key a)
  /\ unchanged_or_in_sync (adjust_plan py_float str_float str_int st key a b)
  /\ unchanged_or_in_sync (reset_plan str_float str_int st key a)
  /\ unchanged_or_in_sync (delete_plan str_float str_int st key a).
Proof.
  intro P. unfold P. repeat split.
  - unfold add_saved_amount.
    destruct (dict_get key (plans st)); [|left; reflexivity].
    destruct (_ <- input_validation py_float a "Saved amount" ;; _);
      [right; apply write_all_in_sync|left; reflexivity].
  - destruct (adjust_plan_result py_float str_float str_int st key a b)
      as [H|(plan & x & y & _ & _ & _ & H)].
    + left. exact H.
    + right. rewrite H. apply write_all_in_sync.
  - unfold reset_plan.
    destruct (dict_get key (plans st)); [|left; reflexivity].
    destruct (lower_is_y a); [right; apply write_all_in_sync|left; reflexivity].
  - unfold delete_plan.
    destruct (lower_is_y a); [right; apply write_all_in_sync|left; reflexivity].
Qed.

(** X6: saving a plan under a name that is not in the store keeps a file
    that was in step with the store in step with it: the appended record is
    the one a full rewrite would add. *)
Theorem save_plan_new_name_in_sync
    (str_float : Q -> string) (str_int : Z -> string) (st : state) (plan : Plan) :
  file_in_sync str_float str_int st ->
  ~ In (name plan) (dict_keys (plans st)) ->
  file_in_sync str_float str_int (save_plan str_float str_int st plan).
Proof.
  intros Hsync Hnew. unfold file_in_sync, save_plan, write_plan_to_file in *.
  cbn [plans the_plan_txt file_content].
  rewrite (dict_set_fresh _ plan _ Hnew). unfold dict_values.
  rewrite map_app. cbn [map snd]. rewrite map_app, concat_app.
  cbn [map]. rewrite concat_cons. cbn [String.concat].
  rewrite append_empty_r. fold (dict_values (plans st)). rewrite Hsync.
  reflexivity.
Qed.

Lemma save_plan_new_name_in_sync_witness :
  file_in_sync decimal_str_float decimal_str_int
    (save_plan decimal_str_float decimal_str_int
       (save_plan decimal_str_float decimal_str_int empty_state trip_plan)
       bike_plan).
Proof.
  apply save_plan_new_name_in_sync.
  - apply save_plan_new_name_in_sync; [reflexivity|intros []].
  - cbn. intros [H|[]]. discriminate H.
Defined.

(** ** The tracker *)






Section Tracker.
Variable py_float : string -> option Q.
Variable str_float : Q -> string.
Variable str_int : Z -> string.




End Tracker.



(** The sample session: 250 saved, -5 refused, the rates replaced, a
    recalculation and a report shown, option 9 refused, then the exit with
    one line left unread. *)
Example tracker_session_run :
  match track_plan decimal_float decimal_str_float decimal_str_int 20
          tracker_session (mkState three_plans None) "bike" [] with
  | TrackerExit st' shown rest =>
      option_map (fun p => (Qred (allowance p), Qred (expenses p),
                            Qred (saved_so_far p), days_passed p))
        (dict_get "bike" (plans st'))
        = Some (600, 250, 250, 1%Z)
      /\ List.length shown = 3%nat /\ rest = ["1"]
  | _ => False
  end.
Proof. vm_compute. repeat split; reflexivity. Qed.

(** ** Menu 3: choosing and deleting *)

Lemma dict_get_present k d :
  In k (dict_keys d) -> exists p, dict_get k d = Some p.
Proof.
  unfold dict_keys. induction d as [|[k' v'] d IH]; cbn [map fst In dict_get].
  - intros [].
  - intro H. destruct (String.eqb k' k) eqn:E.
    + exists v'. reflexivity.
    + apply IH. destruct H as [H|H]; [|exact H].
      apply String.eqb_neq in E. contradiction.
Qed.

(** Under unique keys the plan found under the [i]-th key is the [i]-th plan. *)
Lemma dict_get_nth d i k p :
  NoDup (dict_keys d) -> nth_error d i = Some (k, p) -> dict_get k d = Some p.
Proof.
  unfold dict_keys. revert i.
  induction d as [|[k' v'] d IH]; intros i Hnd; [destruct i; discriminate|].
  cbn [map fst] in Hnd. inversion Hnd as [|x l Hx Hl]; subst.
  destruct i as [|i]; cbn [nth_error dict_get].
  - intro H. injection H as -> ->. rewrite String.eqb_refl. reflexivity.
  - intro H. destruct (String.eqb k' k) eqn:E.
    + apply String.eqb_eq in E. subst k'. exfalso. apply Hx.
      apply nth_error_In in H. apply (in_map fst) in H. exact H.
    + apply (IH i Hl H).
Qed.

(** X8: the choice of a plan by its number never fails in a lookup; 0
    leaves the list, a text that is no integer and a number outside
    1..(number of plans) are refused, and with unique keys a number in
    that range selects the plan at that place of the list. *)
Theorem choose_plan_selects
    (py_int : string -> option Z) (d : plans_dict) (raw : string) :
  choose_plan py_int d raw <> LookupFailed
  /\ (py_int raw = None -> choose_plan py_int d raw = InvalidInput)
  /\ (py_int raw = Some 0%Z -> choose_plan py_int d raw = ExitSavedPlans)
  /\ (forall choice,
        py_int raw = Some choice ->
        (choice < 0 \/ Z.of_nat (List.length d) < choice)%Z ->
        choose_plan py_int d raw = InvalidPlanNumber)
  /\ (forall choice,
        py_int raw = Some choice -> NoDup (dict_keys d) ->
        (1 <= choice <= Z.of_nat (List.length d))%Z ->
        exists k p,
          nth_error d (Z.to_nat (choice - 1)) = Some (k, p)
          /\ choose_plan py_int d raw = Selected k p).
Proof.
  assert (Hlen : List.length (dict_keys d) = List.length d)
    by (unfold dict_keys; apply length_map).
  unfold choose_plan. rewrite Hlen.
  repeat split.
  - destruct (py_int raw) as [choice|]; [|discriminate].
    destruct (choice =? 0)%Z eqn:E0; [discriminate|]. apply Z.eqb_neq in E0.
    destruct ((choice <? 0)%Z || (Z.of_nat (List.length d) <? choice)%Z) eqn:E;
      [discriminate|].
    apply orb_false_iff in E. destruct E as [E1 E2].
    apply Z.ltb_ge in E1, E2.
    destruct (nth_error (dict_keys d) (Z.to_nat (choice - 1))) as [k|] eqn:Hk.
    + destruct (dict_get_present k d) as [p Hp].
      * apply (nth_error_In _ _ Hk).
      * rewrite Hp. discriminate.
    + exfalso. apply nth_error_None in Hk. rewrite Hlen in Hk. lia.
  - intro H. rewrite H. reflexivity.
  - intro H. rewrite H. reflexivity.
  - intros choice H Hout. rewrite H.
    destruct (choice =? 0)%Z eqn:E0; [apply Z.eqb_eq in E0; lia|].
    destruct Hout as [Hneg|Hbig].
    + apply Z.ltb_lt in Hneg. rewrite Hneg. reflexivity.
    + apply Z.ltb_lt in Hbig. rewrite Hbig, orb_true_r. reflexivity.
  - intros choice H Hnd [Hlo Hhi]. rewrite H.
    destruct (choice =? 0)%Z eqn:E0; [apply Z.eqb_eq in E0; lia|].
    assert (E1 : (choice <? 0)%Z = false) by (apply Z.ltb_ge; lia).
    assert (E2 : (Z.of_nat (List.length d) <? choice)%Z = false)
      by (apply Z.ltb_ge; lia).
    rewrite E1, E2. cbn [orb].
    destruct (nth_error d (Z.to_nat (choice - 1))) as [[k p]|] eqn:Hnth.
    + exists k, p. split; [reflexivity|].
      unfold dict_keys. rewrite nth_error_map, Hnth. cbn [option_map fst].
      rewrite (dict_get_nth d _ k p Hnd Hnth). reflexivity.
    + exfalso. apply nth_error_None in Hnth. lia.
Qed.

Lemma choose_plan_selects_witness :
  choose_plan decimal_int three_plans "2" = Selected "bike" bike_plan
  /\ choose_plan decimal_int three_plans "4" = InvalidPlanNumber
  /\ choose_plan decimal_int three_plans "two" = InvalidInput
  /\ choose_plan decimal_int three_plans " 0 " = ExitSavedPlans.
Proof.
  pose proof (choose_plan_selects decimal_int three_plans "2")
    as (_ & _ & _ & _ & Hsel).
  pose proof (choose_plan_selects decimal_int three_plans "4")
    as (_ & _ & _ & Hout & _).
  pose proof (choose_plan_selects decimal_int three_plans "two")
    as (_ & Hbad & _).
  pose proof (choose_plan_selects decimal_int three_plans " 0 ")
    as (_ & _ & Hzero & _).
  split; [|split; [|split]].
  - destruct (Hsel 2%Z) as (k & p & Hnth & Hchoice).
    + reflexivity.
    + repeat constructor; cbn; intuition discriminate.
    + cbn. lia.
    + cbn in Hnth. injection Hnth as <- <-. exact Hchoice.
  - apply (Hout 4%Z); [reflexivity|right; cbn; lia].
  - apply Hbad. reflexivity.
  - apply Hzero. reflexivity.
Defined.

(** X9: a confirmed deletion removes the plan under the key (when keys are
    unique, as the program keeps them), leaves every other plan in place
    and rewrites the file from what is left; an answer other than y keeps
    the state. *)
Theorem delete_plan_removes
    (str_float : Q -> string) (str_int : Z -> string) (st : state)
    (key confirm : string) :
  NoDup (dict_keys (plans st)) ->
  let st' := delete_plan str_float str_int st key confirm in
  (lower_is_y confirm = true ->
     dict_get key (plans st') = None
     /\ (forall k, k <> key -> dict_get k (plans st') = dict_get k (plans st))
     /\ file_in_sync str_float str_int st')
  /\ (lower_is_y confirm = false -> st' = st).
Proof.
  intros Hnd st'. unfold st', delete_plan. split; intro Hc; rewrite Hc.
  - cbn [write_all_plans_to_file plans]. repeat split.
    + apply dict_get_pop_same. exact Hnd.
    + intros k Hk. apply dict_get_pop_other. exact Hk.
  - reflexivity.
Qed.

Lemma delete_plan_removes_witness :
  let st' := delete_plan decimal_str_float decimal_str_int
               (mkState three_plans None) "bike" "y" in
  dict_get "bike" (plans st') = None
  /\ dict_keys (plans st') = ["trip"; "my house"]
  /\ file_in_sync decimal_str_float decimal_str_int st'.
Proof.
  intro st'.
  destruct (delete_plan_removes decimal_str_float decimal_str_int
              (mkState three_plans None) "bike" "y") as [Hyes _].
  - repeat constructor; cbn; intuition discriminate.
  - destruct (Hyes eq_refl) as (Hgone & _ & Hsync).
    split; [exact Hgone|]. split; [reflexivity|exact Hsync].
Defined.

(** ** The plan and its reports *)



(** X12: once the days of a plan are used up, the status line depends on
    the sign of the saved amount only: "ahead of schedule" whenever
    anything has been saved, also when the goal was missed, "right on
    track" when nothing has been saved, and "behind schedule" only for a
    negative saved amount, which [add_saved] never produces but a record
    of the file may carry. *)
Theorem status_when_out_of_days (p : Plan) :
  (total_days p - days_passed p <= 0)%Z ->
  (0 < saved_so_far p -> status_of p = AheadOfSchedule)
  /\ (saved_so_far p == 0 -> status_of p = RightOnTrack)
  /\ (saved_so_far p < 0 -> status_of p = BehindSchedule).
Proof.
  intros Hout. unfold status_of, daily_needed.
  apply Z.leb_le in Hout. rewrite Hout.
  split; [|split]; intro H.
  - assert (E : Qltb (0 * Z2Q (days_passed p)) (saved_so_far p) = true)
      by (apply Qltb_lt; lra).
    rewrite E. reflexivity.
  - assert (E1 : Qltb (0 * Z2Q (days_passed p)) (saved_so_far p) = false)
      by (apply Qltb_ge; lra).
    assert (E2 : Qltb (saved_so_far p) (0 * Z2Q (days_passed p)) = false)
      by (apply Qltb_ge; lra).
    rewrite E1, E2. reflexivity.
  - assert (E1 : Qltb (0 * Z2Q (days_passed p)) (saved_so_far p) = false)
      by (apply Qltb_ge; lra).
    assert (E2 : Qltb (saved_so_far p) (0 * Z2Q (days_passed p)) = true)
      by (apply Qltb_lt; lra).
    rewrite E1, E2. reflexivity.
Qed.

Lemma status_when_out_of_days_witness :
  saved_so_far plan_out_of_time < goal plan_out_of_time
  /\ status_of plan_out_of_time = AheadOfSchedule.
Proof.
  split; [reflexivity|].
  apply (proj1 (status_when_out_of_days plan_out_of_time
                  ltac:(vm_compute; discriminate))).
  reflexivity.
Defined.




(** ** [str.replace] *)


(** ** Saving and the list of menu 3 *)

(** X15: after [save_plan] the plan is found under its name, every other
    name leads to what it led to before, and the order of the names is the
    old one with the name added at the end when it is new (a plan saved
    under a name already there takes the place of the old plan in the
    list). *)
Theorem save_plan_stores
    (str_float : Q -> string) (str_int : Z -> string) (st : state) (plan : Plan) :
  let st' := save_plan str_float str_int st plan in
  dict_get (name plan) (plans st') = Some plan
  /\ (forall k, k <> name plan -> dict_get k (plans st') = dict_get k (plans st))
  /\ (In (name plan) (dict_keys (plans st)) ->
      dict_keys (plans st') = dict_keys (plans st))
  /\ (~ In (name plan) (dict_keys (plans st)) ->
      dict_keys (plans st') = (dict_keys (plans st) ++ [name plan])%list).
Proof.
  intro st'. unfold st', save_plan, write_plan_to_file. cbn [plans].
  split; [apply dict_get_set_same|].
  split; [intros k Hk; apply dict_get_set_other; exact Hk|].
  split; intro H; rewrite dict_set_keys;
    destruct (in_dec string_dec (name plan) (dict_keys (plans st)));
    try reflexivity; contradiction.
Qed.

Lemma save_plan_stores_witness :
  let st' := save_plan decimal_str_float decimal_str_int
               (mkState three_plans None) trip_plan_again in
  dict_keys (plans st') = ["trip"; "bike"; "my house"]
  /\ dict_get "trip" (plans st') = Some trip_plan_again.
Proof.
  intro st'.
  destruct (save_plan_stores decimal_str_float decimal_str_int
              (mkState three_plans None) trip_plan_again)
    as (Hget & _ & Hold & _).
  split; [|exact Hget].
  apply Hold. left. reflexivity.
Defined.

(** ** The time-unit question *)

(** X16: the decorated menus run with the unit and multiplier of the first
    valid answer, all invalid answers before it being asked again, and the
    pair is one of day/1, week/7, month/30, year/365; with no valid answer
    the menu does not run. *)
Theorem with_time_unit_first_valid {A : Type} (menu_func : Z -> string -> A)
    (choices : list string) :
  match with_time_unit menu_func choices with
  | Some r =>
      exists invalid choice later unit_name multiplier,
        choices = (invalid ++ choice :: later)%list
        /\ (forall c, In c invalid -> time_unit_of_choice c = None)
        /\ time_unit_of_choice choice = Some (unit_name, multiplier)
        /\ r = menu_func multiplier unit_name
        /\ In (unit_name, multiplier)
             [("day", 1%Z); ("week", 7%Z); ("month", 30%Z); ("year", 365%Z)]
  | None => forall c, In c choices -> time_unit_of_choice c = None
  end.
Proof.
  induction choices as [|c rest IH]; cbn [with_time_unit].
  - intros c [].
  - destruct (time_unit_of_choice c) as [[unit_name multiplier]|] eqn:E.
    + exists [], c, rest, unit_name, multiplier.
      repeat split; try reflexivity; [intros x []|exact E|].
      unfold time_unit_of_choice in E.
      repeat match type of E with
             | (if ?b then _ else _) = _ => destruct b
             end; try discriminate; injection E as <- <-; cbn; tauto.
    + destruct (with_time_unit menu_func rest) as [r|].
      * destruct IH as (invalid & choice & later & u & m & H1 & H2 & H3 & H4 & H5).
        exists (c :: invalid), choice, later, u, m.
        repeat split; try assumption.
        -- rewrite H1. reflexivity.
        -- intros x [<-|Hx]; [exact E|apply H2; exact Hx].
      * intros x [<-|Hx]; [exact E|apply IH; exact Hx].
Qed.

(** ** Menu 1 and menu 2: what is saved *)

(** X18: neither calculator touches the store or the file unless the
    question about saving is answered with y or Y: on any other answer, on
    an input the validation refuses and on the "cannot save" ending the
    state after the menu is the state before it. *)
Theorem menus_save_only_on_yes
    (py_float : string -> option Q) (str_float : Q -> string)
    (str_int : Z -> string) (st st' : state) (multiplier : Z) (unit_name : string) :
  (forall inp o,
     lower_is_y (fi_save_choice inp) = false ->
     menu_check_feasibility py_float str_float str_int st multiplier unit_name inp
       = Ok (st', o) ->
     st' = st)
  /\ (forall fuel inp o,
        lower_is_y (ti_save_choice inp) = false ->
        menu_time_needed py_float str_float str_int fuel st multiplier unit_name inp
          = Some (Ok (st', o)) ->
        st' = st).
Proof.
  split.
  - intros inp o Hno. unfold menu_check_feasibility. rewrite Hno.
    destruct (_ <- input_validation py_float (fi_allowance inp) "Allowance" ;; _)
      as [[[[allowance expenses] duration] goal]|e].
    + destruct (check_feasibility allowance expenses duration goal multiplier)
        as [v|e]; cbn [bind]; [|discriminate].
      destruct v; intro H; injection H as <- _; reflexivity.
    + destruct e; [|discriminate]. intro H. injection H as <- _. reflexivity.
  - intros fuel inp o Hno. unfold menu_time_needed. rewrite Hno.
    destruct (_ <- input_validation py_float (ti_allowance inp) "Allowance" ;; _)
      as [[[allowance expenses] goal]|e].
    + destruct (Qleb (allowance - expenses) 0).
      { intro H. injection H as <- _. reflexivity. }
      destruct (lower_is_n (ti_use_interest inp)).
      * destruct (truediv goal (allowance - expenses)); [|discriminate].
        intro H. injection H as <- _. reflexivity.
      * destruct (input_validation py_float (ti_interest_rate inp) "Interest rate")
          as [percent|e].
        -- destruct (truediv (allowance - expenses) (Z2Q multiplier)) as [daily|];
             [|discriminate].
           destruct (interest_loop fuel goal daily (percent / 100) 0 0%Z)
             as [[total total_days]|]; [|discriminate].
           destruct (truediv (Z2Q total_days) (Z2Q multiplier)); [|discriminate].
           intro H. injection H as <- _. reflexivity.
        -- destruct e; [|discriminate]. intro H. injection H as <- _. reflexivity.
    + destruct e; [|discriminate]. intro H. injection H as <- _. reflexivity.
Qed.

Lemma menus_save_only_on_yes_witness :
  exists o1 o2,
    menu_check_feasibility decimal_float decimal_str_float decimal_str_int
      (mkState three_plans None) 1 "day" declined_feasibility_inputs
      = Ok (mkState three_plans None, o1)
    /\ menu_time_needed decimal_float decimal_str_float decimal_str_int 0
         (mkState three_plans None) 1 "day" declined_time_inputs
       = Some (Ok (mkState three_plans None, o2)).
Proof.
  destruct (menu_check_feasibility decimal_float decimal_str_float decimal_str_int
              (mkState three_plans None) 1 "day" declined_feasibility_inputs)
    as [[st1 o1]|e] eqn:H1; [|vm_compute in H1; discriminate H1].
  destruct (menu_time_needed decimal_float decimal_str_float decimal_str_int 0
              (mkState three_plans None) 1 "day" declined_time_inputs)
    as [[[st2 o2]|e]|] eqn:H2;
    [|vm_compute in H2; discriminate H2|vm_compute in H2; discriminate H2].
  exists o1, o2.
  rewrite (proj1 (menus_save_only_on_yes decimal_float decimal_str_float
                    decimal_str_int (mkState three_plans None) st1 1 "day")
             declined_feasibility_inputs o1 eq_refl H1).
  rewrite (proj2 (menus_save_only_on_yes decimal_float decimal_str_float
                    decimal_str_int (mkState three_plans None) st2 1 "day")
             O declined_time_inputs o2 eq_refl H2).
  split; reflexivity.
Defined.

(** ** A separator inside a name *)

Lemma str_split_length (sep : ascii) (s : string) :
  List.length (str_split sep s) = S (count_char sep s).
Proof.
  induction s as [|a s IH]; cbn [str_split count_char]; [reflexivity|].
  destruct (Ascii.eqb a sep); cbn [List.length].
  - rewrite IH. reflexivity.
  - destruct (str_split sep s) as [|w ws]; cbn [List.length] in *; lia.
Qed.

Lemma count_char_app (c : ascii) (s t : string) :
  count_char c (s ++ t) = (count_char c s + count_char c t)%nat.
Proof.
  induction s as [|a s IH]; cbn [append count_char]; [reflexivity|].
  rewrite IH. lia.
Qed.

Lemma count_char_present (c : ascii) (s : string) :
  no_char c s = false -> (1 <= count_char c s)%nat.
Proof.
  induction s as [|a s IH]; cbn [no_char count_char]; [discriminate|].
  destruct (Ascii.eqb a c); cbn [negb andb]; [lia|].
  intro H. apply IH in H. lia.
Qed.

Lemma space_is_not (c a : ascii) :
  is_space c = false -> is_space a = true -> Ascii.eqb a c = false.
Proof.
  intros Hc Ha. destruct (Ascii.eqb a c) eqn:E; [|reflexivity].
  apply Ascii.eqb_eq in E. subst. congruence.
Qed.

(** [strip] takes away whitespace only. *)
Lemma count_char_lstrip (c : ascii) (s : string) :
  is_space c = false -> count_char c (lstrip s) = count_char c s.
Proof.
  intro Hc. induction s as [|a s IH]; cbn [lstrip count_char]; [reflexivity|].
  destruct (is_space a) eqn:Ha; [|reflexivity].
  rewrite (space_is_not c a Hc Ha), IH. reflexivity.
Qed.

Lemma count_char_rstrip (c : ascii) (s : string) :
  is_space c = false -> count_char c (rstrip s) = count_char c s.
Proof.
  intro Hc. induction s as [|a s IH]; cbn [rstrip count_char]; [reflexivity|].
  destruct (rstrip s) as [|b r] eqn:Hr.
  - cbn [count_char] in IH. rewrite <- IH.
    destruct (is_space a) eqn:Ha.
    + rewrite (space_is_not c a Hc Ha). reflexivity.
    + cbn [count_char]. lia.
  - cbn [count_char] in *. rewrite IH. reflexivity.
Qed.

Lemma count_char_strip (c : ascii) (s : string) :
  is_space c = false -> count_char c (strip s) = count_char c s.
Proof.
  intro Hc. unfold strip.
  rewrite (count_char_rstrip c _ Hc). apply (count_char_lstrip c _ Hc).
Qed.

(** X20: a plan whose name contains the separator "|" is written to the
    file by both writers, but its record has more than nine fields and the
    loader drops it, whatever the numbers look like: after the next start
    of the program the plan is gone. *)
Theorem name_with_separator_is_dropped
    (py_float : string -> option Q) (py_int : string -> option Z)
    (str_float : Q -> string) (str_int : Z -> string)
    (d : plans_dict) (p : Plan) :
  no_char "|" (name p) = false ->
  load_line py_float py_int d (record_line str_float str_int p) = Ok d.
Proof.
  intro Hbar. apply load_line_wrong_field_count.
  rewrite str_split_length, count_char_strip by reflexivity.
  apply count_char_present in Hbar.
  unfold record_line. rewrite !count_char_app.
  change (count_char "|" "|") with 1%nat. lia.
Qed.

Lemma name_with_separator_is_dropped_witness :
  load_line decimal_float decimal_int []
    (record_line decimal_str_float decimal_str_int barred_plan)
  = Ok [].
Proof.
  apply (name_with_separator_is_dropped decimal_float decimal_int
           decimal_str_float decimal_str_int [] barred_plan).
  reflexivity.
Defined.

(** Saved and loaded again: the store is empty. *)
Example barred_plan_lost :
  let saved := save_plan decimal_str_float decimal_str_int empty_state barred_plan in
  dict_keys (plans saved) = ["a|b"]
  /\ load_plans_from_file decimal_float decimal_int
       (mkState [] (the_plan_txt saved))
     = Ok (mkState [] (the_plan_txt saved)).
Proof. split; vm_compute; reflexivity. Qed.

(** * Properties of the binary64 arithmetic *)

Module Binary64Facts.

Import Binary64.
Local Open Scope float_scope.
Local Open Scope binary64_scope.

(** ** Signs of binary64 numbers *)

Lemma Prim2SF_zero : Prim2SF 0 = S754_zero false.
Proof. reflexivity. Qed.

Lemma ltb_zero (x : float) : (0 <? x) = SFpositive (Prim2SF x).
Proof.
  rewrite ltb_spec, Prim2SF_zero.
  destruct (Prim2SF x) as [s|s| |s m e]; try destruct s; reflexivity.
Qed.

Lemma leb_zero (x : float) :
  (x <=? 0) = negb (SFpositive (Prim2SF x)) && negb (SFis_nan (Prim2SF x)).
Proof.
  rewrite leb_spec, Prim2SF_zero.
  destruct (Prim2SF x) as [s|s| |s m e]; try destruct s; reflexivity.
Qed.

Lemma zero_leb (x : float) :
  (0 <=? x) = negb (SFnegative (Prim2SF x)) && negb (SFis_nan (Prim2SF x)).
Proof.
  rewrite leb_spec, Prim2SF_zero.
  destruct (Prim2SF x) as [s|s| |s m e]; try destruct s; reflexivity.
Qed.

Lemma SFcompare_refl (x : spec_float) :
  SFis_nan x = false -> SFcompare x x = Some Eq.
Proof.
  destruct x as [s|s| |s m e]; simpl; try discriminate; intros _.
  - reflexivity.
  - destruct s; reflexivity.
  - rewrite Z.compare_refl.
    assert (E : Pos.compare_cont Eq m m = Eq) by apply Pos.compare_refl.
    rewrite E. destruct s; reflexivity.
Qed.

Lemma is_nan_Prim2SF (x : float) : is_nan x = SFis_nan (Prim2SF x).
Proof.
  unfold is_nan. rewrite eqb_spec. unfold SFeqb.
  destruct (SFis_nan (Prim2SF x)) eqn:E.
  - destruct (Prim2SF x); try discriminate. reflexivity.
  - rewrite (SFcompare_refl _ E). reflexivity.
Qed.

Lemma SFcompare_Eq_sym (x y : spec_float) :
  SFcompare x y = Some Eq -> SFcompare y x = Some Eq.
Proof.
  destruct x as [s|s| |s m e], y as [s'|s'| |s' m' e']; simpl;
    try destruct s; try destruct s'; try discriminate; try reflexivity;
    destruct (Z.compare e e') eqn:Ee; try discriminate;
    destruct (Pos.compare_cont Eq m m') eqn:Em; try discriminate;
    intros _; apply Z.compare_eq in Ee; apply Pos.compare_eq in Em; subst;
    rewrite Z.compare_refl;
    assert (E : Pos.compare_cont Eq m' m' = Eq) by apply Pos.compare_refl;
    rewrite E; reflexivity.
Qed.

Lemma eqb_leb (x y : float) : (x =? y) = true -> (x <=? y) = true.
Proof.
  rewrite eqb_spec, leb_spec. unfold SFeqb, SFleb.
  destruct (SFcompare (Prim2SF x) (Prim2SF y)) as [[ | | ]|];
    intro H; try discriminate; reflexivity.
Qed.

Lemma eqb_sym (x y : float) : (x =? y) = true -> (y =? x) = true.
Proof.
  rewrite !eqb_spec. unfold SFeqb.
  destruct (SFcompare (Prim2SF x) (Prim2SF y)) as [[ | | ]|] eqn:E;
    intro H; try discriminate.
  rewrite (SFcompare_Eq_sym _ _ E). reflexivity.
Qed.

Lemma eqb_ltb (x y : float) : (x =? y) = true -> (x <? y) = false.
Proof.
  rewrite eqb_spec, ltb_spec. unfold SFeqb, SFltb.
  destruct (SFcompare (Prim2SF x) (Prim2SF y)) as [[ | | ]|];
    intro H; try discriminate; reflexivity.
Qed.

Lemma leb_not_nan (x y : float) :
  (x <=? y) = true -> is_nan x = false /\ is_nan y = false.
Proof.
  rewrite leb_spec, !is_nan_Prim2SF. unfold SFleb.
  destruct (Prim2SF x), (Prim2SF y); simpl; try discriminate; auto.
Qed.

Lemma ltb_not_nan (x y : float) :
  (x <? y) = true -> is_nan x = false /\ is_nan y = false.
Proof.
  rewrite ltb_spec, !is_nan_Prim2SF. unfold SFltb.
  destruct (Prim2SF x), (Prim2SF y); simpl; try discriminate; auto.
Qed.

(** NaN is contagious: a result that is a number has operands that are
    numbers. *)
Lemma sub_not_nan (x y : float) :
  is_nan (x - y) = false -> is_nan x = false /\ is_nan y = false.
Proof.
  rewrite !is_nan_Prim2SF, sub_spec.
  destruct (Prim2SF x), (Prim2SF y); simpl; try discriminate; auto.
Qed.

Lemma mul_not_nan (x y : float) :
  is_nan (x * y) = false -> is_nan x = false /\ is_nan y = false.
Proof.
  rewrite !is_nan_Prim2SF, mul_spec.
  destruct (Prim2SF x), (Prim2SF y); simpl; try discriminate; auto.
Qed.

Lemma div_not_nan (x y : float) :
  is_nan (x / y) = false -> is_nan x = false /\ is_nan y = false.
Proof.
  rewrite !is_nan_Prim2SF, div_spec.
  destruct (Prim2SF x), (Prim2SF y); simpl; try discriminate; auto.
Qed.

(** What the test [number <= 0] lets through is positive, unless it is NaN. *)
Lemma not_leb_zero (x : float) :
  (x <=? 0) = false -> is_nan x = false -> (0 <? x) = true.
Proof.
  rewrite leb_zero, ltb_zero, is_nan_Prim2SF. intros H Hnan.
  rewrite Hnan in H. destruct (SFpositive (Prim2SF x)); [reflexivity|discriminate].
Qed.

Lemma ltb_zero_leb (x : float) : (0 <? x) = true -> (x <=? 0) = false.
Proof.
  rewrite leb_zero, ltb_zero. intro H. rewrite H. reflexivity.
Qed.

Lemma ltb_zero_zero_leb (x : float) : (0 <? x) = true -> (0 <=? x) = true.
Proof.
  rewrite zero_leb, ltb_zero.
  destruct (Prim2SF x) as [s|s| |s m e]; try destruct s; simpl;
    intro H; try discriminate; reflexivity.
Qed.

(** ** The sample [float()]

    [binary64_of_text] on the texts the statements below use, against the
    binary64 numbers written out in hexadecimal. *)
Example binary64_of_text_samples :
  binary64_of_text "0.3" = Some 0x1.3333333333333p-2
  /\ binary64_of_text "0.1" = Some 0x1.999999999999ap-4
  /\ binary64_of_text " 1,5 " = None
  /\ binary64_of_text "1e-323" = Some 0x1p-1073
  /\ binary64_of_text "5E-324" = Some 0x1p-1074
  /\ binary64_of_text "2e-324" = Some 0
  /\ binary64_of_text "1e400" = Some infinity
  /\ binary64_of_text "-Inf" = Some neg_infinity
  /\ binary64_of_text "1 e5" = None
  /\ binary64_of_text "abc" = None
  /\ option_map is_nan (binary64_of_text "NaN") = Some true.
Proof. vm_compute. repeat split; reflexivity. Qed.

(** ** The interest loop *)

(** A running total below the goal that one round of the loop body gives
    back unchanged is never left. *)
Lemma interest_loop_fixed_point (goal net : float) (multiplier : Z)
    (interest_rate total_saved daily : float) :
  (total_saved <? goal) = true ->
  truediv_int net multiplier = Ok daily ->
  (total_saved + daily) * (1 + interest_rate / 365) = total_saved ->
  forall fuel total_days,
    interest_loop fuel goal net multiplier interest_rate total_saved total_days
    = None.
Proof.
  intros Hbelow Hdaily Hsame fuel.
  induction fuel as [|fuel IH]; intro total_days; simpl.
  - reflexivity.
  - rewrite Hbelow, Hdaily, Hsame. apply IH.
Qed.

(** C8: menu 2 never returns at the inputs "1e-323", "5e-324", "1000"
    per week with interest: the net amount 1e-323 - 5e-324 = 5e-324 is
    positive, so the check [net <= 0] lets it through, but [net/multiplier]
    is rounded to 0.0, the running total stays 0.0 and the loop condition
    [total_saved < goal] holds for ever; whatever the fuel, the loop is
    still running when it ends. *)
Theorem interest_loop_never_ends_on_tiny_net :
  forall fuel : nat,
    menu_time_needed binary64_of_text fuel 7 "week" stalled_inputs = None.
Proof.
  intro fuel.
  assert (Hloop : forall days,
            interest_loop fuel 1000 (0x1p-1073 - 0x1p-1074) 7 (5 / 100) 0 days = None).
  { apply (interest_loop_fixed_point _ _ _ _ _ 0); reflexivity. }
  assert (Ha : input_validation binary64_of_text (ti_allowance stalled_inputs)
                 "Allowance" = Ok 0x1p-1073) by (vm_compute; reflexivity).
  assert (He : input_validation binary64_of_text (ti_expenses stalled_inputs)
                 "Expenses" = Ok 0x1p-1074) by (vm_compute; reflexivity).
  assert (Hg : input_validation binary64_of_text (ti_goal stalled_inputs)
                 "Goal" = Ok 1000) by (vm_compute; reflexivity).
  assert (Hr : input_validation binary64_of_text (ti_interest_rate stalled_inputs)
                 "Interest rate" = Ok 5) by (vm_compute; reflexivity).
  assert (Hnet : (0x1p-1073 - 0x1p-1074 <=? 0) = false) by reflexivity.
  assert (Hyes : lower_is_n (ti_use_interest stalled_inputs) = false)
    by reflexivity.
  unfold menu_time_needed.
  rewrite Ha, He, Hg. unfold bind. rewrite Hnet, Hyes, Hr, Hloop.
  reflexivity.
Qed.

(** The check [net <= 0] of menu 2 returns before any loop. *)
Lemma time_needed_non_positive_net (py_float : string -> option float)
    (fuel : nat) (multiplier : Z) (unit_name : string) (inp : time_inputs)
    (allowance expenses goal : float) :
  input_validation py_float (ti_allowance inp) "Allowance" = Ok allowance ->
  input_validation py_float (ti_expenses inp) "Expenses" = Ok expenses ->
  input_validation py_float (ti_goal inp) "Goal" = Ok goal ->
  (allowance - expenses <=? 0) = true ->
  menu_time_needed py_float fuel multiplier unit_name inp
  = Some (Ok (CannotSaveAnyMoney ((expenses - allowance) + 1))).
Proof.
  intros Ha He Hg Hnet. unfold menu_time_needed.
  rewrite Ha, He, Hg. unfold bind. rewrite Hnet. reflexivity.
Qed.

(** A state of the loop at ordinary magnitudes that is never left: with
    one unit saved per day and a rate so small that [1 + rate/365] is
    rounded to 1, the running total 2^53 stays 2^53. *)
Lemma interest_loop_stalls_at_two_to_53 (interest_rate : float) :
  1 + interest_rate / 365 = 1 ->
  forall fuel total_days,
    interest_loop fuel 100000000000000000 1 1 interest_rate
      9007199254740992 total_days = None.
Proof.
  intro Hrate.
  apply (interest_loop_fixed_point _ _ _ _ _ 1); try reflexivity.
  rewrite Hrate. reflexivity.
Qed.

(** ** Menu 2 without interest *)

Lemma ceiling_bounds (q : Q) :
  (Z2Q (Qceiling q) - 1 < q)%Q /\ (q <= Z2Q (Qceiling q))%Q.
Proof.
  split; [|apply Qle_ceiling].
  pose proof (Qceiling_lt q) as H.
  replace (Qceiling q - 1)%Z with (Qceiling q + -1)%Z in H by lia.
  rewrite inject_Z_plus in H. exact H.
Qed.

(** C6, counterexample: at allowance 0.3, expenses 0.1 and goal 1 per day
    menu 2 answers 5 periods, and five times the net amount is below the
    goal: the net amount is the binary64 number just below 0.2, and the
    quotient 1 / net is rounded to 5. *)
Lemma five_periods_fall_short :
  exists allowance expenses goal : float, exists net target : Q,
    input_validation binary64_of_text (ti_allowance short_inputs) "Allowance"
    = Ok allowance
    /\ input_validation binary64_of_text (ti_expenses short_inputs) "Expenses"
       = Ok expenses
    /\ input_validation binary64_of_text (ti_goal short_inputs) "Goal" = Ok goal
    /\ menu_time_needed binary64_of_text 0 1 "day" short_inputs
       = Some (Ok (TimeNeeded false 5 5 None))
    /\ float_value (allowance - expenses) = Some net
    /\ float_value goal = Some target
    /\ (0 < net)%Q
    /\ ~ (target <= Z2Q 5 * net)%Q.
Proof.
  eexists. eexists. eexists. eexists. eexists.
  split; [vm_compute; reflexivity|].
  split; [vm_compute; reflexivity|].
  split; [vm_compute; reflexivity|].
  split; [vm_compute; reflexivity|].
  split; [vm_compute; reflexivity|].
  split; [vm_compute; reflexivity|].
  split; [reflexivity|].
  vm_compute. intro H. apply H. reflexivity.
Qed.

(** C6, as amended: on the path without interest the number of periods is
    the ceiling of the binary64 quotient [goal / net], where [net] is the
    binary64 difference [allowance - expenses] and passed the check
    [net <= 0]; the day count is that number times the multiplier. *)
Theorem no_interest_periods_ceiling_of_quotient
    (py_float : string -> option float) (fuel : nat) (multiplier : Z)
    (unit_name : string) (inp : time_inputs) (allowance expenses goal : float)
    (periods_needed days : Z) (saved : option Plan) :
  input_validation py_float (ti_allowance inp) "Allowance" = Ok allowance ->
  input_validation py_float (ti_expenses inp) "Expenses" = Ok expenses ->
  input_validation py_float (ti_goal inp) "Goal" = Ok goal ->
  menu_time_needed py_float fuel multiplier unit_name inp
  = Some (Ok (TimeNeeded false periods_needed days saved)) ->
  (allowance - expenses <=? 0) = false
  /\ exists quotient : Q,
       float_value (goal / (allowance - expenses)) = Some quotient
       /\ (Z2Q periods_needed - 1 < quotient)%Q
       /\ (quotient <= Z2Q periods_needed)%Q
       /\ days = (periods_needed * multiplier)%Z.
Proof.
  intros Ha He Hg. unfold menu_time_needed.
  rewrite Ha, He, Hg. unfold bind.
  destruct (allowance - expenses <=? 0) eqn:Hnet; [discriminate|].
  destruct (lower_is_n (ti_use_interest inp)).
  - unfold truediv.
    destruct (allowance - expenses =? 0); [discriminate|].
    unfold math_ceil, to_integer.
    destruct (float_value (goal / (allowance - expenses))) as [quotient|] eqn:Hq;
      [|destruct (is_nan _); discriminate].
    destruct (show_days (Qceiling quotient * multiplier)); [|discriminate].
    intro H.
    assert (Hp : periods_needed = Qceiling quotient
                 /\ days = (Qceiling quotient * multiplier)%Z).
    { destruct (lower_is_y (ti_save_choice inp));
        injection H as H1 H2; subst; auto. }
    destruct Hp as [Hp Hd]. subst periods_needed.
    split; [reflexivity|]. exists quotient.
    split; [reflexivity|].
    split; [apply ceiling_bounds|].
    split; [apply ceiling_bounds|exact Hd].
  - destruct (input_validation py_float (ti_interest_rate inp) "Interest rate")
      as [percent|[e| |]]; try discriminate.
    destruct (interest_loop fuel goal (allowance - expenses) multiplier
                (percent / 100) 0 0) as [[[total total_days]|[e| |]]|];
      try discriminate.
    destruct (int_truediv total_days multiplier) as [q|[e| |]]; try discriminate.
    destruct (math_ceil q) as [n|[e| |]]; try discriminate.
    destruct (show_days total_days) as [shown|[e| |]]; try discriminate.
    destruct (lower_is_y (ti_save_choice inp)); discriminate.
Qed.

Lemma no_interest_periods_ceiling_of_quotient_witness :
  exists quotient : Q,
    float_value (1 / (0x1.3333333333333p-2 - 0x1.999999999999ap-4))
    = Some quotient
    /\ (Z2Q 5 - 1 < quotient)%Q /\ (quotient <= Z2Q 5)%Q
    /\ 5%Z = (5 * 1)%Z.
Proof.
  apply (no_interest_periods_ceiling_of_quotient binary64_of_text 0 1 "day"
           short_inputs 0x1.3333333333333p-2 0x1.999999999999ap-4 1 5 5 None);
    vm_compute; reflexivity.
Defined.

(** Totality of the path without interest: when the quotient is a number
    and the day count can be shown, menu 2 answers its ceiling. *)
Lemma no_interest_run (py_float : string -> option float) (fuel : nat)
    (multiplier : Z) (unit_name : string) (inp : time_inputs)
    (allowance expenses goal : float) (quotient : Q)
    (shown : float * float * float) :
  input_validation py_float (ti_allowance inp) "Allowance" = Ok allowance ->
  input_validation py_float (ti_expenses inp) "Expenses" = Ok expenses ->
  input_validation py_float (ti_goal inp) "Goal" = Ok goal ->
  (allowance - expenses <=? 0) = false ->
  lower_is_n (ti_use_interest inp) = true ->
  float_value (goal / (allowance - expenses)) = Some quotient ->
  show_days (Qceiling quotient * multiplier) = Ok shown ->
  exists saved,
    menu_time_needed py_float fuel multiplier unit_name inp
    = Some (Ok (TimeNeeded false (Qceiling quotient)
                  (Qceiling quotient * multiplier) saved)).
Proof.
  intros Ha He Hg Hnet Hn Hq Hshown. unfold menu_time_needed.
  rewrite Ha, He, Hg. unfold bind. rewrite Hnet, Hn.
  unfold truediv.
  destruct (allowance - expenses =? 0) eqn:Hzero.
  - apply eqb_leb in Hzero. congruence.
  - unfold math_ceil, to_integer. rewrite Hq, Hshown.
    destruct (lower_is_y (ti_save_choice inp)); eexists; reflexivity.
Qed.

(** ** Menu 1: the three verdicts *)

(** C1, counterexample: allowance 100, expenses 50, one day, goal 100.
    The most that can be saved equals the goal and the verdict is
    "not possible with current expenses", not "not possible even without
    expenses". *)
Lemma max_equal_goal_gives_conditional_verdict :
  max_possible 100 1 1 = Ok 100
  /\ (100 =? 100) = true
  /\ check_feasibility 100 50 1 100 1 = Ok (NotPossibleWithCurrentExpenses 50 50)
  /\ case_of (NotPossibleWithCurrentExpenses 50 50) <> ImpossibleEvenZeroExpenses.
Proof.
  split; [vm_compute; reflexivity|].
  split; [reflexivity|].
  split; [vm_compute; reflexivity|].
  discriminate.
Qed.

(** The branches follow the computed totals, not the exact ones: per week,
    300 - 200 over one week is exactly the goal 100, but
    (300/7 - 200/7) * 7 is computed below 100 and the verdict is
    "not possible with current expenses"; 150 over three weeks is exactly
    450, but 150/7 * 21 is computed below 450 and the verdict is
    "not possible even without expenses". *)
Lemma computed_totals_below_exact_totals :
  check_feasibility 300 200 1 100 7 = Ok (NotPossibleWithCurrentExpenses 1 1)
  /\ (exists total, total_saving_possible 300 200 1 7 = Ok total
                    /\ (total <? 100) = true)
  /\ check_feasibility 150 50 3 450 7 = Ok (NotPossibleEvenWithoutExpenses 449 21)
  /\ (exists most, max_possible 150 3 7 = Ok most /\ (most <? 450) = true).
Proof.
  split; [vm_compute; reflexivity|].
  split; [eexists; split; vm_compute; reflexivity|].
  split; [vm_compute; reflexivity|].
  eexists; split; vm_compute; reflexivity.
Qed.

(** C1, as amended: whenever menu 1 reaches a verdict, the two totals
    [total_saving_possible] and [max_possible] have been computed (in
    binary64, over [int(duration) * multiplier] days) and the verdict is
    exactly one of three, decided by the two comparisons of the source:
    possible when the goal is at most the computed saving; otherwise
    impossible even without expenses when the computed maximum is below
    the goal, and possible on condition when it is not.  At equality of
    the computed saving and the goal the verdict is "possible"; at
    equality of the computed maximum and the goal it is never "impossible
    even without expenses". *)
Theorem check_feasibility_verdict_by_computed_totals
    (allowance expenses duration goal : float) (multiplier : Z)
    (v : feasibility) :
  check_feasibility allowance expenses duration goal multiplier = Ok v ->
  exists total most : float,
    total_saving_possible allowance expenses duration multiplier = Ok total
    /\ max_possible allowance duration multiplier = Ok most
    /\ (case_of v = Possible <-> (goal <=? total) = true)
    /\ (case_of v = ImpossibleEvenZeroExpenses
        <-> (goal <=? total) = false /\ (most <? goal) = true)
    /\ (case_of v = ConditionallyPossible
        <-> (goal <=? total) = false /\ (most <? goal) = false)
    /\ ((total =? goal) = true -> case_of v = Possible)
    /\ ((most =? goal) = true -> case_of v <> ImpossibleEvenZeroExpenses).
Proof.
  unfold check_feasibility, total_saving_possible, max_possible, total_days_of.
  destruct (truediv_int allowance multiplier) as [daily_allowance|] eqn:Hda;
    [|discriminate].
  destruct (truediv_int expenses multiplier) as [daily_expenses|] eqn:Hde;
    [|discriminate].
  destruct (int_of_float duration) as [whole|] eqn:Hwhole; [|discriminate].
  unfold mul_int, bind.
  destruct (float_of_int (whole * multiplier)) as [days|]; [|discriminate].
  destruct (truediv_int goal (whole * multiplier)) as [per_day|]; [|discriminate].
  destruct (math_ceil per_day) as [required_daily|]; [|discriminate].
  set (total := (daily_allowance - daily_expenses) * days).
  set (most := daily_allowance * days).
  assert (Hequal : (total =? goal) = true -> (goal <=? total) = true)
    by (intro H; apply eqb_leb, eqb_sym, H).
  assert (Hmost : (most =? goal) = true -> (most <? goal) = false)
    by apply eqb_ltb.
  destruct (goal <=? total) eqn:Hpossible.
  - destruct (int_truediv required_daily multiplier); [|discriminate].
    destruct (math_floor (total - goal)); [|discriminate].
    intro H. injection H as H. subst v. exists total, most. simpl. rewrite Hpossible.
    split; [reflexivity|]. split; [reflexivity|].
    split; [split; reflexivity|].
    split; [split; [discriminate|intros [H _]; discriminate]|].
    split; [split; [discriminate|intros [H _]; discriminate]|].
    split; [reflexivity|discriminate].
  - destruct (math_ceil (per_day + daily_expenses - daily_allowance))
      as [needed_cut|]; [|discriminate].
    destruct (most <? goal) eqn:Hbelow.
    + destruct (math_floor most); [|discriminate].
      destruct (math_floor daily_allowance); [|discriminate].
      intro H. injection H as H. subst v. exists total, most. simpl. rewrite Hpossible, Hbelow.
      split; [reflexivity|]. split; [reflexivity|].
      split; [split; discriminate|].
      split; [split; [split; reflexivity|reflexivity]|].
      split; [split; [discriminate|intros [_ H]; discriminate]|].
      split; [intro H; apply Hequal in H; discriminate|].
      intro H; apply Hmost in H; discriminate.
    + destruct (int_truediv needed_cut multiplier); [|discriminate].
      destruct (math_ceil a); [|discriminate].
      intro H. injection H as H. subst v. exists total, most. simpl. rewrite Hpossible, Hbelow.
      split; [reflexivity|]. split; [reflexivity|].
      split; [split; discriminate|].
      split; [split; [discriminate|intros [_ H]; discriminate]|].
      split; [split; [split; reflexivity|reflexivity]|].
      split; [intro H; apply Hequal in H; discriminate|discriminate].
Qed.

Lemma check_feasibility_verdict_by_computed_totals_witness :
  exists total most : float,
    total_saving_possible 300 200 1 7 = Ok total
    /\ max_possible 300 1 7 = Ok most
    /\ (case_of (NotPossibleWithCurrentExpenses 1 1) = Possible
        <-> (100 <=? total) = true)
    /\ (case_of (NotPossibleWithCurrentExpenses 1 1) = ImpossibleEvenZeroExpenses
        <-> (100 <=? total) = false /\ (most <? 100) = true)
    /\ (case_of (NotPossibleWithCurrentExpenses 1 1) = ConditionallyPossible
        <-> (100 <=? total) = false /\ (most <? 100) = false)
    /\ ((total =? 100) = true
        -> case_of (NotPossibleWithCurrentExpenses 1 1) = Possible)
    /\ ((most =? 100) = true
        -> case_of (NotPossibleWithCurrentExpenses 1 1)
           <> ImpossibleEvenZeroExpenses).
Proof.
  apply (check_feasibility_verdict_by_computed_totals 300 200 1 100 7).
  vm_compute. reflexivity.
Defined.

(** ** Signs through rounding and conversion *)

Lemma binary_round_aux_not_negative (m e : Z) (l : location) :
  SFnegative (binary_round_aux prec emax false m e l) = false.
Proof.
  unfold binary_round_aux.
  destruct (shr_fexp prec emax m e l) as [mrs' e'].
  destruct (shr_fexp prec emax _ e' loc_Exact) as [mrs'' e''].
  destruct (shr_m mrs''); [reflexivity| |reflexivity].
  destruct (Z.leb e'' (emax - prec)); reflexivity.
Qed.

Lemma binary_round_not_negative (m : positive) (e : Z) :
  SFnegative (binary_round prec emax false m e) = false.
Proof.
  unfold binary_round.
  destruct (shl_align m e _) as [mz ez].
  apply binary_round_aux_not_negative.
Qed.

Lemma SFdiv_not_negative (x y : spec_float) :
  SFnegative x = false -> SFpositive y = true ->
  SFnegative (SFdiv prec emax x y) = false.
Proof.
  destruct x as [s|s| |s m e], y as [s'|s'| |s' m' e'];
    try destruct s; try destruct s'; simpl; try discriminate;
    intros _ _; try reflexivity.
  destruct (SFdiv_core_binary prec emax (Z.pos m) e (Z.pos m') e')
    as [[mz ez] lz].
  apply binary_round_aux_not_negative.
Qed.

Lemma SFldexp_not_negative (x : spec_float) (e : Z) :
  SFnegative x = false -> SFnegative (SFldexp prec emax x e) = false.
Proof.
  destruct x as [s|s| |s m ex]; simpl; intro H; try exact H.
  destruct s; [discriminate|]. apply binary_round_not_negative.
Qed.

Lemma Prim2SF_SF2Prim_not_negative (x : spec_float) :
  SFnegative x = false -> SFnegative (Prim2SF (SF2Prim x)) = false.
Proof.
  destruct x as [s|s| |s m e]; try destruct s; try discriminate;
    intros _; try reflexivity.
  unfold SF2Prim. rewrite Z_ldexp_spec, of_uint63_spec.
  apply SFldexp_not_negative.
  pose proof (Uint63.to_Z_bounded (Uint63.of_Z (Z.pos m))) as Hb.
  destruct (Uint63.to_Z (Uint63.of_Z (Z.pos m))) as [|p|p]; simpl.
  - reflexivity.
  - apply binary_round_not_negative.
  - lia.
Qed.

(** Shifting and rounding a mantissa that is not negative gives a number. *)
Lemma shr_1_nonneg (mrs : shr_record) :
  (0 <= shr_m mrs)%Z -> (0 <= shr_m (shr_1 mrs))%Z.
Proof.
  destruct mrs as [m r s]. simpl.
  destruct m as [|[p|p|]|[p|p|]]; simpl; lia.
Qed.

Lemma iter_pos_shr_1_nonneg (p : positive) :
  forall mrs, (0 <= shr_m mrs)%Z -> (0 <= shr_m (iter_pos shr_1 p mrs))%Z.
Proof.
  induction p as [p IH|p IH|]; intros mrs H; simpl.
  - apply IH, IH, shr_1_nonneg, H.
  - apply IH, IH, H.
  - apply shr_1_nonneg, H.
Qed.

Lemma shr_fexp_nonneg (m e : Z) (l : location) :
  (0 <= m)%Z -> (0 <= shr_m (fst (shr_fexp prec emax m e l)))%Z.
Proof.
  intro H. unfold shr_fexp, shr.
  assert (H0 : (0 <= shr_m (shr_record_of_loc m l))%Z)
    by (destruct l as [|[ | | ]]; exact H).
  destruct (fexp prec emax (Zdigits2 m + e) - e)%Z; simpl; try exact H0.
  apply iter_pos_shr_1_nonneg, H0.
Qed.

Lemma round_nearest_even_nonneg (m : Z) (l : location) :
  (0 <= m)%Z -> (0 <= round_nearest_even m l)%Z.
Proof.
  intro H. destruct l as [|[ | | ]]; simpl; try lia.
  destruct (Z.even m); lia.
Qed.

Lemma binary_round_aux_not_nan (s : bool) (m e : Z) (l : location) :
  (0 <= m)%Z -> SFis_nan (binary_round_aux prec emax s m e l) = false.
Proof.
  intro H. unfold binary_round_aux.
  pose proof (shr_fexp_nonneg m e l H) as H1.
  destruct (shr_fexp prec emax m e l) as [mrs' e']. simpl in H1.
  pose proof (shr_fexp_nonneg _ e' loc_Exact
                (round_nearest_even_nonneg _ (loc_of_shr_record mrs') H1)) as H2.
  destruct (shr_fexp prec emax _ e' loc_Exact) as [mrs'' e'']. simpl in H2.
  destruct (shr_m mrs''); [reflexivity| |lia].
  destruct (Z.leb e'' (emax - prec)); reflexivity.
Qed.

Lemma binary_round_not_nan (s : bool) (m : positive) (e : Z) :
  SFis_nan (binary_round prec emax s m e) = false.
Proof.
  unfold binary_round.
  destruct (shl_align m e _) as [mz ez].
  apply binary_round_aux_not_nan. lia.
Qed.

(** The sum of a number that is at least zero and a positive one is at
    least zero. *)
Lemma add_nonneg (x y : float) :
  (0 <=? x) = true -> (0 <? y) = true -> (0 <=? x + y) = true.
Proof.
  rewrite !zero_leb, ltb_zero, add_spec. unfold SF64add.
  destruct (Prim2SF x) as [s|s| |s m e], (Prim2SF y) as [s'|s'| |s' m' e'];
    try destruct s; try destruct s'; simpl; try discriminate;
    intros _ _; try reflexivity.
  rewrite binary_round_not_negative, binary_round_not_nan. reflexivity.
Qed.

(** ** Integers out of floats *)

Lemma float_value_nonneg (x : float) (q : Q) :
  float_value x = Some q -> SFnegative (Prim2SF x) = false -> (0 <= q)%Q.
Proof.
  unfold float_value.
  destruct (Prim2SF x) as [s|s| |s m e]; simpl; try discriminate.
  - intros H _. injection H as H. subst q. apply Qle_refl.
  - intros H Hs. injection H as H. subst q.
    destruct s; [discriminate|]. simpl.
    apply Qmult_le_0_compat.
    + unfold Z2Q. change (inject_Z 0 <= inject_Z (Z.pos m))%Q.
      rewrite <- Zle_Qle. lia.
    + apply Qpower_0_le. discriminate.
Qed.

Lemma ceiling_nonneg (q : Q) : (0 <= q)%Q -> (0 <= Qceiling q)%Z.
Proof.
  intro H. apply Qceiling_resp_le in H.
  change 0%Q with (inject_Z 0) in H. rewrite Qceiling_Z in H. exact H.
Qed.

Lemma truncate_nonneg (q : Q) : (0 <= q)%Q -> (0 <= truncate q)%Z.
Proof.
  intro H. unfold truncate.
  destruct (Qltb q 0); [apply ceiling_nonneg, H|].
  apply Qfloor_resp_le in H.
  change 0%Q with (inject_Z 0) in H. rewrite Qfloor_Z in H. exact H.
Qed.

(** A float that passed the test [number <= 0] and has a value is not
    negative. *)
Lemma not_leb_zero_not_negative (x : float) :
  (x <=? 0) = false -> SFnegative (Prim2SF x) = false.
Proof.
  rewrite leb_zero.
  destruct (Prim2SF x) as [s|s| |s m e]; try destruct s; simpl;
    intro H; try discriminate; reflexivity.
Qed.

Lemma int_of_float_not_negative (x : float) (n : Z) :
  (x <=? 0) = false -> int_of_float x = Ok n -> (0 <= n)%Z.
Proof.
  intros Hx. unfold int_of_float, to_integer.
  destruct (float_value x) as [q|] eqn:Hq;
    [|destruct (is_nan x); discriminate].
  intro H. injection H as H. subst n.
  apply truncate_nonneg, (float_value_nonneg x); [exact Hq|].
  apply not_leb_zero_not_negative, Hx.
Qed.

(** The quotient of a positive goal by a net amount that passed the test
    [net <= 0], when it has a value, is not negative. *)
Lemma quotient_ceiling_nonneg (goal net : float) (n : Z) :
  (0 <? goal) = true -> (net <=? 0) = false ->
  math_ceil (goal / net) = Ok n -> (0 <= n)%Z.
Proof.
  intros Hgoal Hnet. unfold math_ceil, to_integer.
  destruct (float_value (goal / net)) as [q|] eqn:Hq;
    [|destruct (is_nan _); discriminate].
  intro H. injection H as H. subst n.
  apply ceiling_nonneg, (float_value_nonneg (goal / net)); [exact Hq|].
  unfold float_value in Hq. rewrite div_spec in *.
  rewrite ltb_zero in Hgoal. rewrite leb_zero in Hnet.
  unfold SF64div in *.
  destruct (SFis_nan (Prim2SF net)) eqn:Hnan.
  - destruct (Prim2SF net); try discriminate.
    destruct (Prim2SF goal); discriminate.
  - apply SFdiv_not_negative.
    + destruct (Prim2SF goal) as [s|s| |s m e]; try destruct s;
        try discriminate; reflexivity.
    + destruct (SFpositive (Prim2SF net)); [reflexivity|discriminate].
Qed.

Lemma int_truediv_ceiling_nonneg (a b n : Z) (q : float) :
  (0 <= a)%Z -> (0 < b)%Z ->
  int_truediv a b = Ok q -> math_ceil q = Ok n -> (0 <= n)%Z.
Proof.
  intros Ha Hb. unfold int_truediv.
  destruct (b =? 0)%Z; [discriminate|].
  assert (Hsign : SFnegative (SFdiv prec emax (Z2SF a) (Z2SF b)) = false).
  { apply SFdiv_not_negative.
    - destruct a; simpl; try reflexivity. lia.
    - destruct b; simpl; try reflexivity; lia. }
  intros Hq. unfold math_ceil, to_integer.
  destruct (float_value q) as [v|] eqn:Hv;
    [|destruct (is_nan q); discriminate].
  intro H. injection H as H. subst n.
  apply ceiling_nonneg, (float_value_nonneg q); [exact Hv|].
  destruct (SFdiv prec emax (Z2SF a) (Z2SF b)) as [s|s| |s m e] eqn:E;
    try discriminate; injection Hq as Hq; subst q.
  - apply (Prim2SF_SF2Prim_not_negative (S754_zero s)), Hsign.
  - reflexivity.
  - apply (Prim2SF_SF2Prim_not_negative (S754_finite s m e)), Hsign.
Qed.

Lemma truediv_int_nonzero (x : float) (n : Z) (r : float) :
  truediv_int x n = Ok r -> n <> 0%Z.
Proof.
  intros H E. subst n. vm_compute in H. discriminate.
Qed.

Lemma truediv_int_not_nan (x : float) (n : Z) (r : float) :
  truediv_int x n = Ok r -> is_nan r = false -> is_nan x = false.
Proof.
  unfold truediv_int, truediv, bind.
  destruct (float_of_int n) as [y|]; [|discriminate].
  destruct (y =? 0); [discriminate|].
  intro H. injection H as H. subst r.
  intro Hr. apply div_not_nan in Hr. apply Hr.
Qed.

Lemma interest_loop_days (fuel : nat) (goal net : float) (multiplier : Z)
    (interest_rate : float) :
  forall (total_saved : float) (total_days : Z) (total : float) (days : Z),
    interest_loop fuel goal net multiplier interest_rate total_saved total_days
    = Some (Ok (total, days)) ->
    (total_days <= days)%Z.
Proof.
  induction fuel as [|fuel IH]; intros total_saved total_days total days;
    simpl; [discriminate|].
  destruct (total_saved <? goal).
  - destruct (truediv_int net multiplier); [|discriminate].
    intro H. apply IH in H. lia.
  - intro H. injection H as H1 H2. lia.
Qed.

(** ** What the validation lets through *)

Lemma input_validation_inv (py_float : string -> option float)
    (value name : string) (number : float) :
  input_validation py_float value name = Ok number ->
  py_float (remove_char " " (remove_char "," value)) = Some number
  /\ (number <=? 0) = false.
Proof.
  unfold input_validation.
  destruct (py_float _) as [x|]; [|discriminate].
  destruct (x <=? 0) eqn:E; [discriminate|].
  intro H. injection H as H. subst x. auto.
Qed.

Lemma validated_number_positive (py_float : string -> option float)
    (value name : string) (number : float) :
  input_validation py_float value name = Ok number ->
  reads_nan py_float value = false ->
  (0 <? number) = true.
Proof.
  intros H Hnan. apply input_validation_inv in H. destruct H as [Hread Hle].
  unfold reads_nan in Hnan. rewrite Hread in Hnan.
  apply not_leb_zero; assumption.
Qed.

(** ** Invariants of the plans the program builds *)

(** What the "possible" verdict of menu 1 tells about its inputs. *)
Lemma check_feasibility_possible_inv
    (allowance expenses duration goal : float) (multiplier : Z)
    (per_unit daily : float) (extra : Z) :
  check_feasibility allowance expenses duration goal multiplier
  = Ok (GoalPossible per_unit daily extra) ->
  is_nan allowance = false /\ is_nan expenses = false /\ is_nan goal = false
  /\ exists whole, int_of_float duration = Ok whole /\ whole <> 0%Z.
Proof.
  unfold check_feasibility.
  destruct (truediv_int allowance multiplier) as [daily_allowance|] eqn:Hda;
    [|discriminate].
  destruct (truediv_int expenses multiplier) as [daily_expenses|] eqn:Hde;
    [|discriminate].
  destruct (int_of_float duration) as [whole|] eqn:Hwhole; [|discriminate].
  unfold mul_int, bind.
  destruct (float_of_int (whole * multiplier)) as [days|]; [|discriminate].
  destruct (truediv_int goal (whole * multiplier)) as [per_day|] eqn:Hper;
    [|discriminate].
  destruct (math_ceil per_day) as [required_daily|]; [|discriminate].
  destruct (goal <=? (daily_allowance - daily_expenses) * days) eqn:Hpossible.
  - intros _.
    apply leb_not_nan in Hpossible. destruct Hpossible as [Hgoal Htotal].
    apply mul_not_nan in Htotal. destruct Htotal as [Hsaving _].
    apply sub_not_nan in Hsaving. destruct Hsaving as [Ha He].
    split; [exact (truediv_int_not_nan _ _ _ Hda Ha)|].
    split; [exact (truediv_int_not_nan _ _ _ Hde He)|].
    split; [exact Hgoal|].
    exists whole. split; [reflexivity|].
    apply truediv_int_nonzero in Hper. lia.
  - destruct (math_ceil (per_day + daily_expenses - daily_allowance));
      [|discriminate].
    destruct (daily_allowance * days <? goal).
    + destruct (math_floor (daily_allowance * days)); [|discriminate].
      destruct (math_floor daily_allowance); discriminate.
    + destruct (int_truediv a multiplier); [|discriminate].
      destruct (math_ceil a0); discriminate.
Qed.

Lemma feasibility_plan_invariant (py_float : string -> option float)
    (multiplier : Z) (unit_name : string) (inp : feasibility_inputs)
    (per_unit daily : float) (extra : Z) (plan : Plan) :
  menu_check_feasibility py_float multiplier unit_name inp
  = Ok (FeasibilityResult (GoalPossible per_unit daily extra) (Some plan)) ->
  plan_invariant plan /\ (0 < periods plan)%Z.
Proof.
  unfold menu_check_feasibility.
  destruct (input_validation py_float (fi_allowance inp) "Allowance")
    as [allowance|[e| |]] eqn:Ha; try discriminate.
  destruct (input_validation py_float (fi_expenses inp) "Expenses")
    as [expenses|[e| |]] eqn:He; try discriminate.
  destruct (input_validation py_float (fi_duration inp) "Duration")
    as [duration|[e| |]] eqn:Hd; try discriminate.
  destruct (input_validation py_float (fi_goal inp) "Goal")
    as [goal|[e| |]] eqn:Hg; try discriminate.
  unfold bind.
  destruct (check_feasibility allowance expenses duration goal multiplier)
    as [v|] eqn:Hv; [|discriminate].
  apply input_validation_inv in Ha, He, Hd, Hg.
  destruct Ha as [_ Ha], He as [_ He], Hd as [_ Hd], Hg as [_ Hg].
  destruct v as [pu ds ex|mt md|cut needed].
  - destruct (check_feasibility_possible_inv _ _ _ _ _ _ _ _ Hv)
      as (Na & Ne & Ng & whole & Hwhole & Hnonzero).
    rewrite Hwhole.
    destruct (lower_is_y (fi_save_choice inp)); [|discriminate].
    intro H. injection H as _ _ _ H. subst plan.
    pose proof (int_of_float_not_negative _ _ Hd Hwhole) as Hpos.
    unfold plan_invariant. simpl.
    split; [|lia].
    split; [apply not_leb_zero; assumption|].
    split; [apply not_leb_zero; assumption|].
    split; [apply not_leb_zero; assumption|].
    split; [lia|]. split; [reflexivity|lia].
  - discriminate.
  - destruct (lower_is_y (fi_save_choice inp)); [|discriminate].
    destruct (int_truediv needed multiplier); [|discriminate].
    destruct (int_of_float duration); discriminate.
Qed.

Lemma time_needed_plan_invariant (py_float : string -> option float)
    (fuel : nat) (multiplier : Z) (unit_name : string) (inp : time_inputs)
    (with_interest : bool) (periods_needed days : Z) (plan : Plan) :
  (0 < multiplier)%Z ->
  reads_nan py_float (ti_allowance inp) = false ->
  reads_nan py_float (ti_expenses inp) = false ->
  reads_nan py_float (ti_goal inp) = false ->
  menu_time_needed py_float fuel multiplier unit_name inp
  = Some (Ok (TimeNeeded with_interest periods_needed days (Some plan))) ->
  plan_invariant plan.
Proof.
  intros Hm Na Ne Ng. unfold menu_time_needed.
  destruct (input_validation py_float (ti_allowance inp) "Allowance")
    as [allowance|[e| |]] eqn:Ha; try discriminate.
  destruct (input_validation py_float (ti_expenses inp) "Expenses")
    as [expenses|[e| |]] eqn:He; try discriminate.
  destruct (input_validation py_float (ti_goal inp) "Goal")
    as [goal|[e| |]] eqn:Hg; try discriminate.
  unfold bind.
  pose proof (validated_number_positive _ _ _ _ Ha Na) as Pa.
  pose proof (validated_number_positive _ _ _ _ He Ne) as Pe.
  pose proof (validated_number_positive _ _ _ _ Hg Ng) as Pg.
  assert (Hplan : forall w n d,
            (0 <= n)%Z ->
            (if lower_is_y (ti_save_choice inp)
             then Ok (TimeNeeded w n d
                        (Some (Plan_init (ti_plan_name inp) allowance expenses
                                 goal n unit_name multiplier)))
             else Ok (TimeNeeded w n d None))
            = Ok (TimeNeeded with_interest periods_needed days (Some plan)) ->
            plan_invariant plan).
  { intros w n d Hn H.
    destruct (lower_is_y (ti_save_choice inp)); [|discriminate].
    injection H as _ _ _ H. subst plan.
    unfold plan_invariant. simpl.
    repeat (split; [assumption|]).
    split; [reflexivity|lia]. }
  destruct (allowance - expenses <=? 0) eqn:Hnet; [discriminate|].
  destruct (lower_is_n (ti_use_interest inp)).
  - unfold truediv.
    destruct (allowance - expenses =? 0); [discriminate|].
    destruct (math_ceil (goal / (allowance - expenses))) as [n|] eqn:Hn;
      [|discriminate].
    destruct (show_days (n * multiplier)); [|discriminate].
    intro H. injection H as H.
    apply (Hplan _ _ _ (quotient_ceiling_nonneg _ _ _ Pg Hnet Hn) H).
  - destruct (input_validation py_float (ti_interest_rate inp) "Interest rate")
      as [percent|[e| |]]; try discriminate.
    destruct (interest_loop fuel goal (allowance - expenses) multiplier
                (percent / 100) 0 0) as [[[total total_days]|[e| |]]|] eqn:Hloop;
      try discriminate.
    apply interest_loop_days in Hloop.
    destruct (int_truediv total_days multiplier) as [q|[e| |]] eqn:Hq;
      try discriminate.
    destruct (math_ceil q) as [n|[e| |]] eqn:Hn; try discriminate.
    destruct (show_days total_days) as [shown|[e| |]]; try discriminate.
    intro H. injection H as H.
    apply (Hplan _ _ _ (int_truediv_ceiling_nonneg _ _ _ _ Hloop Hm Hq Hn) H).
Qed.

Lemma add_saved_keeps_invariant (p p' : Plan) (amount : float) :
  plan_invariant p -> is_nan amount = false ->
  add_saved p amount = Ok p' ->
  plan_invariant p' /\ periods p' = periods p.
Proof.
  intros (Ha & He & Hg & Hp & Hs & Hd) Hnan. unfold add_saved.
  destruct (amount <=? 0) eqn:Hle; [discriminate|].
  intro H. injection H as H. subst p'.
  unfold plan_invariant. simpl.
  split; [|reflexivity].
  repeat (split; [assumption|]).
  split; [|lia].
  apply add_nonneg; [exact Hs|apply not_leb_zero; assumption].
Qed.

Lemma update_allowance_keeps_invariant (p p' : Plan) (new_allowance : float) :
  plan_invariant p -> is_nan new_allowance = false ->
  update_allowance p new_allowance = Ok p' ->
  plan_invariant p' /\ periods p' = periods p.
Proof.
  intros (Ha & He & Hg & Hp & Hs & Hd) Hnan. unfold update_allowance.
  destruct (new_allowance <=? 0) eqn:Hle; [discriminate|].
  intro H. injection H as H. subst p'.
  unfold plan_invariant. simpl.
  split; [|reflexivity].
  split; [apply not_leb_zero; assumption|].
  repeat (split; [assumption|]). assumption.
Qed.

Lemma update_expenses_keeps_invariant (p p' : Plan) (new_expenses : float) :
  plan_invariant p -> is_nan new_expenses = false ->
  update_expenses p new_expenses = Ok p' ->
  plan_invariant p' /\ periods p' = periods p.
Proof.
  intros (Ha & He & Hg & Hp & Hs & Hd) Hnan. unfold update_expenses.
  destruct (new_expenses <=? 0) eqn:Hle; [discriminate|].
  intro H. injection H as H. subst p'.
  unfold plan_invariant. simpl.
  split; [|reflexivity].
  split; [assumption|].
  split; [apply not_leb_zero; assumption|].
  repeat (split; [assumption|]). assumption.
Qed.

Lemma reset_keeps_invariant (p : Plan) :
  plan_invariant p -> plan_invariant (reset p) /\ periods (reset p) = periods p.
Proof.
  intros (Ha & He & Hg & Hp & Hs & Hd).
  unfold plan_invariant. simpl.
  split; [|reflexivity].
  repeat (split; [assumption|]).
  split; [reflexivity|lia].
Qed.

(** C5, as amended: a plan created by menu 1 on its "possible" ending, or
    by menu 2 from typed numbers none of which is NaN, and then changed by
    [add_saved], [update_allowance], [update_expenses] (with arguments
    that are not NaN) and [reset], has allowance > 0, expenses > 0,
    goal > 0, periods >= 0, saved_so_far >= 0 and days_passed >= 0; a plan
    that comes from menu 1 has periods > 0. *)
Theorem reachable_plans_keep_binary64_invariants
    (py_float : string -> option float) (o : origin) (p : Plan) :
  reachable py_float o p ->
  plan_invariant p /\ (o = FromFeasibility -> (0 < periods p)%Z).
Proof.
  intro H.
  induction H as [m u inp pu d ex plan Hrun
                 |fuel m u inp w n days plan Hm Na Ne Ng Hrun
                 |o p p' amount Hp IH Hnan Hadd
                 |o p p' new_allowance Hp IH Hnan Hupdate
                 |o p p' new_expenses Hp IH Hnan Hupdate
                 |o p Hp IH].
  - apply feasibility_plan_invariant in Hrun. destruct Hrun as [Hinv Hpos].
    split; [exact Hinv|intros _; exact Hpos].
  - split; [|discriminate].
    exact (time_needed_plan_invariant _ _ _ _ _ _ _ _ _ Hm Na Ne Ng Hrun).
  - destruct IH as [Hinv Hpos].
    destruct (add_saved_keeps_invariant _ _ _ Hinv Hnan Hadd) as [Hinv' Hsame].
    split; [exact Hinv'|rewrite Hsame; exact Hpos].
  - destruct IH as [Hinv Hpos].
    destruct (update_allowance_keeps_invariant _ _ _ Hinv Hnan Hupdate)
      as [Hinv' Hsame].
    split; [exact Hinv'|rewrite Hsame; exact Hpos].
  - destruct IH as [Hinv Hpos].
    destruct (update_expenses_keeps_invariant _ _ _ Hinv Hnan Hupdate)
      as [Hinv' Hsame].
    split; [exact Hinv'|rewrite Hsame; exact Hpos].
  - destruct IH as [Hinv Hpos].
    destruct (reset_keeps_invariant _ Hinv) as [Hinv' Hsame].
    split; [exact Hinv'|rewrite Hsame; exact Hpos].
Qed.

Lemma reachable_plans_keep_binary64_invariants_witness :
  plan_invariant saved_trip_after_a_day
  /\ (FromFeasibility = FromFeasibility
      -> (0 < periods saved_trip_after_a_day)%Z).
Proof.
  apply (reachable_plans_keep_binary64_invariants binary64_of_text).
  apply (after_add_saved binary64_of_text FromFeasibility saved_trip _ 20).
  - apply (created_by_feasibility binary64_of_text 1 "day" easy_inputs
             100 200 3000).
    vm_compute. reflexivity.
  - reflexivity.
  - reflexivity.
Defined.

(** The ending of menu 1 that C5 as amended leaves out: with allowance
    100, expenses 50, one day and goal 100 the adjusted plan is saved with
    expenses 50 - 50/1 = 0. *)
Lemma adjusted_plan_has_zero_expenses :
  exists plan,
    menu_check_feasibility binary64_of_text 1 "day" all_or_nothing_inputs
    = Ok (FeasibilityResult (NotPossibleWithCurrentExpenses 50 50) (Some plan))
    /\ (expenses plan =? 0) = true
    /\ ~ plan_invariant plan.
Proof.
  eexists. split; [vm_compute; reflexivity|].
  split; [reflexivity|].
  intros (_ & H & _). vm_compute in H. discriminate.
Qed.

(** What the provisos of C5 exclude: "nan" typed as the goal of menu 2
    passes the validation and is saved, with zero periods; "nan" passed
    to [add_saved] is added. *)
Lemma typed_nan_is_stored :
  (exists plan,
     menu_time_needed binary64_of_text 1 1 "day" nan_goal_inputs
     = Some (Ok (TimeNeeded true 0 0 (Some plan)))
     /\ is_nan (goal plan) = true /\ periods plan = 0%Z
     /\ ~ plan_invariant plan)
  /\ (exists plan,
        add_saved saved_trip nan = Ok plan
        /\ is_nan (saved_so_far plan) = true
        /\ ~ plan_invariant plan).
Proof.
  split.
  - eexists. split; [vm_compute; reflexivity|].
    split; [reflexivity|]. split; [reflexivity|].
    intros (_ & _ & H & _). vm_compute in H. discriminate.
  - eexists. split; [vm_compute; reflexivity|].
    split; [reflexivity|].
    intros (_ & _ & _ & _ & H & _). vm_compute in H. discriminate.
Qed.

(** A plan of menu 2 has zero periods when the quotient under [math.ceil]
    is rounded to zero: the goal 5e-324 over the net amount 2. *)
Lemma tiny_goal_gives_zero_periods :
  exists plan,
    menu_time_needed binary64_of_text 0 1 "day" tiny_goal_inputs
    = Some (Ok (TimeNeeded false 0 0 (Some plan)))
    /\ (0 <? goal plan) = true /\ periods plan = 0%Z.
Proof.
  eexists. split; [vm_compute; reflexivity|].
  split; reflexivity.
Qed.

(** ** [input_validation] *)



(** ** The tracker *)

(** X21: the tracker functions keep the invariants of the plan they work
    on, whenever no text typed into them is read as NaN: after
    [add_saved_amount], [adjust_plan] and [reset_plan] the plan still has
    allowance > 0, expenses > 0, goal > 0, periods >= 0,
    saved_so_far >= 0 and days_passed >= 0, and the same number of
    periods. *)
Theorem tracker_keeps_binary64_invariants (py_float : string -> option float)
    (p : Plan) :
  plan_invariant p ->
  (forall raw,
     reads_nan py_float raw = false ->
     plan_invariant (add_saved_amount py_float p raw)
     /\ periods (add_saved_amount py_float p raw) = periods p)
  /\ (forall raw_allowance raw_expenses,
        reads_nan py_float raw_allowance = false ->
        reads_nan py_float raw_expenses = false ->
        plan_invariant (adjust_plan py_float p raw_allowance raw_expenses)
        /\ periods (adjust_plan py_float p raw_allowance raw_expenses)
           = periods p)
  /\ (forall confirm,
        plan_invariant (reset_plan p confirm)
        /\ periods (reset_plan p confirm) = periods p).
Proof.
  intro Hinv. split; [|split].
  - intros raw Hnan. unfold add_saved_amount.
    destruct (input_validation py_float raw "Saved amount")
      as [amount|] eqn:Hamount; simpl; [|auto].
    destruct (add_saved p amount) as [p'|] eqn:Hadd; [|auto].
    apply (add_saved_keeps_invariant p p' amount); try assumption.
    apply input_validation_inv in Hamount. destruct Hamount as [Hread _].
    unfold reads_nan in Hnan. rewrite Hread in Hnan. exact Hnan.
  - intros raw_allowance raw_expenses Na Ne. unfold adjust_plan.
    destruct (input_validation py_float raw_allowance "Allowance")
      as [new_allowance|] eqn:Ha; simpl; [|auto].
    destruct (input_validation py_float raw_expenses "Expenses")
      as [new_expenses|] eqn:He; simpl; [|auto].
    apply input_validation_inv in Ha, He.
    destruct Ha as [Ra _], He as [Re _].
    unfold reads_nan in Na, Ne. rewrite Ra in Na. rewrite Re in Ne.
    destruct (update_allowance p new_allowance) as [p1|] eqn:H1; [|auto].
    destruct (update_allowance_keeps_invariant _ _ _ Hinv Na H1)
      as [Hinv1 Hsame1].
    destruct (update_expenses p1 new_expenses) as [p2|] eqn:H2; [|auto].
    destruct (update_expenses_keeps_invariant _ _ _ Hinv1 Ne H2)
      as [Hinv2 Hsame2].
    split; [exact Hinv2|congruence].
  - intro confirm. unfold reset_plan.
    destruct (lower_is_y confirm); [apply reset_keeps_invariant, Hinv|auto].
Qed.

Lemma tracker_keeps_binary64_invariants_witness :
  plan_invariant (add_saved_amount binary64_of_text saved_trip "20")
  /\ add_saved_amount binary64_of_text saved_trip "20" = saved_trip_after_a_day.
Proof.
  split; [|reflexivity].
  apply (proj1 (tracker_keeps_binary64_invariants binary64_of_text saved_trip
                  ltac:(repeat split; discriminate))).
  reflexivity.
Defined.

End Binary64Facts.
